(** * Statistics engine and spreadsheet exporter of the FSADA scripts

    A shallow embedding of [fsada_stats_ai_studio.py] and
    [fsada_stats_openai.py]: the error-message normaliser, the statistics
    record built by [SQLiteAnalyzer.get_stats], the export rows and the
    writer that appends rows to the worksheet of a template archive.

    Modelling conventions.
    - A Python [str] is a [string]; one [ascii] stands for one character
      (code points below 256).
    - A Python [int] is a [Z].
    - A [dict] whose iteration order is observed (the error breakdown,
      the attributes of an XML element) is an association list in
      insertion order.
    - A field of a database row holds a value of any of SQLite's storage
      classes, and reaches Python as [None], [int], [float], [str] or
      [bytes].
    - The file system gives the file that each path names and the archive
      that each file holds; two paths may name one file. *)

From Stdlib Require Import ZArith Lia Ascii String.
From Stdlib Require Import DecimalString DecimalZ DecimalPos.
From stdpp Require Import gmap strings list sorting.

Local Open Scope Z_scope.

#[local] Arguments String.append !s1 s2 : simpl nomatch.

(** ** Strings *)

Module Str.

Definition LF : ascii := ascii_of_nat 10.
Definition CR : ascii := ascii_of_nat 13.

(** [s[:n]] *)
Fixpoint take (n : nat) (s : string) : string :=
  match n, s with
  | S n', String c s' => String c (take n' s')
  | _, _ => EmptyString
  end.

(** [len(s)] *)
Definition len (s : string) : Z := Z.of_nat (String.length s).

(** [s.replace(old, new)] for a one-character [old]. *)
Fixpoint replace_char (old : ascii) (new : string) (s : string) : string :=
  match s with
  | EmptyString => EmptyString
  | String c s' =>
      if Ascii.eqb c old then new +:+ replace_char old new s'
      else String c (replace_char old new s')
  end.

(** No character of [s] is a line feed. *)
Fixpoint no_newline (s : string) : bool :=
  match s with
  | EmptyString => true
  | String c s' => negb (Ascii.eqb c LF) && no_newline s'
  end.

Fixpoint has (c : ascii) (s : string) : bool :=
  match s with
  | EmptyString => false
  | String d s' => Ascii.eqb d c || has c s'
  end.

End Str.

(** ** Regular expressions: the fragment of [re] that [ERROR_PATTERN] uses

    Atoms are a literal character (possibly written with a backslash) and
    the dot, which matches every character but a line feed (no DOTALL flag
    is given); an atom may be followed by a star. *)

Module Re.

Inductive atom := AChar (c : ascii) | AAny.
Inductive item := One (a : atom) | Star (a : atom).

Definition atom_of (c : ascii) : atom :=
  if Ascii.eqb c "." then AAny else AChar c.

(** [re.compile]: reads the pattern text left to right. *)
Fixpoint compile (p : string) : list item :=
  match p with
  | EmptyString => []
  | String c rest =>
      if Ascii.eqb c "\" then
        match rest with
        | EmptyString => []
        | String e rest' =>
            match rest' with
            | String "*" r => Star (AChar e) :: compile r
            | _ => One (AChar e) :: compile rest'
            end
        end
      else
        match rest with
        | String "*" r => Star (atom_of c) :: compile r
        | _ => One (atom_of c) :: compile rest
        end
  end.

Definition atom_matches (a : atom) (c : ascii) : bool :=
  match a with
  | AChar x => Ascii.eqb x c
  | AAny => negb (Ascii.eqb c Str.LF)
  end.

(** Backtracking matcher anchored at the start of the subject only:
    when the pattern is used up the match succeeds whatever is left. *)
Fixpoint match_here (p : list item) : string -> bool :=
  match p with
  | [] => fun _ => true
  | One a :: p' => fun s =>
      match s with
      | String c s' => atom_matches a c && match_here p' s'
      | EmptyString => false
      end
  | Star a :: p' =>
      fix star (s : string) : bool :=
        match_here p' s ||
        match s with
        | String c s' => atom_matches a c && star s'
        | EmptyString => false
        end
  end.

(** [re.match(pattern, s)] as a truth value. *)
Definition match_ (pattern s : string) : bool := match_here (compile pattern) s.

End Re.

(** ** Python built-ins used by both scripts *)

Module Py.

(** [str(n)] for an [int]. *)
Definition str (n : Z) : string := NilZero.string_of_int (Z.to_int n).

(** [chr(n)] *)
Definition chr (n : Z) : ascii := ascii_of_nat (Z.to_nat n).

(** [os.path.basename]: what follows the last slash. *)
Fixpoint basename (p : string) : string :=
  match p with
  | EmptyString => EmptyString
  | String c p' =>
      if Str.has "/" p' then basename p'
      else if Ascii.eqb c "/" then p' else p
  end.

(** An insertion-ordered [dict] from [str] to [int]. *)
Definition dict := list (string * Z).

(** [d.get(k, dflt)] *)
Fixpoint get (d : dict) (k : string) (dflt : Z) : Z :=
  match d with
  | [] => dflt
  | (k', v) :: d' => if String.eqb k' k then v else get d' k dflt
  end.

(** [d[k] = v]: an existing key keeps its place, a new one goes last. *)
Fixpoint set (d : dict) (k : string) (v : Z) : dict :=
  match d with
  | [] => [(k, v)]
  | (k', v') :: d' =>
      if String.eqb k' k then (k', v) :: d' else (k', v') :: set d' k v
  end.

(** [sorted(items, key=..., reverse=True)]: the stable descending sort.
    [sorted] keeps the input order of items with equal keys, also with
    [reverse=True]. *)
Section Sorted.
Context {A : Type} (key : A -> Z).

Fixpoint insert_desc (x : A) (l : list A) : list A :=
  match l with
  | [] => [x]
  | y :: l' =>
      if key y <=? key x then x :: y :: l' else y :: insert_desc x l'
  end.

Definition sorted_desc (l : list A) : list A := foldr insert_desc [] l.
End Sorted.

End Py.

(** ** The database file behind [sqlite3.connect]

    A field of a row holds a value of one of SQLite's storage classes,
    whatever the declared type of its column: NULL, an integer, a real, a
    text or a blob. A column may be missing from the table, and the table
    from the file. *)

Module Db.

Inductive column := is_done | cmx_document_id | error_message.

(** A stored value. A real is the number [m * 2 ^ e]. A text is kept as
    the [str] that Python decodes it to; [BadText] is a text whose bytes
    are not valid UTF-8, which Python cannot decode. *)
Inductive cell :=
| Null
| Integer (n : Z)
| Real (m e : Z)
| Text (s : string)
| BadText (b : list Byte.byte)
| Blob (b : list Byte.byte).

Record row := Row {
  r_is_done : cell;
  r_cmx_document_id : cell;
  r_error_message : cell
}.

(** A field as [fetchall] hands it to Python: [None], an [int], a
    [float], a [str] or a [bytes]. *)
Inductive pyvalue :=
| PNone
| PInt (n : Z)
| PFloat (m e : Z)
| PStr (s : string)
| PBytes (b : list Byte.byte).

(** The columns that the table has, and its rows. The declared type of
    a column bears on the statements only through the comparisons on
    [is_done]: [is_done_text] tells whether that column is declared with
    a text type, so that it is compared as a text. *)
Record table := Table {
  columns : list column;
  is_done_text : bool;
  rows : list row
}.

(** [None]: the file cannot be queried (not a database, no such table). *)
Definition database := option table.

(** The six statements that [get_stats] sends. *)
Inductive query :=
| CountTotal                (* SELECT COUNT( * ) FROM t *)
| CountIsDone (k : Z)       (* ... WHERE is_done = k *)
| CountCmxNotEmpty          (* ... WHERE cmx_document_id IS NOT NULL
                                     AND TRIM(cmx_document_id) <> '' *)
| CountErrorNotEmpty        (* ... WHERE is_done = 0
                                     AND error_message IS NOT NULL
                                     AND TRIM(error_message) <> '' *)
| SelectErrorMessage.       (* SELECT error_message ... same WHERE *)

Definition column_eqb (a b : column) : bool :=
  match a, b with
  | is_done, is_done | cmx_document_id, cmx_document_id
  | error_message, error_message => true
  | _, _ => false
  end.

Definition has_column (t : table) (c : column) : bool :=
  existsb (column_eqb c) (columns t).

Definition columns_of (q : query) : list column :=
  match q with
  | CountTotal => []
  | CountIsDone _ => [is_done]
  | CountCmxNotEmpty => [cmx_document_id]
  | CountErrorNotEmpty | SelectErrorMessage => [is_done; error_message]
  end.

(** SQL [TRIM(x)]: spaces are removed from both ends. *)
Fixpoint ltrim (s : string) : string :=
  match s with
  | String c s' => if Ascii.eqb c " " then ltrim s' else s
  | EmptyString => EmptyString
  end.

Fixpoint rtrim (s : string) : string :=
  match s with
  | EmptyString => EmptyString
  | String c s' =>
      match rtrim s' with
      | EmptyString => if Ascii.eqb c " " then EmptyString else String c EmptyString
      | t => String c t
      end
  end.

Definition trim (s : string) : string := rtrim (ltrim s).

(** [TRIM] works on the bytes of a blob, and of a text that does not
    decode, as on a text: what is left is empty when every byte is a
    space. *)
Definition blank (b : list Byte.byte) : bool := forallb (Byte.eqb Byte.x20) b.

(** [x IS NOT NULL AND TRIM(x) <> '']. [TRIM] of a number is the text
    that writes it, which is never empty. *)
Definition not_empty (x : cell) : bool :=
  match x with
  | Null => false
  | Integer _ | Real _ _ => true
  | Text s => negb (String.eqb (trim s) "")
  | BadText b | Blob b => negb (blank b)
  end.

(** [x = k] for the integer [k] and the value [x] of a column. In a
    column declared with a text type, [k] is compared as the text that
    writes it, byte by byte, and a number as its text. Otherwise numbers
    are compared by value, and a text or a blob, kept as it is stored,
    is not equal to a number. A comparison with NULL is not true. *)
Definition eq_int (as_text : bool) (x : cell) (k : Z) : bool :=
  if as_text then
    match x with
    | Integer n => n =? k
    | Text s => String.eqb s (Py.str k)
    | _ => false
    end
  else
    match x with
    | Integer n => n =? k
    | Real m e => if 0 <=? e then m * 2 ^ e =? k else m =? k * 2 ^ (- e)
    | _ => false
    end.

(** [is_done = k] *)
Definition is_done_eq (t : table) (k : Z) (r : row) : bool :=
  eq_int (is_done_text t) (r_is_done r) k.

Definition where_ (t : table) (q : query) (r : row) : bool :=
  match q with
  | CountTotal => true
  | CountIsDone k => is_done_eq t k r
  | CountCmxNotEmpty => not_empty (r_cmx_document_id r)
  | CountErrorNotEmpty | SelectErrorMessage =>
      is_done_eq t 0 r && not_empty (r_error_message r)
  end.

(** The rows a statement selects, or [None] when sqlite3 raises
    [OperationalError] (no table, or a column of the statement is
    missing). *)
Definition selected (db : database) (q : query) : option (list row) :=
  match db with
  | None => None
  | Some t =>
      if forallb (has_column t) (columns_of q)
      then Some (List.filter (where_ t q) (rows t))
      else None
  end.

(** [_execute_query(query, fetch_one=True)], as the COUNT statements are
    run: the cursor has one row, whose first field is the count. [None] is
    the [result = None] of the two [except] branches. *)
Definition _execute_query_fetchone (db : database) (q : query) : option Z :=
  match selected db q with
  | None => None
  | Some rs => Some (Z.of_nat (length rs))
  end.

(** The Python value of a field; there is none for a text that is not
    valid UTF-8: sqlite3 raises [OperationalError]. *)
Definition to_python (x : cell) : option pyvalue :=
  match x with
  | Null => Some PNone
  | Integer n => Some (PInt n)
  | Real m e => Some (PFloat m e)
  | Text s => Some (PStr s)
  | BadText _ => None
  | Blob b => Some (PBytes b)
  end.

(** [_execute_query(query)], as the SELECT statement is run:
    [fetchall()], one field per row. [None] is the [result = None] of
    the [except] branches: the statement fails as the COUNT statements
    do, or a selected text cannot be decoded. *)
Definition _execute_query_fetchall (db : database) (q : query)
  : option (list pyvalue) :=
  match selected db q with
  | None => None
  | Some rs => mapM (fun r => to_python (r_error_message r)) rs
  end.

End Db.

(** ** The statistics record (the [dict] that [get_stats] returns) *)

Record stats := Stats {
  db_name : string;
  db_path : string;
  total_rows : Z;
  is_done_1_count : Z;
  cmx_document_id_not_empty_count : Z;
  is_done_0_count : Z;
  is_done_0_with_error_count : Z;
  error_message_breakdown : Py.dict
}.

(** [x or 0] for the result of a COUNT statement. *)
Definition or_0 (x : option Z) : Z := default 0 x.

(** ** Cell values of an export row *)

(** What a row can hold: [None], an [int], a [float] (carried as the text
    that [str] gives for it) and a [str]. *)
Inductive value :=
| VNone
| VInt (n : Z)
| VFloat (repr : string)
| VStr (s : string).

(** ** fsada_stats_ai_studio.py *)

Module AiStudio.

Definition ERROR_PATTERN : string :=
  "The specified file .* does not exists or is not readable\.: Invalid file".

Definition NORMALIZED_ERROR_MESSAGE : string :=
  "The specified file {{file_full_path}} does not exists or is not readable.: Invalid file".

(** Lines 131-134 of [get_stats]: the canonical key of a message. *)
Definition normalize (message : string) : string :=
  if Re.match_ ERROR_PATTERN message
  then NORMALIZED_ERROR_MESSAGE
  else message.

(** One turn of the loop of lines 129-138.
    [None] stands for the [TypeError] that [re.match] raises for a
    message that is not a [str]. *)
Definition count_message (error_message_counts : Py.dict)
    (row : Db.pyvalue) : option Py.dict :=
  let message :=
    match row with Db.PNone => Db.PStr EmptyString | _ => row end in
  match message with
  | Db.PStr message =>
      let normalized_msg := normalize message in
      Some (Py.set error_message_counts normalized_msg
              (Py.get error_message_counts normalized_msg 0 + 1))
  | _ => None
  end.

(** The loop of lines 129-138 over the rows fetched; [None]: a turn
    raised. *)
Fixpoint count_messages (rows : list Db.pyvalue)
    (error_message_counts : Py.dict) : option Py.dict :=
  match rows with
  | [] => Some error_message_counts
  | row :: rows' =>
      match count_message error_message_counts row with
      | Some counts => count_messages rows' counts
      | None => None
      end
  end.

(** [SQLiteAnalyzer(db_path).get_stats()], where [db] is the content of
    the file at [db_path]. The inner [None] is the [return None] of the
    [except Exception] branch of lines 151-155. Console output is left
    out. *)
Definition get_stats (db_path : string) (db : Db.database) : option stats :=
  let db_name := Py.basename db_path in
  match Db._execute_query_fetchone db Db.CountTotal with
  | None => None
  | Some count_total =>
      let count_is_done_1 := Db._execute_query_fetchone db (Db.CountIsDone 1) in
      let count_cmx_not_empty := Db._execute_query_fetchone db Db.CountCmxNotEmpty in
      let count_is_done_0 := Db._execute_query_fetchone db (Db.CountIsDone 0) in
      let count_error_not_empty := Db._execute_query_fetchone db Db.CountErrorNotEmpty in
      let error_message_counts_raw := Db._execute_query_fetchall db Db.SelectErrorMessage in
      match count_messages (default [] error_message_counts_raw) [] with
      | None => None
      | Some error_message_counts =>
          Some {|
            db_name := db_name;
            db_path := db_path;
            total_rows := count_total;
            is_done_1_count := or_0 count_is_done_1;
            cmx_document_id_not_empty_count := or_0 count_cmx_not_empty;
            is_done_0_count := or_0 count_is_done_0;
            is_done_0_with_error_count := or_0 count_error_not_empty;
            error_message_breakdown := error_message_counts
          |}
      end
  end.

(** The label shown in place of the canonical key; character 201 is the
    capital E with an acute accent. *)
Definition MISSING_FILE_LABEL : string :=
  "[FICHIER MANQUANT NORMALIS" +:+ String (ascii_of_nat 201) "]".

(** Lines 232-237 of [format_stats_report]: the text shown for [msg]. *)
Definition display (msg : string) : string :=
  let truncated :=
    if 80 <? Str.len msg then Str.take 77 msg +:+ "..." else msg in
  if String.eqb msg NORMALIZED_ERROR_MESSAGE
  then MISSING_FILE_LABEL
  else truncated.

(** Lines 227-238: the rows of the error table of one record. *)
Definition err_rows (error_breakdown : Py.dict) : list (string * Z) :=
  let sorted_errors := Py.sorted_desc snd error_breakdown in
  map (fun it : string * Z => let (msg, cnt) := it in (display msg, cnt))
    sorted_errors.

(** Line 306: [msg.replace("\n", " ").replace("\r", "")]. *)
Definition clean_msg (msg : string) : string :=
  Str.replace_char Str.CR EmptyString
    (Str.replace_char Str.LF " " msg).

(** Lines 289-314 of [export_to_excel_csv]: the rows written for one
    record. *)
Definition csv_rows_of_stat (fs_system_name : string) (stat : stats)
  : list (list value) :=
  let base_info :=
    [VStr fs_system_name; VStr (db_path stat); VInt (total_rows stat);
     VInt (is_done_1_count stat); VInt (is_done_0_count stat)] in
  let errors := error_message_breakdown stat in
  match errors with
  | _ :: _ =>
      let sorted_errors := Py.sorted_desc snd errors in
      map (fun it : string * Z =>
             let (msg, count) := it in
             base_info ++ [VStr (clean_msg msg); VInt count])
        sorted_errors
  | [] => [base_info ++ [VStr EmptyString; VInt 0]]
  end.

(** Lines 284-314: the data rows of the file, in writing order;
    [rows_written] is their number. *)
Definition csv_rows (all_stats : list stats) (fs_system_name : string)
  : list (list value) :=
  fold_left (fun rows stat => rows ++ csv_rows_of_stat fs_system_name stat)
    all_stats [].

End AiStudio.

(** ** xml.etree.ElementTree *)

Module ET.

#[local] Set Warnings "-register-all".

Inductive element := Element {
  tag : string;
  attrib : list (string * string);
  text : option string;
  tail : option string;
  children : list element
}.

(** [e.get(key)] *)
Fixpoint lookup_attr (a : list (string * string)) (key : string) : option string :=
  match a with
  | [] => None
  | (k, v) :: a' => if String.eqb k key then Some v else lookup_attr a' key
  end.

Definition get (e : element) (key : string) : option string :=
  lookup_attr (attrib e) key.

Fixpoint set_attr (a : list (string * string)) (key v : string)
  : list (string * string) :=
  match a with
  | [] => [(key, v)]
  | (k, v') :: a' =>
      if String.eqb k key then (k, v) :: a' else (k, v') :: set_attr a' key v
  end.

(** [e.set(key, v)] *)
Definition set (e : element) (key v : string) : element :=
  Element (tag e) (set_attr (attrib e) key v) (text e) (tail e) (children e).

(** [e.text = s] *)
Definition set_text (e : element) (s : string) : element :=
  Element (tag e) (attrib e) (Some s) (tail e) (children e).

(** [e.append(child)] *)
Definition append (e child : element) : element :=
  Element (tag e) (attrib e) (text e) (tail e) (children e ++ [child]).

(** [ET.Element(tag, attrib)] *)
Definition new (tag : string) (attrib : list (string * string)) : element :=
  Element tag attrib None None [].

Definition has_tag (t : string) (e : element) : bool := String.eqb (tag e) t.

(** [e.find(t)]: the first child with tag [t]. *)
Definition find (e : element) (t : string) : option element :=
  List.find (has_tag t) (children e).

(** [e.findall(t)]: the children with tag [t], in document order. *)
Definition findall (e : element) (t : string) : list element :=
  List.filter (has_tag t) (children e).

(** The tree after a change [f] made in place to the element that
    [e.find(t)] returned. *)
Fixpoint update_first (t : string) (f : element -> element)
    (l : list element) : list element :=
  match l with
  | [] => []
  | c :: l' => if has_tag t c then f c :: l' else c :: update_first t f l'
  end.

Definition update_found (e : element) (t : string) (f : element -> element)
  : element :=
  Element (tag e) (attrib e) (text e) (tail e) (update_first t f (children e)).

End ET.

(** ** More built-ins: [int(s)] *)

Module PyInt.

(** The characters below code point 256 that [int] strips from both
    ends: tab to carriage return, the space, and the two spaces above
    the ASCII range. *)
Definition is_space (c : ascii) : bool :=
  let n := nat_of_ascii c in
  ((9 <=? n) && (n <=? 13) || (n =? 32) || (n =? 133) || (n =? 160))%nat.

Definition digit (c : ascii) : option Z :=
  let n := nat_of_ascii c in
  if ((48 <=? n) && (n <=? 57))%nat then Some (Z.of_nat n - 48) else None.

Fixpoint lstrip (s : string) : string :=
  match s with
  | String c s' => if is_space c then lstrip s' else s
  | EmptyString => EmptyString
  end.

Fixpoint rstrip (s : string) : string :=
  match s with
  | EmptyString => EmptyString
  | String c s' =>
      match rstrip s' with
      | EmptyString => if is_space c then EmptyString else String c EmptyString
      | t => String c t
      end
  end.

(** Decimal digits, with single underscores allowed between digits.
    [after_digit] tells whether the previous character was a digit. *)
Fixpoint digits (acc : Z) (after_digit : bool) (s : string) : option Z :=
  match s with
  | EmptyString => if after_digit then Some acc else None
  | String c s' =>
      match digit c with
      | Some d => digits (10 * acc + d) true s'
      | None =>
          if Ascii.eqb c "_" && after_digit then digits acc false s' else None
      end
  end.

(** [int(s)]; [None] stands for [ValueError]. *)
Definition of_str (s : string) : option Z :=
  match rstrip (lstrip s) with
  | String "-" r => Z.opp <$> digits 0 false r
  | String "+" r => digits 0 false r
  | t => digits 0 false t
  end.

(** [int(x)] for [x = e.get(key)]; [int(None)] raises [TypeError]. *)
Definition of_attr (x : option string) : option Z :=
  match x with
  | None => None
  | Some s => of_str s
  end.

End PyInt.

(** ** zipfile and the file system *)

Module Zip.

Abbreviation bytes := (list Byte.byte).

(** The members of an archive in the order of [infolist()]. *)
Abbreviation archive := (list (string * bytes)).

(** The data that [read(name)] returns: [NameToInfo] keeps the last
    member of that name. *)
Fixpoint member (ar : archive) (name : string) : option bytes :=
  match ar with
  | [] => None
  | (n, d) :: ar' =>
      match member ar' name with
      | Some d' => Some d'
      | None => if String.eqb n name then Some d else None
      end
  end.

Definition names (ar : archive) : list string := map fst ar.

End Zip.

(** The exceptions that the export can raise. [OSError] stands for what
    [open] raises when a path cannot be opened for writing
    ([PermissionError], [IsADirectoryError], [FileNotFoundError] for a
    missing directory). *)
Inductive exn :=
| ValueError | RuntimeError | KeyError | FileNotFoundError | BadZipFile
| ParseError | OSError.

(** What is done to the files, in order. *)
Inductive event :=
| EvOpenRead (path : string)
| EvRead (path name : string)
| EvOpenWrite (path : string)
| EvWrite (path name : string).

(** The file system and the operations done on it so far. A path names
    a file by its number: two paths with the same number are two names
    of one file (the same path written in another way, a link).
    [writable] tells which paths can be opened for writing. [files] gives
    the archive that each existing file holds. *)
Record world := World {
  node : string -> nat;
  writable : string -> bool;
  files : gmap nat Zip.archive;
  trace : list event
}.

(** A call returns a value or raises. *)
Inductive outcome (A : Type) :=
| Return (a : A)
| Raise (e : exn).
Arguments Return {A} a.
Arguments Raise {A} e.

(** Computations that read and write files and may raise. *)
Definition M (A : Type) : Type := world -> outcome A * world.

Definition ret {A} (a : A) : M A := fun w => (Return a, w).
Definition raise {A} (e : exn) : M A := fun w => (Raise e, w).
Definition bind {A B} (m : M A) (k : A -> M B) : M B :=
  fun w =>
    match m w with
    | (Return a, w') => k a w'
    | (Raise e, w') => (Raise e, w')
    end.

Notation "'let!' x := m 'in' k" := (bind m (fun x => k))
  (at level 10, x name, m at level 100, k at level 200,
   format "'[v' 'let!'  x  :=  m  'in' '/' k ']'").
Notation "'run!' m 'in' k" := (bind m (fun _ => k))
  (at level 10, m at level 100, k at level 200,
   format "'[v' 'run!'  m  'in' '/' k ']'").

Fixpoint for_each {A} (l : list A) (body : A -> M unit) : M unit :=
  match l with
  | [] => ret tt
  | x :: l' => run! body x in for_each l' body
  end.

(** [zipfile.ZipFile(path, "r")]: the member list is read on opening. *)
Definition zip_open_r (path : string) : M Zip.archive :=
  fun w =>
    match files w !! node w path with
    | None => (Raise FileNotFoundError, w)
    | Some ar =>
        (Return ar,
         World (node w) (writable w) (files w) (trace w ++ [EvOpenRead path]))
    end.

(** [zin.read(name)] for the archive [zin] opened at [path]: the name is
    looked up in the member list read at opening, the data is read from
    the file as it is now (what the reader may still hold in a buffer is
    not kept). *)
Definition zip_read (path : string) (zin : Zip.archive) (name : string)
  : M Zip.bytes :=
  fun w =>
    match Zip.member zin name with
    | None => (Raise KeyError, w)
    | Some _ =>
        match files w !! node w path ≫= (fun ar => Zip.member ar name) with
        | None => (Raise BadZipFile, w)
        | Some d =>
            (Return d,
             World (node w) (writable w) (files w)
               (trace w ++ [EvRead path name]))
        end
    end.

(** [zipfile.ZipFile(path, "w", ...)]: [open] raises when the path
    cannot be opened for writing; otherwise the file that the path names
    is created or emptied, under all its names. *)
Definition zip_open_w (path : string) : M unit :=
  fun w =>
    if writable w path then
      (Return tt,
       World (node w) (writable w) (<[node w path := []]> (files w))
         (trace w ++ [EvOpenWrite path]))
    else (Raise OSError, w).

(** [zout.writestr(item, data)] *)
Definition zip_writestr (path name : string) (data : Zip.bytes) : M unit :=
  fun w =>
    (Return tt,
     World (node w) (writable w)
       (<[node w path :=
            default [] (files w !! node w path) ++ [(name, data)]]> (files w))
       (trace w ++ [EvWrite path name])).

(** ** fsada_stats_openai.py *)

Module OpenAI.

Definition ERROR_PATTERN : string :=
  "The specified file .* does not exists or is not readable\.: Invalid file".

Definition NORMALIZED_ERROR_MESSAGE : string :=
  "The specified file {{file_full_path}} does not exists or is not readable.: Invalid file".

(** Lines 132-135 of [get_stats]. *)
Definition normalize (message : string) : string :=
  if Re.match_ ERROR_PATTERN message
  then NORMALIZED_ERROR_MESSAGE
  else message.

(** One turn of the loop of lines 130-139.
    [None] stands for the [TypeError] that [re.match] raises for a
    message that is not a [str]. *)
Definition count_message (error_message_counts : Py.dict)
    (row : Db.pyvalue) : option Py.dict :=
  let message :=
    match row with Db.PNone => Db.PStr EmptyString | _ => row end in
  match message with
  | Db.PStr message =>
      let normalized_msg := normalize message in
      Some (Py.set error_message_counts normalized_msg
              (Py.get error_message_counts normalized_msg 0 + 1))
  | _ => None
  end.

(** The loop of lines 130-139 over the rows fetched; [None]: a turn
    raised. *)
Fixpoint count_messages (rows : list Db.pyvalue)
    (error_message_counts : Py.dict) : option Py.dict :=
  match rows with
  | [] => Some error_message_counts
  | row :: rows' =>
      match count_message error_message_counts row with
      | Some counts => count_messages rows' counts
      | None => None
      end
  end.

(** [SQLiteAnalyzer(db_path).get_stats()]; the inner [None] is the
    [return None] of the [except Exception] branch of lines 152-156.
    Console output is left out. *)
Definition get_stats (db_path : string) (db : Db.database) : option stats :=
  let db_name := Py.basename db_path in
  match Db._execute_query_fetchone db Db.CountTotal with
  | None => None
  | Some count_total =>
      let count_is_done_1 := Db._execute_query_fetchone db (Db.CountIsDone 1) in
      let count_cmx_not_empty := Db._execute_query_fetchone db Db.CountCmxNotEmpty in
      let count_is_done_0 := Db._execute_query_fetchone db (Db.CountIsDone 0) in
      let count_error_not_empty := Db._execute_query_fetchone db Db.CountErrorNotEmpty in
      let error_message_counts_raw := Db._execute_query_fetchall db Db.SelectErrorMessage in
      match count_messages (default [] error_message_counts_raw) [] with
      | None => None
      | Some error_message_counts =>
          Some {|
            db_name := db_name;
            db_path := db_path;
            total_rows := count_total;
            is_done_1_count := or_0 count_is_done_1;
            cmx_document_id_not_empty_count := or_0 count_cmx_not_empty;
            is_done_0_count := or_0 count_is_done_0;
            is_done_0_with_error_count := or_0 count_error_not_empty;
            error_message_breakdown := error_message_counts
          |}
      end
  end.

(** The [while] loop of [_col_idx_to_name]; [idx] decreases at every
    turn, so [Z.to_nat idx] turns are enough. *)
Fixpoint col_loop (fuel : nat) (idx : Z) (name : string) : string :=
  match fuel with
  | O => name
  | S fuel' =>
      if 0 <? idx then
        let rem := (idx - 1) mod 26 in
        let idx := (idx - 1) / 26 in
        col_loop fuel' idx (String (Py.chr (65 + rem)) name)
      else name
  end.

Definition _col_idx_to_name (idx : Z) : string :=
  col_loop (Z.to_nat idx) idx EmptyString.

(** [a or b] on strings. *)
Definition str_or (a b : string) : string :=
  if String.eqb a EmptyString then b else a.

(** The body of the loop of [_build_excel_rows]: the rows of one
    statistics record. *)
Definition rows_of_stats (file_system : string) (stats : stats)
  : list (list value) :=
  let db_path := str_or (db_path stats) (str_or (db_name stats) EmptyString) in
  let total := total_rows stats in
  let done := is_done_1_count stats in
  let err_total := is_done_0_count stats in
  let breakdown := error_message_breakdown stats in
  match breakdown with
  | _ :: _ =>
      map (fun it : string * Z =>
             let (msg, count) := it in
             [VStr file_system; VStr db_path; VInt total; VInt done;
              VInt err_total; VStr msg; VInt count])
          (Py.sorted_desc snd breakdown)
  | [] =>
      [[VStr file_system; VStr db_path; VInt total; VInt done;
        VInt err_total; VStr EmptyString; VInt 0]]
  end.

Definition _build_excel_rows (all_stats : list stats) (file_system : string)
  : list (list value) :=
  fold_left (fun rows stats => rows ++ rows_of_stats file_system stats)
    all_stats [].

Definition main_ns : string :=
  "http://schemas.openxmlformats.org/spreadsheetml/2006/main".
Definition ac_ns : string :=
  "http://schemas.microsoft.com/office/spreadsheetml/2009/9/ac".

(** A tag in Clark notation, [{namespace}local]. *)
Definition qname (ns local : string) : string := "{" +:+ ns +:+ "}" +:+ local.

Definition SHEET : string := "xl/worksheets/sheet1.xml".

(** [value is None or value == ""] *)
Definition is_empty (v : value) : bool :=
  match v with
  | VNone => true
  | VStr s => String.eqb s EmptyString
  | _ => false
  end.

(** [isinstance(value, (int, float))] *)
Definition is_number (v : value) : bool :=
  match v with
  | VInt _ | VFloat _ => true
  | _ => false
  end.

(** [str(value)] *)
Definition str_value (v : value) : string :=
  match v with
  | VNone => "None"
  | VInt n => Py.str n
  | VFloat repr => repr
  | VStr s => s
  end.

(** Lines 348-376: the cell of column [col_idx] in row [row_index]. *)
Definition make_cell (row_index col_idx : Z) (value : value) : ET.element :=
  let col_name := _col_idx_to_name col_idx in
  let cell_ref := col_name +:+ Py.str row_index in
  let cell_attrib := [("r", cell_ref); ("s", "2")] in
  let cell_elem := ET.new (qname main_ns "c") cell_attrib in
  if is_empty value then cell_elem
  else if is_number value then
    let v_elem := ET.set_text (ET.new (qname main_ns "v") []) (str_value value) in
    ET.append cell_elem v_elem
  else
    let cell_elem := ET.set cell_elem "t" "inlineStr" in
    let t_elem := ET.set_text (ET.new (qname main_ns "t") []) (str_value value) in
    let is_elem := ET.append (ET.new (qname main_ns "is") []) t_elem in
    ET.append cell_elem is_elem.

(** Lines 335-378: the row element of index [row_index]. *)
Definition make_row (row_index : Z) (row_values : list value) : ET.element :=
  let row_attrib :=
    [("r", Py.str row_index); ("spans", "1:7");
     (qname ac_ns "dyDescent", "0.25")] in
  let row_elem := ET.new (qname main_ns "row") row_attrib in
  fold_left ET.append
    (imap (fun j value => make_cell row_index (Z.of_nat j + 1) value) row_values)
    row_elem.

(** Lines 322-329: the largest [r] among the rows; a row whose [r] is
    missing or is not a number is passed over. *)
Definition max_row (existing_rows : list ET.element) : Z :=
  fold_left
    (fun max_r r =>
       match PyInt.of_attr (ET.get r "r") with
       | Some rr => if max_r <? rr then rr else max_r
       | None => max_r
       end)
    existing_rows 0.

(** [max_r + 1 if max_r else 1] *)
Definition start_row (max_r : Z) : Z := if max_r =? 0 then 1 else max_r + 1.

(** Lines 334-380: the row elements appended to [sheet_data]. *)
Definition new_rows (sheet_data : ET.element) (rows_data : list (list value))
  : list ET.element :=
  let existing_rows := ET.findall sheet_data (qname main_ns "row") in
  let start_row := start_row (max_row existing_rows) in
  imap (fun i row_values => make_row (start_row + Z.of_nat i) row_values) rows_data.

Definition append_rows (rows_data : list (list value)) (sheet_data : ET.element)
  : ET.element :=
  fold_left ET.append (new_rows sheet_data rows_data) sheet_data.

Section Exporter.
(** [ET.fromstring] ([None]: the text is not well-formed) and
    [ET.tostring(_, encoding="utf-8", xml_declaration=True)]. *)
Variable fromstring : Zip.bytes -> option ET.element.
Variable tostring : ET.element -> Zip.bytes.

Definition parse (sheet_xml : Zip.bytes) : M ET.element :=
  match fromstring sheet_xml with
  | Some root => ret root
  | None => raise ParseError
  end.

Definition export_stats_to_excel (template_path output_path : string)
    (all_stats : list stats) (file_system : string) : M unit :=
  let rows_data := _build_excel_rows all_stats file_system in
  match rows_data with
  | [] => raise ValueError
  | _ :: _ =>
      let! zin := zip_open_r template_path in
      let! sheet_xml := zip_read template_path zin SHEET in
      let! root := parse sheet_xml in
      match ET.find root (qname main_ns "sheetData") with
      | None => raise RuntimeError
      | Some _ =>
          let root :=
            ET.update_found root (qname main_ns "sheetData")
              (append_rows rows_data) in
          let new_sheet_xml := tostring root in
          run! zip_open_w output_path in
          for_each (Zip.names zin) (fun filename =>
            let! data_bytes := zip_read template_path zin filename in
            let data_bytes :=
              if String.eqb filename SHEET then new_sheet_xml else data_bytes in
            zip_writestr output_path filename data_bytes)
      end
  end.
End Exporter.

End OpenAI.

(** ** Text layout: [str * n], [sep.join] and left justification *)

Module Text.

(** [c * n] for a one-character string [c]. *)
Fixpoint rep (c : ascii) (n : nat) : string :=
  match n with
  | O => EmptyString
  | S n' => String c (rep c n')
  end.

(** [sep.join(parts)] *)
Fixpoint join (sep : string) (parts : list string) : string :=
  match parts with
  | [] => EmptyString
  | [p] => p
  | p :: ps => p +:+ sep +:+ join sep ps
  end.

(** ["{:<w}".format(s)] for a [str]: spaces are added on the right up to
    the width [w]; nothing is cut. *)
Definition ljust (s : string) (w : nat) : string :=
  s +:+ rep " " (w - String.length s).

End Text.

(** ** The console tables of fsada_stats_ai_studio.py *)

Module Console.

(** [str(cell)] for what a table cell can hold. *)
Definition str_cell (v : value) : string :=
  match v with
  | VNone => "None"
  | VInt n => Py.str n
  | VFloat repr => repr
  | VStr s => s
  end.

(** The text of line 167; character 233 is the e with an acute accent. *)
Definition NO_DATA : string :=
  "(aucune donn" +:+ String (ascii_of_nat 233) ("e)" +:+ String Str.LF EmptyString).

(** Lines 172-173: the inner loop over the cells of one row, from column
    [i] on. [None] is the [IndexError] of [col_widths[i]]. *)
Fixpoint widen_from (i : nat) (row : list value) (col_widths : list nat)
  : option (list nat) :=
  match row with
  | [] => Some col_widths
  | cell :: row' =>
      match col_widths !! i with
      | None => None
      | Some w =>
          widen_from (S i) row'
            (<[i := Nat.max w (String.length (str_cell cell))]> col_widths)
      end
  end.

(** Lines 170-173 *)
Fixpoint widen_all (rows : list (list value)) (col_widths : list nat)
  : option (list nat) :=
  match rows with
  | [] => Some col_widths
  | row :: rows' =>
      match widen_from 0 row col_widths with
      | None => None
      | Some col_widths => widen_all rows' col_widths
      end
  end.

Definition col_widths_of (headers : list string) (rows : list (list value))
  : option (list nat) :=
  widen_all rows (map String.length headers).

(** Line 175 *)
Definition sep_line (col_widths : list nat) : string :=
  "+" +:+ Text.join "+" (map (fun w => Text.rep "-" (w + 2)) col_widths) +:+ "+".

(** The replacement fields of [fmt] filled from [args], from field [i]
    on. [None] is the [IndexError] of a field without argument. *)
Fixpoint fields_from (i : nat) (col_widths : list nat) (args : list string)
  : option (list string) :=
  match col_widths with
  | [] => Some []
  | w :: ws =>
      match args !! i with
      | None => None
      | Some a =>
          match fields_from (S i) ws args with
          | None => None
          | Some fs => Some ((" " +:+ Text.ljust a w +:+ " ") :: fs)
          end
      end
  end.

(** [fmt.format( *args)] for the [fmt] of line 176. *)
Definition fmt_format (col_widths : list nat) (args : list string)
  : option string :=
  match fields_from 0 col_widths args with
  | None => None
  | Some fs => Some ("|" +:+ Text.join "|" fs +:+ "|")
  end.

(** Lines 181-182: the row lines, up to the first row that raises. *)
Fixpoint print_rows (col_widths : list nat) (rows : list (list value))
  : list string * bool :=
  match rows with
  | [] => ([], true)
  | row :: rows' =>
      match fmt_format col_widths (map str_cell row) with
      | None => ([], false)
      | Some line =>
          let (lines, ok) := print_rows col_widths rows' in (line :: lines, ok)
      end
  end.

(** [print_table(headers, rows, title)]: the arguments of the calls of
    [print], in order, and whether the function returns ([false]: it
    raises [IndexError]). *)
Definition print_table (headers : list string) (rows : list (list value))
    (title : option string) : list string * bool :=
  let out :=
    match title with
    | Some t => if String.eqb t EmptyString then [] else [t]
    | None => []
    end in
  match rows with
  | [] => (out ++ [NO_DATA], true)
  | _ :: _ =>
      match col_widths_of headers rows with
      | None => (out, false)
      | Some col_widths =>
          let sep := sep_line col_widths in
          match fmt_format col_widths headers with
          | None => (out ++ [sep], false)
          | Some header_line =>
              let (lines, ok) := print_rows col_widths rows in
              if ok
              then (out ++ [sep; header_line; sep] ++ lines ++ [sep; EmptyString],
                    true)
              else (out ++ [sep; header_line; sep] ++ lines, false)
          end
      end
  end.

(** Lines 227-244 of [format_stats_report]: the error table of a record
    with a breakdown. The title, whose first character is a pictograph,
    is left to the caller. *)
Definition ERROR_HEADERS : list string := ["Message d'erreur"; "Occurrences"].

Definition error_table (error_breakdown : Py.dict) : list (list value) :=
  map (fun it : string * Z => [VStr (fst it); VInt (snd it)])
    (AiStudio.err_rows error_breakdown).

Definition print_error_table (error_breakdown : Py.dict)
    (title : option string) : list string * bool :=
  print_table ERROR_HEADERS (error_table error_breakdown) title.

End Console.

(** ** The collecting loop of [main] (both scripts) *)

Module Main.

(** The [folder_totals] dictionary of lines 412-418. *)
Record folder_totals := FolderTotals {
  ft_total_rows : Z;
  ft_is_done_1_count : Z;
  ft_is_done_0_count : Z;
  ft_cmx_document_id_not_empty_count : Z;
  ft_is_done_0_with_error_count : Z
}.

Definition zero_totals : folder_totals := FolderTotals 0 0 0 0 0.

(** Lines 427-435: the five [+=]. *)
Definition add_stats (t : folder_totals) (stats : stats) : folder_totals :=
  FolderTotals
    (ft_total_rows t + total_rows stats)
    (ft_is_done_1_count t + is_done_1_count stats)
    (ft_is_done_0_count t + is_done_0_count stats)
    (ft_cmx_document_id_not_empty_count t + cmx_document_id_not_empty_count stats)
    (ft_is_done_0_with_error_count t + is_done_0_with_error_count stats).

(** [folder_summary[folder] = folder_totals] *)
Fixpoint summary_set (d : list (string * folder_totals)) (k : string)
    (v : folder_totals) : list (string * folder_totals) :=
  match d with
  | [] => [(k, v)]
  | (k', v') :: d' =>
      if String.eqb k' k then (k', v) :: d' else (k', v') :: summary_set d' k v
  end.

Fixpoint summary_get (d : list (string * folder_totals)) (k : string)
  : option folder_totals :=
  match d with
  | [] => None
  | (k', v) :: d' => if String.eqb k' k then Some v else summary_get d' k
  end.

(** Lines 420-435: the databases of one folder. [disk] gives the table
    of each database file that can be queried. *)
Definition analyse_folder (disk : gmap string Db.table)
    (db_files : list string) (all_stats : list stats)
  : list stats * folder_totals :=
  fold_left
    (fun (acc : list stats * folder_totals) db_file =>
       let (all_stats, folder_totals) := acc in
       match AiStudio.get_stats db_file (disk !! db_file) with
       | None => (all_stats, folder_totals)
       | Some stats => (all_stats ++ [stats], add_stats folder_totals stats)
       end)
    db_files (all_stats, zero_totals).

(** Lines 407-437: [all_stats] and [folder_summary] after the loop over
    [folder_to_dbs.items()]. *)
Definition collect (disk : gmap string Db.table)
    (folder_to_dbs : list (string * list string))
  : list stats * list (string * folder_totals) :=
  fold_left
    (fun (acc : list stats * list (string * folder_totals)) item =>
       let (all_stats, folder_summary) := acc in
       let (folder, db_files) := (item : string * list string) in
       let (all_stats, folder_totals) := analyse_folder disk db_files all_stats in
       (all_stats, summary_set folder_summary folder folder_totals))
    folder_to_dbs ([], []).

End Main.

(** * Vocabulary of the statements *)

(** ** The shape of a missing-file message *)

Module Shape.

(** The items of a pattern text without special characters. *)
Definition lits (s : string) : list Re.item :=
  map (fun c => Re.One (Re.AChar c)) (list_ascii_of_string s).

Definition PREFIX : string := "The specified file ".
Definition SUFFIX : string :=
  " does not exists or is not readable.: Invalid file".
Definition MARKER : string := "{file_full_path}".

(** The exact missing-file shape: the fixed wording around a path. *)
Definition missing_file_shape (s : string) : Prop :=
  exists path, s = PREFIX +:+ path +:+ SUFFIX.

(** What the pattern accepts: the fixed wording around a text without
    line feed, followed by anything. *)
Definition accepted (s : string) : Prop :=
  exists path rest,
    Str.no_newline path = true /\ s = PREFIX +:+ path +:+ SUFFIX +:+ rest.

(** The last character of a text, [d] when it is empty. *)
Fixpoint last_char (d : ascii) (s : string) : ascii :=
  match s with
  | EmptyString => d
  | String c s' => last_char c s'
  end.

End Shape.

(** ** Descending order and stability *)

Module Ordering.
Section Key.
Context {A : Type} (key : A -> Z).

(** [a] may stand before [b] in a descending list. *)
Definition ge_key (a b : A) : Prop := key b <= key a.

(** The items whose key is [k], in list order. *)
Definition with_key (k : Z) (l : list A) : list A :=
  List.filter (fun a => key a =? k) l.

End Key.
End Ordering.

(** ** Cells of an export row and sample records *)

Module Rows.

(** The last two cells of an export row, for a bucket. *)
Definition bucket_cells (it : string * Z) : list value :=
  [VStr (fst it); VInt (snd it)].

Definition cleaned (it : string * Z) : string * Z :=
  (AiStudio.clean_msg (fst it), snd it).

(** The first five cells of the rows of a record in the spreadsheet. *)
Definition counters (file_system : string) (st : stats) : list value :=
  [VStr file_system;
   VStr (OpenAI.str_or (db_path st) (OpenAI.str_or (db_name st) EmptyString));
   VInt (total_rows st); VInt (is_done_1_count st);
   VInt (is_done_0_count st)].

(** The first five cells of the rows of a record in the CSV file. *)
Definition csv_counters (fs_system_name : string) (st : stats) : list value :=
  [VStr fs_system_name; VStr (db_path st); VInt (total_rows st);
   VInt (is_done_1_count st); VInt (is_done_0_count st)].

Definition sample_clean : stats :=
  Stats "a.db" "/data/a.db" 4 4 4 0 0 [].

Definition sample_errors : stats :=
  Stats "b.db" "/data/b.db" 9 2 2 7 6 [("disk full", 2); ("timeout", 4)].

Definition long_message : string :=
  "Unexpected failure while reading the document stream from the remote archive: connection reset by peer".

End Rows.

(** ** Totals and keys of a breakdown, and sample databases *)

Module Totals.

(** [sum(d.values())] *)
Definition total (d : Py.dict) : Z := foldr (fun it acc => snd it + acc) 0 d.

Definition keys (d : Py.dict) : list string := map fst d.

(** The database of the end-to-end scenario: seven rows done, two
    pending without message, three pending with a missing-file message. *)
Definition scenario_db : Db.database :=
  Some (Db.Table [Db.is_done; Db.cmx_document_id; Db.error_message] false
    (replicate 7 (Db.Row (Db.Integer 1) (Db.Text "doc") Db.Null) ++
     replicate 2 (Db.Row (Db.Integer 0) Db.Null Db.Null) ++
     replicate 3 (Db.Row (Db.Integer 0) Db.Null
       (Db.Text "The specified file /a/b.pdf does not exists or is not readable.: Invalid file")))).

Definition scenario_stats : stats :=
  Stats "x.sqlite" "/data/x.sqlite" 12 7 7 5 3
    [(AiStudio.NORMALIZED_ERROR_MESSAGE, 3)].

End Totals.

(** ** Decimal digits *)

Module Digits.
Import Decimal.

(** The number that the digits of [u] spell after the digits read so
    far, whose number is [acc]. *)
Fixpoint uval (acc : Z) (u : uint) : Z :=
  match u with
  | Nil => acc
  | D0 u => uval (10 * acc) u
  | D1 u => uval (10 * acc + 1) u
  | D2 u => uval (10 * acc + 2) u
  | D3 u => uval (10 * acc + 3) u
  | D4 u => uval (10 * acc + 4) u
  | D5 u => uval (10 * acc + 5) u
  | D6 u => uval (10 * acc + 6) u
  | D7 u => uval (10 * acc + 7) u
  | D8 u => uval (10 * acc + 8) u
  | D9 u => uval (10 * acc + 9) u
  end.

Fixpoint no_space (s : string) : bool :=
  match s with
  | EmptyString => true
  | String c s' => negb (PyInt.is_space c) && no_space s'
  end.

End Digits.

(** ** Row indices of a sheet and sample sheets *)

Module Sheet.

Definition ROW : string := OpenAI.qname OpenAI.main_ns "row".
Definition CELL : string := OpenAI.qname OpenAI.main_ns "c".

(** [int(r.get("r"))], when it does not raise. *)
Definition index_of (r : ET.element) : option Z := PyInt.of_attr (ET.get r "r").

(** The row indices already in the sheet. *)
Definition existing_indices (sheet_data : ET.element) : list Z :=
  omap index_of (ET.findall sheet_data ROW).

(** The highest of a list of indices, zero when there is none. *)
Definition highest (l : list Z) : Z := foldr Z.max 0 l.

Definition header_row (k : Z) : ET.element :=
  ET.Element ROW [("r", Py.str k); ("spans", "1:7")] None None [].

(** A sheet whose highest row index is 2. *)
Definition template_sheet_data : ET.element :=
  ET.Element (OpenAI.qname OpenAI.main_ns "sheetData") [] None None
    [header_row 1; header_row 2].

Definition empty_sheet_data : ET.element :=
  ET.Element (OpenAI.qname OpenAI.main_ns "sheetData") [] None None [].

Definition scenario_rows : list (list value) :=
  OpenAI._build_excel_rows
    [Rows.sample_clean; Rows.sample_errors] "FS".

Definition V : string := OpenAI.qname OpenAI.main_ns "v".
Definition IS : string := OpenAI.qname OpenAI.main_ns "is".
Definition T : string := OpenAI.qname OpenAI.main_ns "t".

End Sheet.

(** ** Numbers that CPython converts *)

Module Limits.

(** By default CPython refuses to convert between a [str] and an [int]
    of more than 4300 digits. *)
Definition MAX_STR_DIGITS : Z := 4300.

(** [str(n)] is not refused: [n] has at most that many digits. *)
Definition written (n : Z) : bool :=
  Z.of_nat (String.length (Py.str (Z.abs n))) <=? MAX_STR_DIGITS.

(** [int(r.get("r"))] is not refused for the length of the text. *)
Definition read (r : ET.element) : bool :=
  match ET.get r "r" with
  | Some s => Z.of_nat (String.length s) <=? MAX_STR_DIGITS
  | None => true
  end.

Definition number_written (v : value) : bool :=
  match v with
  | VInt n => written n
  | _ => true
  end.

(** Every conversion that the export makes is within the limit: those
    of the row indices that the sheet has, of the indices of the new
    rows and of the numbers in the export rows. *)
Definition within (sheet_data : ET.element) (rows_data : list (list value))
  : bool :=
  forallb read (ET.findall sheet_data Sheet.ROW) &&
  written (Sheet.highest (Sheet.existing_indices sheet_data)
           + Z.of_nat (length rows_data)) &&
  forallb (forallb number_written) rows_data.

End Limits.

(** ** The archive that the export writes and a sample run *)

Module Archive.

Definition SHEETDATA : string := OpenAI.qname OpenAI.main_ns "sheetData".

(** The members written by the copying loop for the names [names]. *)
Definition copied (template : Zip.archive) (new_sheet_xml : Zip.bytes)
    (names : list string) : Zip.archive :=
  map (fun filename =>
         (filename,
          if String.eqb filename OpenAI.SHEET then new_sheet_xml
          else default [] (Zip.member template filename))) names.

Definition copy_events (template_path output_path : string)
    (names : list string) : list event :=
  concat (map (fun filename =>
                 [EvRead template_path filename; EvWrite output_path filename])
            names).

(** The body of the loop of lines 385-389. *)
Definition copy_member (template_path output_path : string)
    (zin : Zip.archive) (new_sheet_xml : Zip.bytes) (filename : string)
  : M unit :=
  let! data_bytes := zip_read template_path zin filename in
  let data_bytes :=
    if String.eqb filename OpenAI.SHEET then new_sheet_xml else data_bytes in
  zip_writestr output_path filename data_bytes.

(** The worksheet part of the output. *)
Definition new_sheet (tostring : ET.element -> Zip.bytes)
  (root : ET.element) (rows_data : list (list value))
  : Zip.bytes :=
  tostring (ET.update_found root SHEETDATA (OpenAI.append_rows rows_data)).

Definition sheet_bytes : Zip.bytes := [Byte.x3c; Byte.x77; Byte.x3e].
Definition new_bytes : Zip.bytes := [Byte.x3c; Byte.x6e; Byte.x3e].

Definition sample_root : ET.element :=
  ET.Element (OpenAI.qname OpenAI.main_ns "worksheet") [] None None
    [ET.Element (OpenAI.qname OpenAI.main_ns "sheetViews") [] None None [];
     Sheet.template_sheet_data;
     ET.Element (OpenAI.qname OpenAI.main_ns "pageMargins") [] None None []].

Definition sample_fromstring (b : Zip.bytes) : option ET.element :=
  match b with
  | [Byte.x3c; Byte.x77; Byte.x3e] => Some sample_root
  | _ => None
  end.

Definition sample_tostring (e : ET.element) : Zip.bytes := new_bytes.

Definition sample_template : Zip.archive :=
  [("[Content_Types].xml", [Byte.x01]);
   (OpenAI.SHEET, sheet_bytes);
   ("xl/styles.xml", [Byte.x02; Byte.x03])].

(** The template is file 0, also under the name [./entete_stats.xlsx];
    the output is file 1; every other path names file 2. Nothing can be
    written under [/proc]. *)
Definition sample_node (path : string) : nat :=
  if String.eqb path "entete_stats.xlsx" then 0%nat
  else if String.eqb path "./entete_stats.xlsx" then 0%nat
  else if String.eqb path "out.xlsx" then 1%nat
  else 2%nat.

Definition sample_writable (path : string) : bool :=
  negb (String.eqb path "/proc/out.xlsx").

Definition sample_world : world :=
  World sample_node sample_writable {[ 0%nat := sample_template ]} [].

Definition sample_run : outcome unit * world :=
  OpenAI.export_stats_to_excel sample_fromstring sample_tostring
    "entete_stats.xlsx" "out.xlsx"
    [Rows.sample_clean; Rows.sample_errors] "FS" sample_world.

End Archive.

(** ** Messages behind a breakdown *)

Module Buckets.

(** What the SELECT statement returns, nothing when it fails. *)
Definition fetched (db : Db.database) : list Db.pyvalue :=
  default [] (Db._execute_query_fetchall db Db.SelectErrorMessage).

(** The message of a row on which the loop does not raise: a [str], or
    [None], which is read as the empty text. *)
Definition text_of (row : Db.pyvalue) : option string :=
  match row with
  | Db.PNone => Some EmptyString
  | Db.PStr s => Some s
  | _ => None
  end.

Definition is_text (row : Db.pyvalue) : bool := bool_decide (is_Some (text_of row)).

(** The canonical keys of the messages that the SELECT statement
    returns, in their order. *)
Definition selected_keys (db : Db.database) : list string :=
  map AiStudio.normalize (omap text_of (fetched db)).

(** One more occurrence of the key [k]. *)
Definition tally (d : Py.dict) (k : string) : Py.dict :=
  Py.set d k (Py.get d k 0 + 1).

(** The error messages of the rows that the two statements on error
    messages select. *)
Definition pending_messages (db : Db.database) : list Db.cell :=
  map Db.r_error_message (default [] (Db.selected db Db.SelectErrorMessage)).

(** A stored text that Python cannot decode. *)
Definition undecodable (x : Db.cell) : bool :=
  match x with
  | Db.BadText _ => true
  | _ => false
  end.

(** A stored value that Python reads as something else than a [str]. *)
Definition not_text (x : Db.cell) : bool :=
  match x with
  | Db.Integer _ | Db.Real _ _ | Db.Blob _ => true
  | _ => false
  end.

(** How many times [k] stands in [l]. *)
Definition occurrences (k : string) (l : list string) : Z :=
  Z.of_nat (length (List.filter (String.eqb k) l)).

(** The different texts of [l] in the order of their first occurrence,
    after those of [seen]. *)
Definition first_seen (seen l : list string) : list string :=
  fold_left
    (fun acc k => if existsb (String.eqb k) acc then acc else acc ++ [k])
    l seen.

(** A table with every column, and one without [error_message]. *)
Definition sample_table : Db.table :=
  Db.Table [Db.is_done; Db.cmx_document_id; Db.error_message] false
    [Db.Row (Db.Integer 1) (Db.Text "doc-1") Db.Null;
     Db.Row (Db.Integer 0) Db.Null (Db.Text "timeout");
     Db.Row (Db.Integer 0) Db.Null
       (Db.Text "The specified file /a.pdf does not exists or is not readable.: Invalid file");
     Db.Row (Db.Integer 0) Db.Null (Db.Text "timeout");
     Db.Row (Db.Integer 0) Db.Null (Db.Text "   ");
     Db.Row (Db.Integer 2) (Db.Text " ") (Db.Text "ignored");
     Db.Row (Db.Integer 0) Db.Null
       (Db.Text "The specified file /b.pdf does not exists or is not readable.: Invalid file")].

(** A table that has only the [is_done] column. *)
Definition bare_table : Db.table :=
  Db.Table [Db.is_done] false [Db.Row (Db.Integer 0) Db.Null (Db.Text "boom")].

(** A table without the [is_done] column. *)
Definition flagless_table : Db.table :=
  Db.Table [Db.error_message] false [Db.Row Db.Null Db.Null (Db.Text "boom")].

Definition sample_record : stats :=
  Stats "s.db" "/data/s.db" 7 1 1 5 4
    [("timeout", 2); (AiStudio.NORMALIZED_ERROR_MESSAGE, 2)].

(** Two pending rows whose message is a text of the one byte 255, which
    is not valid UTF-8, and one with a message that decodes. *)
Definition garbled_table : Db.table :=
  Db.Table [Db.is_done; Db.cmx_document_id; Db.error_message] false
    [Db.Row (Db.Integer 0) Db.Null (Db.BadText [Byte.xff]);
     Db.Row (Db.Integer 0) Db.Null (Db.Text "timeout");
     Db.Row (Db.Integer 0) Db.Null (Db.BadText [Byte.xff])].

(** A pending row whose message is a blob, and one whose message is an
    integer. *)
Definition blob_table : Db.table :=
  Db.Table [Db.is_done; Db.cmx_document_id; Db.error_message] false
    [Db.Row (Db.Integer 0) Db.Null (Db.Text "timeout");
     Db.Row (Db.Integer 0) Db.Null (Db.Blob [Byte.x00; Byte.x01])].

Definition number_table : Db.table :=
  Db.Table [Db.is_done; Db.cmx_document_id; Db.error_message] false
    [Db.Row (Db.Real 1 0) (Db.Integer 7) Db.Null;
     Db.Row (Db.Integer 0) Db.Null (Db.Integer 404)].

End Buckets.

(** ** Records and sums of a folder *)

Module Folders.

(** The records of the database files that can be analysed, in order. *)
Definition records (disk : gmap string Db.table) (db_files : list string)
  : list stats :=
  omap (fun db_file => AiStudio.get_stats db_file (disk !! db_file)) db_files.

(** The sum of a counter over records. *)
Definition sum_of (counter : stats -> Z) (l : list stats) : Z :=
  foldr (fun st acc => counter st + acc) 0 l.

(** The sum of a total over the folders of a summary. *)
Definition sum_over (total : Main.folder_totals -> Z)
    (summary : list (string * Main.folder_totals)) : Z :=
  foldr (fun it acc => total (snd it) + acc) 0 summary.

(** The totals that the records [l] add up to. *)
Definition totals_of (l : list stats) : Main.folder_totals :=
  Main.FolderTotals
    (sum_of total_rows l) (sum_of is_done_1_count l) (sum_of is_done_0_count l)
    (sum_of cmx_document_id_not_empty_count l)
    (sum_of is_done_0_with_error_count l).

Definition sample_disk : gmap string Db.table :=
  {[ "/d/a.db" := Buckets.sample_table;
     "/d/sub/b.sqlite" := Buckets.bare_table ]}.

Definition sample_folders : list (string * list string) :=
  [("/d", ["/d/a.db"; "/d/broken.db"]); ("/d/sub", ["/d/sub/b.sqlite"])].

End Folders.

(** ** The layout of a console table *)

Module Layout.

(** Every row has as many cells as there are headers. *)
Definition rectangular (headers : list string) (rows : list (list value))
  : Prop :=
  Forall (fun row => length row = length headers) rows.

(** The width of column [j]: the longest of the header [h] and of the
    texts of the cells of that column. *)
Definition column_width (h : string) (rows : list (list value)) (j : nat)
  : nat :=
  fold_left
    (fun w row =>
       match row !! j with
       | Some cell => Nat.max w (String.length (Console.str_cell cell))
       | None => w
       end)
    rows (String.length h).

Definition widths (headers : list string) (rows : list (list value))
  : list nat :=
  imap (fun j h => column_width h rows j) headers.

(** A cell text between two spaces, filled up to the width [w]. *)
Definition field (w : nat) (a : string) : string :=
  " " +:+ Text.ljust a w +:+ " ".

(** A table line: the fields between bars. *)
Definition row_line (ws : list nat) (cells : list string) : string :=
  "|" +:+ Text.join "|" (zip_with field ws cells) +:+ "|".

Definition title_lines (title : option string) : list string :=
  match title with
  | Some t => if String.eqb t EmptyString then [] else [t]
  | None => []
  end.

Definition sample_headers : list string := ["Message"; "Occurrences"].

Definition sample_rows : list (list value) :=
  [[VStr "timeout"; VInt 12]; [VStr "disk full"; VInt 3]].

End Layout.

(** ** Column names as numbers *)

Module Columns.

(** [c] is one of the letters A to Z. *)
Definition is_upper (c : ascii) : bool :=
  let n := nat_of_ascii c in ((65 <=? n) && (n <=? 90))%nat.

Fixpoint upper_letters (s : string) : bool :=
  match s with
  | EmptyString => true
  | String c s' => is_upper c && upper_letters s'
  end.

(** The number that a column name spells, A being 1 and Z 26, the
    leftmost letter weighing most. *)
Fixpoint col_value (s : string) : Z :=
  match s with
  | EmptyString => 0
  | String c s' =>
      (Z.of_nat (nat_of_ascii c) - 64) * 26 ^ Z.of_nat (String.length s')
      + col_value s'
  end.

(** The names of the seven columns of an export row. *)
Definition seven : list string := ["A"; "B"; "C"; "D"; "E"; "F"; "G"].

End Columns.

(** ** Worlds in which the export fails *)

Module Failing.

(** No template at all. *)
Definition no_template : world :=
  World Archive.sample_node Archive.sample_writable ∅ [].

(** A template without the worksheet member. *)
Definition no_sheet : world :=
  World Archive.sample_node Archive.sample_writable
    {[ 0%nat := [("xl/styles.xml", [Byte.x02])] ]} [].

(** A template whose worksheet is not well-formed for
    [Archive.sample_fromstring]. *)
Definition bad_sheet : world :=
  World Archive.sample_node Archive.sample_writable
    {[ 0%nat := [(OpenAI.SHEET, [Byte.x00])] ]} [].

(** A parser that gives a worksheet without [sheetData]. *)
Definition bare_fromstring (b : Zip.bytes) : option ET.element :=
  Some (ET.Element (OpenAI.qname OpenAI.main_ns "worksheet") [] None None []).

End Failing.

(** * Properties *)

(** ** The matcher *)

Module ReFacts.
Import Shape.

Lemma match_lits (l : string) (p : list Re.item) (s : string) :
  Re.match_here (lits l ++ p) s = true <->
  exists s', s = l +:+ s' /\ Re.match_here p s' = true.
Proof.
  revert s. induction l as [|c l IH]; intros s; simpl.
  - split; [intros H; exists s; auto | intros (s' & -> & H); exact H].
  - destruct s as [|c' s]; simpl.
    + split; [discriminate | intros (s' & E & _); discriminate].
    + rewrite andb_true_iff, Ascii.eqb_eq, IH. split.
      * intros (-> & s' & -> & H). exists s'; auto.
      * intros (s' & E & H). injection E as -> ->. split; [reflexivity|].
        exists s'; auto.
Qed.

Lemma match_star_unfold (a : Re.atom) (p : list Re.item) (s : string) :
  Re.match_here (Re.Star a :: p) s =
  Re.match_here p s ||
  match s with
  | String c s' => Re.atom_matches a c && Re.match_here (Re.Star a :: p) s'
  | EmptyString => false
  end.
Proof. destruct s; reflexivity. Qed.

Lemma match_star_any (p : list Re.item) (s : string) :
  Re.match_here (Re.Star Re.AAny :: p) s = true <->
  exists mid s',
    s = mid +:+ s' /\ Str.no_newline mid = true /\ Re.match_here p s' = true.
Proof.
  induction s as [|c s IH]; rewrite match_star_unfold, orb_true_iff.
  - split.
    + intros [H|H]; [|discriminate]. exists EmptyString, EmptyString; auto.
    + intros (mid & s' & E & _ & H). destruct mid; [|discriminate].
      simpl in E; subst s'. auto.
  - rewrite andb_true_iff, IH. split.
    + intros [H|[Hc (mid & s' & -> & Hm & H)]].
      * exists EmptyString, (String c s); auto.
      * exists (String c mid), s'. simpl. rewrite Hm.
        simpl in Hc. rewrite Hc. auto.
    + intros (mid & s' & E & Hm & H). destruct mid as [|c' mid].
      * simpl in E; subst s'. auto.
      * simpl in E, Hm. injection E as -> ->.
        apply andb_true_iff in Hm as [Hc Hm].
        right. split; [exact Hc|]. exists mid, s'; auto.
Qed.

End ReFacts.

(** ** The normaliser *)

Module Normalize.
Import AiStudio Shape.

Lemma compile_ERROR_PATTERN :
  Re.compile ERROR_PATTERN =
  Shape.lits PREFIX ++ Re.Star Re.AAny :: (Shape.lits SUFFIX ++ []).
Proof. reflexivity. Qed.

Lemma match_accepted (s : string) :
  Re.match_ ERROR_PATTERN s = true <-> accepted s.
Proof.
  unfold Re.match_, accepted. rewrite compile_ERROR_PATTERN, ReFacts.match_lits.
  split.
  - intros (s1 & -> & H). apply ReFacts.match_star_any in H as (path & s2 & -> & Hp & H).
    apply ReFacts.match_lits in H as (rest & -> & _). exists path, rest; auto.
  - intros (path & rest & Hp & ->). eexists; split; [reflexivity|].
    apply ReFacts.match_star_any. exists path, (SUFFIX +:+ rest).
    split; [reflexivity|]. split; [exact Hp|].
    apply ReFacts.match_lits. exists rest; auto.
Qed.

Lemma normalize_accepted (s : string) :
  accepted s -> normalize s = NORMALIZED_ERROR_MESSAGE.
Proof. intros H%match_accepted. unfold normalize. rewrite H. reflexivity. Qed.

Lemma normalize_other (s : string) : ~ accepted s -> normalize s = s.
Proof.
  intros H. unfold normalize.
  destruct (Re.match_ ERROR_PATTERN s) eqn:E; [|reflexivity].
  apply match_accepted in E. contradiction.
Qed.

Lemma canonical_accepted : accepted NORMALIZED_ERROR_MESSAGE.
Proof. exists "{{file_full_path}}", EmptyString. split; reflexivity. Qed.

Lemma normalize_cases (s : string) :
  (accepted s /\ normalize s = NORMALIZED_ERROR_MESSAGE) \/
  (~ accepted s /\ normalize s = s).
Proof.
  destruct (Re.match_ ERROR_PATTERN s) eqn:E.
  - left. apply match_accepted in E. auto using normalize_accepted.
  - right. assert (~ accepted s) as H.
    { intros H%match_accepted. congruence. }
    auto using normalize_other.
Qed.

Lemma last_char_app (d : ascii) (a b : string) :
  b <> EmptyString -> last_char d (a +:+ b) = last_char d b.
Proof.
  intros Hb. revert d. induction a as [|c a IH]; intros d; simpl.
  - reflexivity.
  - rewrite IH. destruct b; [contradiction | reflexivity].
Qed.

Lemma missing_file_shape_last (s : string) :
  missing_file_shape s -> last_char "x" s = "e"%char.
Proof.
  intros (path & ->). rewrite !last_char_app; [reflexivity | discriminate |].
  destruct path; discriminate.
Qed.

(** C4, as stated, fails: a message that goes on after the fixed wording
    is not of the exact shape, yet it is replaced by the canonical key
    and so shares the bucket of a different message; and a message of
    the exact shape whose path holds a line feed is left as it is. *)
Lemma C4_counterexample :
  let trailing :=
    "The specified file /a does not exists or is not readable.: Invalid file descriptor" in
  let exact :=
    "The specified file /a does not exists or is not readable.: Invalid file" in
  let broken := PREFIX +:+ String "a" (String Str.LF "b") +:+ SUFFIX in
  (~ missing_file_shape trailing /\ normalize trailing <> trailing /\
   trailing <> exact /\ normalize trailing = normalize exact) /\
  (missing_file_shape broken /\ normalize broken <> NORMALIZED_ERROR_MESSAGE).
Proof.
  split; [split; [|split; [|split]] | split].
  - intros H%missing_file_shape_last. discriminate.
  - discriminate.
  - discriminate.
  - reflexivity.
  - eexists; reflexivity.
  - discriminate.
Qed.

(** C4, amended: a message that begins with the fixed wording around a
    text without line feed (whatever follows it) gets the one canonical
    key, which holds the marker; every other message is left unchanged;
    two different messages get the same key only when both begin so. *)
Theorem C4_normalize_accepted (s : string) :
  (accepted s -> normalize s = NORMALIZED_ERROR_MESSAGE) /\
  (~ accepted s -> normalize s = s) /\
  (exists a b, NORMALIZED_ERROR_MESSAGE = a +:+ MARKER +:+ b) /\
  (forall s', normalize s = normalize s' ->
              s = s' \/ (accepted s /\ accepted s')).
Proof.
  repeat split.
  - apply normalize_accepted.
  - apply normalize_other.
  - exists "The specified file {",
      "} does not exists or is not readable.: Invalid file". reflexivity.
  - intros s' E.
    destruct (normalize_cases s) as [[A1 E1]|[A1 E1]],
             (normalize_cases s') as [[A2 E2]|[A2 E2]]; rewrite E1, E2 in E.
    + right; auto.
    + subst s'. destruct A2. apply canonical_accepted.
    + subst s. destruct A1. apply canonical_accepted.
    + left; exact E.
Qed.

Lemma C4_normalize_accepted_witness :
  normalize "The specified file /a/b.pdf does not exists or is not readable.: Invalid file"
    = NORMALIZED_ERROR_MESSAGE /\
  normalize "disk full" = "disk full" /\
  ("disk full" = "disk full" \/ (accepted "disk full" /\ accepted "disk full")).
Proof.
  split; [|split].
  - apply (proj1 (C4_normalize_accepted _)).
    exists "/a/b.pdf", EmptyString. split; reflexivity.
  - apply (proj1 (proj2 (C4_normalize_accepted _))).
    intros H%match_accepted. discriminate.
  - apply (proj2 (proj2 (proj2 (C4_normalize_accepted "disk full")))).
    reflexivity.
Defined.

(** C5: normalising twice is normalising once, and the canonical key
    is its own normal form. *)
Theorem C5_normalize_idempotent :
  (forall x, normalize (normalize x) = normalize x) /\
  normalize NORMALIZED_ERROR_MESSAGE = NORMALIZED_ERROR_MESSAGE.
Proof.
  assert (normalize NORMALIZED_ERROR_MESSAGE = NORMALIZED_ERROR_MESSAGE) as HN
    by reflexivity.
  split; [|exact HN].
  intros x. destruct (normalize_cases x) as [[_ E]|[_ E]]; rewrite E.
  - exact HN.
  - exact E.
Qed.

End Normalize.

(** ** [sorted(..., reverse=True)] *)

Module SortedFacts.
Import Ordering.
Section Facts.
Context {A : Type} (key : A -> Z).

Lemma insert_desc_perm (x : A) (l : list A) :
  Py.insert_desc key x l ≡ₚ x :: l.
Proof.
  induction l as [|y l IH]; simpl; [reflexivity|].
  destruct (key y <=? key x); [reflexivity|].
  rewrite IH. apply Permutation_swap.
Qed.

Lemma sorted_desc_perm (l : list A) : Py.sorted_desc key l ≡ₚ l.
Proof.
  induction l as [|x l IH]; simpl; [reflexivity|].
  rewrite insert_desc_perm. by f_equiv.
Qed.

Lemma sorted_desc_length (l : list A) :
  length (Py.sorted_desc key l) = length l.
Proof. by rewrite sorted_desc_perm. Qed.

Lemma insert_desc_sorted (x : A) (l : list A) :
  StronglySorted (ge_key key) l ->
  StronglySorted (ge_key key) (Py.insert_desc key x l).
Proof.
  induction l as [|y l IH]; simpl; intros Hs.
  - repeat constructor.
  - apply StronglySorted_cons in Hs as [Hy Hs].
    destruct (Z.leb_spec (key y) (key x)) as [Hle|Hlt].
    + apply StronglySorted_cons. split.
      * constructor; [exact Hle|].
        eapply Forall_impl; [exact Hy|]. unfold ge_key. intros; lia.
      * apply StronglySorted_cons. auto.
    + apply StronglySorted_cons. split; [|auto].
      rewrite insert_desc_perm. constructor; [unfold ge_key; lia | exact Hy].
Qed.

Lemma sorted_desc_sorted (l : list A) :
  StronglySorted (ge_key key) (Py.sorted_desc key l).
Proof.
  induction l as [|x l IH]; simpl; [constructor|].
  by apply insert_desc_sorted.
Qed.

Lemma insert_desc_with_key (k : Z) (x : A) (l : list A) :
  with_key key k (Py.insert_desc key x l) = with_key key k (x :: l).
Proof.
  unfold with_key. induction l as [|y l IH]; simpl; [reflexivity|].
  destruct (Z.leb_spec (key y) (key x)) as [Hle|Hlt]; [reflexivity|].
  simpl. rewrite IH. simpl.
  destruct (Z.eqb_spec (key y) k), (Z.eqb_spec (key x) k);
    reflexivity || lia.
Qed.

(** Stability: items of equal key keep the order they had. *)
Lemma sorted_desc_stable (k : Z) (l : list A) :
  with_key key k (Py.sorted_desc key l) = with_key key k l.
Proof.
  induction l as [|x l IH]; simpl; [reflexivity|].
  rewrite insert_desc_with_key. unfold with_key in *. simpl.
  by rewrite IH.
Qed.
End Facts.
End SortedFacts.

(** ** Loops that append *)

Lemma fold_left_app_concat {A B : Type} (f : A -> list B) (l : list A)
    (acc : list B) :
  fold_left (fun rows x => rows ++ f x) l acc = acc ++ concat (map f l).
Proof.
  revert acc. induction l as [|x l IH]; intros acc; simpl.
  - by rewrite app_nil_r.
  - by rewrite IH, app_assoc.
Qed.

Lemma _build_excel_rows_concat (all_stats : list stats) (file_system : string) :
  OpenAI._build_excel_rows all_stats file_system =
  concat (map (OpenAI.rows_of_stats file_system) all_stats).
Proof. unfold OpenAI._build_excel_rows. by rewrite fold_left_app_concat. Qed.

Lemma csv_rows_concat (all_stats : list stats) (fs_system_name : string) :
  AiStudio.csv_rows all_stats fs_system_name =
  concat (map (AiStudio.csv_rows_of_stat fs_system_name) all_stats).
Proof. unfold AiStudio.csv_rows. by rewrite fold_left_app_concat. Qed.

(** ** Export rows and the error table *)

Module ExportRows.
Import SortedFacts Ordering Rows.

(** Buckets of equal count keep the order in which they were met. *)
Example sorted_desc_ties :
  Py.sorted_desc snd [("a", 1); ("b", 2); ("c", 1); ("d", 2)] =
  [("b", 2); ("d", 2); ("a", 1); ("c", 1)].
Proof. reflexivity. Qed.

Lemma rows_of_stats_nonempty (file_system : string) (st : stats) :
  error_message_breakdown st <> [] ->
  OpenAI.rows_of_stats file_system st =
  map (fun it => counters file_system st ++ bucket_cells it)
    (Py.sorted_desc snd (error_message_breakdown st)).
Proof.
  intros Hd. unfold OpenAI.rows_of_stats.
  destruct (error_message_breakdown st) as [|it d]; [done|].
  apply map_ext. by intros [msg count].
Qed.

Lemma csv_rows_of_stat_nonempty (fs_system_name : string) (st : stats) :
  error_message_breakdown st <> [] ->
  AiStudio.csv_rows_of_stat fs_system_name st =
  map (fun it => csv_counters fs_system_name st ++ bucket_cells (cleaned it))
    (Py.sorted_desc snd (error_message_breakdown st)).
Proof.
  intros Hd. unfold AiStudio.csv_rows_of_stat.
  destruct (error_message_breakdown st) as [|it d]; [done|].
  apply map_ext. by intros [msg count].
Qed.

Lemma rows_of_stats_not_nil (file_system : string) (st : stats) :
  OpenAI.rows_of_stats file_system st <> [].
Proof.
  intros E%(f_equal length). revert E. unfold OpenAI.rows_of_stats.
  destruct (error_message_breakdown st) as [|it d]; [done|].
  rewrite length_map, sorted_desc_length. done.
Qed.

Lemma max_1_length {A : Type} (l : list A) :
  l <> [] -> Nat.max 1 (length l) = length l.
Proof. destruct l; [done | simpl; lia]. Qed.

(** C2: a record with an empty breakdown gives exactly one export row,
    with an empty message and the count zero; a record with N buckets
    gives exactly N rows, one per bucket, by count descending, all with
    the counters of the record; so every record gives at least one row,
    in the spreadsheet rows and in the CSV rows alike. *)
Theorem C2_export_rows (file_system : string) (st : stats) :
  let d := error_message_breakdown st in
  let sorted := Py.sorted_desc snd d in
  let rows := OpenAI.rows_of_stats file_system st in
  let csv := AiStudio.csv_rows_of_stat file_system st in
  (length rows = Nat.max 1 (length d) /\ length csv = Nat.max 1 (length d)) /\
  (Forall (fun row => take 5 row = counters file_system st) rows /\
   Forall (fun row => take 5 row = csv_counters file_system st) csv) /\
  (d = [] ->
   map (drop 5) rows = [[VStr EmptyString; VInt 0]] /\
   map (drop 5) csv = [[VStr EmptyString; VInt 0]]) /\
  (d <> [] ->
   map (drop 5) rows = map bucket_cells sorted /\
   map (drop 5) csv = map (fun it => bucket_cells (cleaned it)) sorted) /\
  (sorted ≡ₚ d /\ StronglySorted (ge_key snd) sorted) /\
  (forall all_stats,
      OpenAI._build_excel_rows all_stats file_system =
        concat (map (OpenAI.rows_of_stats file_system) all_stats) /\
      AiStudio.csv_rows all_stats file_system =
        concat (map (AiStudio.csv_rows_of_stat file_system) all_stats)).
Proof.
  intros d sorted rows csv.
  assert (d = [] -> rows = [counters file_system st ++ [VStr EmptyString; VInt 0]]
                    /\ csv = [csv_counters file_system st ++ [VStr EmptyString; VInt 0]])
    as Hempty.
  { subst rows csv d. unfold OpenAI.rows_of_stats, AiStudio.csv_rows_of_stat.
    by intros ->. }
  assert (d <> [] ->
          rows = map (fun it => counters file_system st ++ bucket_cells it) sorted /\
          csv = map (fun it => csv_counters file_system st ++ bucket_cells (cleaned it)) sorted)
    as Hfull.
  { intros Hd. split;
      [by apply rows_of_stats_nonempty | by apply csv_rows_of_stat_nonempty]. }
  split_and!.
  - destruct (decide (d = [])) as [E|N].
    + destruct (Hempty E) as [-> _]. by rewrite E.
    + destruct (Hfull N) as [-> _].
      rewrite length_map, max_1_length by done. apply sorted_desc_length.
  - destruct (decide (d = [])) as [E|N].
    + destruct (Hempty E) as [_ ->]. by rewrite E.
    + destruct (Hfull N) as [_ ->].
      rewrite length_map, max_1_length by done. apply sorted_desc_length.
  - destruct (decide (d = [])) as [E|N].
    + destruct (Hempty E) as [-> _]. by repeat constructor.
    + destruct (Hfull N) as [-> _]. apply Forall_map, Forall_forall. done.
  - destruct (decide (d = [])) as [E|N].
    + destruct (Hempty E) as [_ ->]. by repeat constructor.
    + destruct (Hfull N) as [_ ->]. apply Forall_map, Forall_forall. done.
  - intros E. by destruct (Hempty E) as [-> ->].
  - intros N. destruct (Hfull N) as [-> ->]. by rewrite !map_map.
  - apply sorted_desc_perm.
  - apply sorted_desc_sorted.
  - intros all_stats. split;
      [apply _build_excel_rows_concat | apply csv_rows_concat].
Qed.

Lemma C2_export_rows_witness :
  (map (drop 5) (OpenAI.rows_of_stats "FS" sample_clean)
     = [[VStr EmptyString; VInt 0]] /\
   map (drop 5) (AiStudio.csv_rows_of_stat "FS" sample_clean)
     = [[VStr EmptyString; VInt 0]]) /\
  (map (drop 5) (OpenAI.rows_of_stats "FS" sample_errors)
     = map bucket_cells [("timeout", 4); ("disk full", 2)] /\
   map (drop 5) (AiStudio.csv_rows_of_stat "FS" sample_errors)
     = map (fun it => bucket_cells (cleaned it))
         [("timeout", 4); ("disk full", 2)]).
Proof.
  split.
  - apply (proj1 (proj2 (proj2 (C2_export_rows "FS" sample_clean)))).
    reflexivity.
  - apply (proj1 (proj2 (proj2 (proj2 (C2_export_rows "FS" sample_errors))))).
    discriminate.
Defined.

End ExportRows.

(** ** The error table of the console report *)

Module ErrorTable.
Import SortedFacts ExportRows Ordering Rows.

Lemma length_app (a b : string) :
  String.length (a +:+ b) = (String.length a + String.length b)%nat.
Proof. induction a as [|c a IH]; simpl; [reflexivity | by rewrite IH]. Qed.

Lemma length_take (n : nat) (s : string) :
  String.length (Str.take n s) = Nat.min n (String.length s).
Proof.
  revert s. induction n as [|n IH]; intros [|c s]; simpl; try reflexivity.
  by rewrite IH.
Qed.

Lemma replace_char_absent (old : ascii) (new s : string) :
  Str.has old s = false -> Str.replace_char old new s = s.
Proof.
  induction s as [|c s IH]; simpl; [reflexivity|].
  intros [Hc Hs]%orb_false_iff. rewrite Hc, IH; auto.
Qed.

Lemma clean_msg_id (msg : string) :
  Str.has Str.LF msg = false -> Str.has Str.CR msg = false ->
  AiStudio.clean_msg msg = msg.
Proof.
  intros HLF HCR. unfold AiStudio.clean_msg.
  rewrite (replace_char_absent Str.LF) by exact HLF.
  by apply replace_char_absent.
Qed.

Lemma display_canonical :
  AiStudio.display AiStudio.NORMALIZED_ERROR_MESSAGE = AiStudio.MISSING_FILE_LABEL.
Proof. reflexivity. Qed.

Lemma display_other (msg : string) :
  msg <> AiStudio.NORMALIZED_ERROR_MESSAGE ->
  AiStudio.display msg =
  if 80 <? Str.len msg then Str.take 77 msg +:+ "..." else msg.
Proof.
  intros Hne. unfold AiStudio.display.
  destruct (String.eqb_spec msg AiStudio.NORMALIZED_ERROR_MESSAGE); done.
Qed.

(** C9, as stated, fails: the canonical key is longer than 80 characters
    and the console shows a fixed label for it, not its first 77
    characters and an ellipsis; and a row of the CSV file carries a
    message that held a carriage return without it. *)
Lemma C9_counterexample :
  (80 < Str.len AiStudio.NORMALIZED_ERROR_MESSAGE /\
   AiStudio.display AiStudio.NORMALIZED_ERROR_MESSAGE <>
   Str.take 77 AiStudio.NORMALIZED_ERROR_MESSAGE +:+ "...") /\
  (let msg := String "a" (String Str.CR "b") in
   let st := Stats "x.db" "/d/x.db" 1 0 0 1 1 [(msg, 1)] in
   map (drop 5) (AiStudio.csv_rows_of_stat "FS" st) = [[VStr "ab"; VInt 1]] /\
   map (drop 5) (AiStudio.csv_rows_of_stat "FS" st) <> [[VStr msg; VInt 1]]).
Proof.
  split; [split | split].
  - reflexivity.
  - discriminate.
  - reflexivity.
  - discriminate.
Qed.

(** C9, amended: the rows of the error table are the buckets by count
    descending, buckets of equal count in the order they were met; on
    the console the canonical key is shown as a fixed label, any other
    message longer than 80 characters as its first 77 characters and an
    ellipsis, and a shorter one as it is; the spreadsheet rows carry the
    canonical message as it is, and the CSV rows carry it in full with
    line feeds turned to spaces and carriage returns removed. *)
Theorem C9_error_rows (file_system : string) (st : stats) (msg : string) :
  let d := error_message_breakdown st in
  let sorted := Py.sorted_desc snd d in
  (map snd (AiStudio.err_rows d) = map snd sorted /\
   map fst (AiStudio.err_rows d) = map (fun it => AiStudio.display (fst it)) sorted /\
   sorted ≡ₚ d /\
   StronglySorted (ge_key snd) sorted /\
   forall k, with_key snd k sorted = with_key snd k d) /\
  (AiStudio.display AiStudio.NORMALIZED_ERROR_MESSAGE = AiStudio.MISSING_FILE_LABEL /\
   (msg <> AiStudio.NORMALIZED_ERROR_MESSAGE -> 80 < Str.len msg ->
    AiStudio.display msg = Str.take 77 msg +:+ "..." /\
    Str.len (AiStudio.display msg) = 80) /\
   (msg <> AiStudio.NORMALIZED_ERROR_MESSAGE -> Str.len msg <= 80 ->
    AiStudio.display msg = msg)) /\
  (d <> [] ->
   map (drop 5) (OpenAI.rows_of_stats file_system st) = map bucket_cells sorted /\
   map (drop 5) (AiStudio.csv_rows_of_stat file_system st) =
     map (fun it => bucket_cells (cleaned it)) sorted) /\
  (Str.has Str.LF msg = false -> Str.has Str.CR msg = false ->
   cleaned (msg, 0) = (msg, 0)).
Proof.
  intros d sorted. split_and!.
  - unfold AiStudio.err_rows. rewrite map_map. apply map_ext. by intros [m c].
  - unfold AiStudio.err_rows. rewrite map_map. apply map_ext. by intros [m c].
  - apply sorted_desc_perm.
  - apply sorted_desc_sorted.
  - intros k. apply sorted_desc_stable.
  - apply display_canonical.
  - intros Hne Hlen. rewrite display_other by exact Hne.
    destruct (Z.ltb_spec 80 (Str.len msg)); [|lia]. split; [reflexivity|].
    unfold Str.len in *. rewrite length_app, length_take.
    change (String.length "...") with 3%nat. lia.
  - intros Hne Hlen. rewrite display_other by exact Hne.
    destruct (Z.ltb_spec 80 (Str.len msg)); [lia | reflexivity].
  - intros Hd. split.
    + rewrite rows_of_stats_nonempty by exact Hd. by rewrite map_map.
    + rewrite csv_rows_of_stat_nonempty by exact Hd. by rewrite map_map.
  - intros HLF HCR. unfold cleaned. simpl. by rewrite clean_msg_id.
Qed.

Lemma C9_error_rows_witness :
  (AiStudio.display long_message = Str.take 77 long_message +:+ "..." /\
   Str.len (AiStudio.display long_message) = 80) /\
  AiStudio.display "disk full" = "disk full" /\
  (map (drop 5) (OpenAI.rows_of_stats "FS" sample_errors)
     = map bucket_cells [("timeout", 4); ("disk full", 2)] /\
   map (drop 5) (AiStudio.csv_rows_of_stat "FS" sample_errors)
     = map (fun it => bucket_cells (cleaned it))
         [("timeout", 4); ("disk full", 2)]) /\
  cleaned ("disk full", 0) = ("disk full", 0).
Proof.
  pose proof (C9_error_rows "FS" sample_errors long_message) as HL.
  pose proof (C9_error_rows "FS" sample_errors "disk full") as HS.
  split; [|split; [|split]].
  - apply (proj1 (proj2 (proj1 (proj2 HL)))); [discriminate | reflexivity].
  - apply (proj2 (proj2 (proj1 (proj2 HS)))); [discriminate | discriminate].
  - apply (proj1 (proj2 (proj2 HS))). discriminate.
  - apply (proj2 (proj2 (proj2 HS))); reflexivity.
Defined.

End ErrorTable.

(** ** The statistics record *)

Module StatsFacts.
Import Totals Buckets.

Lemma total_incr (d : Py.dict) (k : string) :
  total (Py.set d k (Py.get d k 0 + 1)) = total d + 1.
Proof.
  induction d as [|[k' v] d IH]; simpl; [lia|].
  destruct (String.eqb k' k); simpl; lia.
Qed.

Lemma keys_set (d : Py.dict) (k : string) (v : Z) :
  ((k ∈ keys d) /\ keys (Py.set d k v) = keys d) \/
  ((k ∉ keys d) /\ keys (Py.set d k v) = keys d ++ [k]).
Proof.
  unfold keys. induction d as [|[k' v'] d IH]; simpl.
  - right. split; [apply not_elem_of_nil | reflexivity].
  - destruct (String.eqb_spec k' k) as [->|Hne]; simpl.
    + left. split; [apply elem_of_cons; by left | reflexivity].
    + destruct IH as [[Hin ->]|[Hout ->]].
      * left. split; [apply elem_of_cons; by right | reflexivity].
      * right. split; [|reflexivity].
        rewrite elem_of_cons. intros [->|?]; done.
Qed.

Lemma keys_set_NoDup (d : Py.dict) (k : string) (v : Z) :
  NoDup (keys d) -> NoDup (keys (Py.set d k v)).
Proof.
  intros Hd. destruct (keys_set d k v) as [[_ ->]|[Hout ->]]; [exact Hd|].
  apply NoDup_app. split_and!; [exact Hd | | apply NoDup_singleton].
  intros x Hx ->%list_elem_of_singleton. done.
Qed.

Lemma tally_total (ks : list string) (d : Py.dict) :
  total (fold_left tally ks d) = total d + Z.of_nat (length ks).
Proof.
  revert d. induction ks as [|k ks IH]; intros d; simpl fold_left.
  - simpl. lia.
  - rewrite IH. unfold tally. rewrite total_incr. simpl length. lia.
Qed.

Lemma tally_NoDup (ks : list string) (d : Py.dict) :
  NoDup (keys d) -> NoDup (keys (fold_left tally ks d)).
Proof.
  revert d. induction ks as [|k ks IH]; intros d Hd; simpl; [exact Hd|].
  apply IH. by apply keys_set_NoDup.
Qed.

(** A turn of the loop raises exactly on a row that is not a text, and
    otherwise counts the canonical key of the row once more. *)
Lemma count_message_text (d : Py.dict) (row : Db.pyvalue) :
  AiStudio.count_message d row =
  (fun s => tally d (AiStudio.normalize s)) <$> text_of row.
Proof. by destruct row. Qed.

Lemma count_messages_texts (rows : list Db.pyvalue) (d : Py.dict) :
  AiStudio.count_messages rows d =
  if forallb is_text rows
  then Some (fold_left tally (map AiStudio.normalize (omap text_of rows)) d)
  else None.
Proof.
  revert d. induction rows as [|row rows IH]; intros d; [reflexivity|].
  cbn [AiStudio.count_messages forallb]. rewrite count_message_text.
  destruct row; simpl; try reflexivity; apply IH.
Qed.

Lemma is_text_omap_length (rows : list Db.pyvalue) :
  forallb is_text rows = true -> length (omap text_of rows) = length rows.
Proof.
  induction rows as [|row rows IH]; [done|]. cbn [forallb].
  intros [Hrow Hrows]%andb_true_iff. specialize (IH Hrows).
  destruct row; try discriminate; simpl; f_equal; exact IH.
Qed.

(** What the SELECT statement gives: it fails with the COUNT statement
    of the same WHERE clause, or on a selected text that does not
    decode; otherwise it returns one value per selected row. *)
Lemma fetchall_cases (db : Db.database) :
  (Db.selected db Db.SelectErrorMessage = None /\
   Db._execute_query_fetchone db Db.CountErrorNotEmpty = None /\
   pending_messages db = [] /\ fetched db = []) \/
  (exists rs,
     Db.selected db Db.SelectErrorMessage = Some rs /\
     Db._execute_query_fetchone db Db.CountErrorNotEmpty =
       Some (Z.of_nat (length rs)) /\
     pending_messages db = map Db.r_error_message rs /\
     ((existsb undecodable (pending_messages db) = true /\
       Db._execute_query_fetchall db Db.SelectErrorMessage = None /\
       fetched db = []) \/
      (existsb undecodable (pending_messages db) = false /\
       Db._execute_query_fetchall db Db.SelectErrorMessage = Some (fetched db) /\
       Forall2 (fun x row => Db.to_python x = Some row)
         (pending_messages db) (fetched db)))).
Proof.
  unfold fetched, pending_messages, Db._execute_query_fetchall,
    Db._execute_query_fetchone.
  change (Db.selected db Db.CountErrorNotEmpty)
    with (Db.selected db Db.SelectErrorMessage).
  destruct (Db.selected db Db.SelectErrorMessage) as [rs|]; [|by left].
  right. exists rs. split_and!; try done. simpl.
  destruct (mapM (fun r => Db.to_python (Db.r_error_message r)) rs) as [l|] eqn:E.
  - right. apply mapM_Some in E. simpl. split_and!; [|done|].
    + apply not_true_is_false. intros (x & Hx & Hbad)%existsb_exists.
      apply in_map_iff in Hx as (r & <- & Hr).
      apply list_elem_of_In, list_elem_of_lookup in Hr as [i Hi].
      destruct (Forall2_lookup_l _ _ _ i r E Hi) as (row & _ & Hrow).
      by destruct (Db.r_error_message r).
    + by apply Forall2_fmap_l.
  - left. apply mapM_None in E. simpl. split_and!; try done.
    apply existsb_exists. apply Exists_exists in E as (r & Hr & Hnone).
    exists (Db.r_error_message r). split.
    + apply in_map. by apply list_elem_of_In.
    + by destruct (Db.r_error_message r).
Qed.

(** A record is returned when there is a table and no turn of the loop
    raises; the record is then known. *)
Lemma get_stats_Some (db_path : string) (db : Db.database) (st : stats) :
  AiStudio.get_stats db_path db = Some st ->
  exists t, db = Some t /\ forallb is_text (fetched db) = true /\
    st = Stats (Py.basename db_path) db_path
           (Z.of_nat (length (Db.rows t)))
           (or_0 (Db._execute_query_fetchone db (Db.CountIsDone 1)))
           (or_0 (Db._execute_query_fetchone db Db.CountCmxNotEmpty))
           (or_0 (Db._execute_query_fetchone db (Db.CountIsDone 0)))
           (or_0 (Db._execute_query_fetchone db Db.CountErrorNotEmpty))
           (fold_left tally (selected_keys db) []).
Proof.
  destruct db as [t|]; [|discriminate]. unfold AiStudio.get_stats.
  cbn [Db._execute_query_fetchone Db.selected Db.columns_of forallb].
  fold (fetched (Some t)). rewrite count_messages_texts.
  destruct (forallb is_text (fetched (Some t))) eqn:E; [|discriminate].
  intros [= <-]. exists t. split_and!; try done.
  cbn [Db.where_]. by rewrite List.filter_true.
Qed.

Lemma get_stats_is_Some (db_path : string) (t : Db.table) :
  forallb is_text (fetched (Some t)) = true ->
  is_Some (AiStudio.get_stats db_path (Some t)).
Proof.
  intros E. unfold AiStudio.get_stats.
  cbn [Db._execute_query_fetchone Db.selected Db.columns_of forallb].
  fold (fetched (Some t)). rewrite count_messages_texts, E. by eexists.
Qed.

Lemma get_stats_breakdown (db_path : string) (db : Db.database) (st : stats) :
  AiStudio.get_stats db_path db = Some st ->
  forallb is_text (fetched db) = true /\
  error_message_breakdown st = fold_left tally (selected_keys db) [] /\
  is_done_0_with_error_count st =
    or_0 (Db._execute_query_fetchone db Db.CountErrorNotEmpty).
Proof. by intros (t & -> & Htext & ->)%get_stats_Some. Qed.

(** The keys of the breakdown are pairwise different. *)
Lemma get_stats_keys_NoDup (db_path : string) (db : Db.database) (st : stats) :
  AiStudio.get_stats db_path db = Some st ->
  NoDup (keys (error_message_breakdown st)).
Proof.
  intros (_ & -> & _)%get_stats_breakdown. apply tally_NoDup. constructor.
Qed.

(** C3, as stated, fails: the three pending rows of [garbled_table] have
    a message, so the COUNT statement gives 3; two of the messages are
    texts that do not decode, so the SELECT statement raises
    [OperationalError], [_execute_query] returns [None] and the loop
    runs over nothing. The record has the count 3 and no bucket. *)
Lemma C3_counterexample :
  exists st,
    AiStudio.get_stats "/data/g.db" (Some garbled_table) = Some st /\
    is_done_0_with_error_count st = 3 /\
    error_message_breakdown st = [] /\
    total (error_message_breakdown st) <> is_done_0_with_error_count st.
Proof.
  exists (Stats "g.db" "/data/g.db" 3 0 0 3 3 []).
  split; [reflexivity|]. split; [reflexivity|]. split; [reflexivity|].
  discriminate.
Qed.

(** C3, amended: in a record that [get_stats] returns for a database in
    which every selected message that is a text decodes, the counts of
    the breakdown add up to [is_done_0_with_error_count]. When a
    selected text does not decode, the record has no bucket, and its
    [is_done_0_with_error_count] is the number of selected rows, which
    is at least 1. *)
Theorem C3_breakdown_total (db_path : string) (db : Db.database) (st : stats) :
  AiStudio.get_stats db_path db = Some st ->
  (existsb undecodable (pending_messages db) = false ->
   total (error_message_breakdown st) = is_done_0_with_error_count st) /\
  (existsb undecodable (pending_messages db) = true ->
   error_message_breakdown st = [] /\
   is_done_0_with_error_count st = Z.of_nat (length (pending_messages db)) /\
   1 <= is_done_0_with_error_count st).
Proof.
  intros (Htext & -> & ->)%get_stats_breakdown.
  rewrite tally_total. unfold selected_keys. rewrite length_map.
  rewrite is_text_omap_length by exact Htext.
  destruct (fetchall_cases db) as [(_ & -> & -> & ->)|
    (rs & _ & -> & Hp & [(Hbad & _ & Hf)|(Hok & _ & Hf)])].
  - split; [done|]. simpl. discriminate.
  - rewrite Hbad, Hf. split; [discriminate|]. intros _. simpl.
    rewrite Hp, length_map. split_and!; try done.
    apply existsb_exists in Hbad as (x & Hx & _). rewrite Hp in Hx.
    destruct rs; [done|]. simpl. lia.
  - rewrite Hok. split; [|discriminate]. intros _.
    apply Forall2_length in Hf. rewrite <- Hf, Hp, length_map. simpl. lia.
Qed.

Example get_stats_scenario :
  AiStudio.get_stats "/data/x.sqlite" scenario_db = Some scenario_stats.
Proof. reflexivity. Qed.

(** The record of the scenario gives one export row, with the canonical
    key and the count 3. *)
Example rows_of_scenario :
  OpenAI.rows_of_stats "FS" scenario_stats =
  [[VStr "FS"; VStr "/data/x.sqlite"; VInt 12; VInt 7; VInt 5;
    VStr OpenAI.NORMALIZED_ERROR_MESSAGE; VInt 3]].
Proof. reflexivity. Qed.

Lemma C3_breakdown_total_witness :
  total (error_message_breakdown scenario_stats) =
  is_done_0_with_error_count scenario_stats.
Proof.
  apply (C3_breakdown_total "/data/x.sqlite" scenario_db); reflexivity.
Defined.

(** A table without the [error_message] column: both statements on
    error messages fail, the count is 0 and the breakdown is empty. *)
Example get_stats_no_error_column :
  AiStudio.get_stats "/data/y.db"
    (Some (Db.Table [Db.is_done] false [Db.Row (Db.Integer 0) Db.Null (Db.Text "boom")]))
  = Some (Stats "y.db" "/data/y.db" 1 0 0 1 0 []).
Proof. reflexivity. Qed.

Example get_stats_unreadable : AiStudio.get_stats "/data/z.db" None = None.
Proof. reflexivity. Qed.

(** A table whose [is_done] column is declared as text and holds the
    texts 0 and 1: the rows are counted as they are with numbers. *)
Example get_stats_text_flags :
  AiStudio.get_stats "/data/t.db"
    (Some (Db.Table [Db.is_done; Db.cmx_document_id; Db.error_message] true
             [Db.Row (Db.Text "1") (Db.Text "doc") Db.Null;
              Db.Row (Db.Text "0") Db.Null (Db.Text "boom");
              Db.Row (Db.Text "0 ") Db.Null (Db.Text "boom")]))
  = Some (Stats "t.db" "/data/t.db" 3 1 1 1 1 [("boom", 1)]).
Proof. reflexivity. Qed.

(** A selected message that is a blob, or a number, makes [re.match]
    raise: there is no record, although the table can be counted. *)
Example get_stats_blob : AiStudio.get_stats "/data/b.db" (Some blob_table) = None.
Proof. reflexivity. Qed.

Example get_stats_number :
  AiStudio.get_stats "/data/n.db" (Some number_table) = None.
Proof. reflexivity. Qed.

Lemma same_pattern : AiStudio.ERROR_PATTERN = OpenAI.ERROR_PATTERN.
Proof. reflexivity. Qed.

Lemma same_canonical_key :
  AiStudio.NORMALIZED_ERROR_MESSAGE = OpenAI.NORMALIZED_ERROR_MESSAGE.
Proof. reflexivity. Qed.

Lemma same_normalize (message : string) :
  AiStudio.normalize message = OpenAI.normalize message.
Proof.
  unfold AiStudio.normalize, OpenAI.normalize.
  by rewrite same_pattern, same_canonical_key.
Qed.

Lemma same_count_message (d : Py.dict) (row : Db.pyvalue) :
  AiStudio.count_message d row = OpenAI.count_message d row.
Proof.
  unfold AiStudio.count_message, OpenAI.count_message.
  destruct row as [|n|m e|s|b]; cbv beta iota zeta;
    [rewrite same_normalize| | |rewrite same_normalize|]; reflexivity.
Qed.

Lemma same_loop (rows : list Db.pyvalue) (d : Py.dict) :
  AiStudio.count_messages rows d = OpenAI.count_messages rows d.
Proof.
  revert d. induction rows as [|row rows IH]; intros d; [reflexivity|].
  cbn [AiStudio.count_messages OpenAI.count_messages].
  rewrite same_count_message.
  destruct (OpenAI.count_message d row); [apply IH | reflexivity].
Qed.

(** C10: on every database content the two scripts return the same
    result of [get_stats]: the same counters and the same breakdown, or
    no record in both. *)
Theorem C10_same_engine (db_path : string) (db : Db.database) :
  AiStudio.get_stats db_path db = OpenAI.get_stats db_path db.
Proof.
  unfold AiStudio.get_stats, OpenAI.get_stats.
  destruct (Db._execute_query_fetchone db Db.CountTotal) as [count_total|]; [|reflexivity].
  by rewrite same_loop.
Qed.

End StatsFacts.

(** ** [int] and [str] *)

Module IntFacts.
Import Decimal Digits.

Lemma digits_uint (u : uint) (acc : Z) (after_digit : bool) :
  PyInt.digits acc after_digit (NilEmpty.string_of_uint u) =
  match u with
  | Nil => if after_digit then Some acc else None
  | _ => Some (uval acc u)
  end.
Proof.
  revert acc after_digit.
  induction u as [|u IH|u IH|u IH|u IH|u IH|u IH|u IH|u IH|u IH|u IH];
    intros acc after_digit; [reflexivity|..];
    cbn [NilEmpty.string_of_uint PyInt.digits];
    change (PyInt.digit _) with (Some 0) || change (PyInt.digit _) with (Some 1)
    || change (PyInt.digit _) with (Some 2) || change (PyInt.digit _) with (Some 3)
    || change (PyInt.digit _) with (Some 4) || change (PyInt.digit _) with (Some 5)
    || change (PyInt.digit _) with (Some 6) || change (PyInt.digit _) with (Some 7)
    || change (PyInt.digit _) with (Some 8) || change (PyInt.digit _) with (Some 9);
    cbv iota; rewrite IH; cbn [uval]; rewrite ?Z.add_0_r; destruct u; reflexivity.
Qed.

Lemma uval_acc (u : uint) (acc : positive) :
  uval (Z.pos acc) u = Z.pos (Pos.of_uint_acc u acc).
Proof.
  revert acc. induction u; intros acc; cbn [uval Pos.of_uint_acc];
    [reflexivity|..]; rewrite <- IHu; f_equal; lia.
Qed.

Lemma uval_of_uint (u : uint) : uval 0 u = Z.of_N (Pos.of_uint u).
Proof.
  induction u; cbn [uval Pos.of_uint]; [reflexivity | exact IHu |..];
    cbn [Z.of_N]; rewrite <- uval_acc; reflexivity.
Qed.

Lemma uval_to_uint (p : positive) : uval 0 (Pos.to_uint p) = Z.pos p.
Proof. by rewrite uval_of_uint, DecimalPos.Unsigned.of_to. Qed.

Lemma no_space_uint (u : uint) : no_space (NilEmpty.string_of_uint u) = true.
Proof. induction u; simpl; [reflexivity|..]; exact IHu. Qed.

Lemma rstrip_id (s : string) : no_space s = true -> PyInt.rstrip s = s.
Proof.
  induction s as [|c s IH]; simpl; [reflexivity|].
  intros [Hc Hs]%andb_true_iff. rewrite IH by exact Hs.
  apply negb_true_iff in Hc. rewrite Hc. by destruct s.
Qed.

Lemma lstrip_id (s : string) : no_space s = true -> PyInt.lstrip s = s.
Proof.
  destruct s as [|c s]; simpl; [reflexivity|].
  intros [Hc _]%andb_true_iff. apply negb_true_iff in Hc. by rewrite Hc.
Qed.

Lemma of_str_uint (u : uint) :
  u <> Nil -> PyInt.of_str (NilEmpty.string_of_uint u) = Some (uval 0 u).
Proof.
  intros Hu. unfold PyInt.of_str.
  rewrite lstrip_id, rstrip_id by apply no_space_uint.
  pose proof (digits_uint u 0 false) as Hd.
  destruct u; [done|..]; exact Hd.
Qed.

Lemma of_str_neg_uint (u : uint) :
  u <> Nil ->
  PyInt.of_str (String "-" (NilEmpty.string_of_uint u)) = Some (- uval 0 u).
Proof.
  intros Hu. unfold PyInt.of_str.
  assert (no_space (String "-" (NilEmpty.string_of_uint u)) = true) as Hs.
  { simpl. apply no_space_uint. }
  rewrite lstrip_id, rstrip_id by exact Hs.
  rewrite digits_uint. by destruct u.
Qed.

(** [int(str(n)) == n] *)
Lemma of_str_str (n : Z) : PyInt.of_str (Py.str n) = Some n.
Proof.
  unfold Py.str. destruct n as [|p|p]; cbn [Z.to_int NilZero.string_of_int].
  - reflexivity.
  - unfold NilZero.string_of_uint.
    pose proof (DecimalPos.Unsigned.to_uint_nonnil p) as Hp.
    destruct (Pos.to_uint p) eqn:E; [done|..];
      rewrite <- E in *; rewrite of_str_uint, uval_to_uint; done.
  - unfold NilZero.string_of_uint.
    pose proof (DecimalPos.Unsigned.to_uint_nonnil p) as Hp.
    destruct (Pos.to_uint p) eqn:E; [done|..];
      rewrite <- E in *; rewrite of_str_neg_uint, uval_to_uint; done.
Qed.

Lemma str_inj (a b : Z) : Py.str a = Py.str b -> a = b.
Proof.
  intros E. apply (f_equal PyInt.of_str) in E.
  rewrite !of_str_str in E. by injection E.
Qed.
End IntFacts.

(** ** Column names *)

Module ColumnFacts.

Lemma col_loop_step (fuel : nat) (idx : Z) (name : string) :
  (Z.to_nat idx <= fuel)%nat ->
  OpenAI.col_loop (S fuel) idx name = OpenAI.col_loop fuel idx name.
Proof.
  revert idx name. induction fuel as [|fuel IH]; intros idx name Hfuel.
  - simpl. destruct (Z.ltb_spec 0 idx); [lia | reflexivity].
  - cbn [OpenAI.col_loop]. destruct (Z.ltb_spec 0 idx); [|reflexivity].
    apply IH. assert (0 <= (idx - 1) / 26 <= idx - 1); [|lia].
    split; [apply Z.div_pos; lia|]. apply Z.div_le_upper_bound; lia.
Qed.

(** The turns that [_col_idx_to_name] is given are enough: more turns
    change nothing, so the loop has ended. *)
Lemma col_loop_enough (extra : nat) (idx : Z) (name : string) :
  OpenAI.col_loop (Z.to_nat idx + extra) idx name =
  OpenAI.col_loop (Z.to_nat idx) idx name.
Proof.
  induction extra as [|extra IH]; [by rewrite Nat.add_0_r|].
  rewrite Nat.add_succ_r, col_loop_step by lia. exact IH.
Qed.

Example col_names :
  map OpenAI._col_idx_to_name [1; 2; 7; 26; 27; 52; 53; 702; 703] =
  ["A"; "B"; "G"; "Z"; "AA"; "AZ"; "BA"; "ZZ"; "AAA"].
Proof. reflexivity. Qed.

Example col_name_none : OpenAI._col_idx_to_name 0 = EmptyString.
Proof. reflexivity. Qed.

End ColumnFacts.

(** ** Rows and cells appended to the worksheet *)

Module SheetFacts.
Import Sheet.

Lemma highest_bound (l : list Z) : Forall (fun k => k <= highest l) l.
Proof.
  induction l as [|k l IH]; simpl; constructor; [lia|].
  eapply Forall_impl; [exact IH|]. simpl. intros; lia.
Qed.

Lemma highest_attained (l : list Z) : highest l = 0 \/ highest l ∈ l.
Proof.
  induction l as [|k l IH]; simpl; [by left|].
  destruct (Z.max_spec k (highest l)) as [[_ ->]|[_ ->]].
  - destruct IH as [->|IH]; [by left | right; by apply elem_of_cons; right].
  - right. apply elem_of_cons; by left.
Qed.

Lemma max_row_acc (rows : list ET.element) (acc : Z) :
  0 <= acc ->
  fold_left
    (fun max_r r =>
       match PyInt.of_attr (ET.get r "r") with
       | Some rr => if max_r <? rr then rr else max_r
       | None => max_r
       end) rows acc
  = Z.max acc (highest (omap index_of rows)).
Proof.
  unfold highest.
  revert acc. induction rows as [|r rows IH]; intros acc Hacc; simpl.
  - lia.
  - fold (index_of r). destruct (index_of r) as [rr|]; simpl.
    + change (list_omap _ _ index_of rows) with (omap index_of rows).
      destruct (Z.ltb_spec acc rr); rewrite IH; lia.
    + by apply IH.
Qed.

Lemma max_row_highest (rows : list ET.element) :
  OpenAI.max_row rows = highest (omap index_of rows).
Proof.
  unfold OpenAI.max_row. rewrite max_row_acc by lia.
  assert (0 <= highest (omap index_of rows)); [|lia].
  generalize (omap index_of rows). intros l. induction l; simpl; lia.
Qed.

Lemma start_row_succ (max_r : Z) : OpenAI.start_row max_r = max_r + 1.
Proof. unfold OpenAI.start_row. by destruct (Z.eqb_spec max_r 0) as [->|]. Qed.

Lemma fold_append (l : list ET.element) (e : ET.element) :
  fold_left ET.append l e =
  ET.Element (ET.tag e) (ET.attrib e) (ET.text e) (ET.tail e) (ET.children e ++ l).
Proof.
  revert e. induction l as [|c l IH]; intros e; simpl.
  - rewrite app_nil_r. by destruct e.
  - rewrite IH. simpl. by rewrite <- app_assoc.
Qed.

Lemma make_row_tag (k : Z) (row_values : list value) :
  ET.tag (OpenAI.make_row k row_values) = ROW.
Proof. unfold OpenAI.make_row. by rewrite fold_append. Qed.

Lemma make_row_r (k : Z) (row_values : list value) :
  ET.get (OpenAI.make_row k row_values) "r" = Some (Py.str k).
Proof. unfold OpenAI.make_row. by rewrite fold_append. Qed.

Lemma make_row_index (k : Z) (row_values : list value) :
  index_of (OpenAI.make_row k row_values) = Some k.
Proof. unfold index_of. rewrite make_row_r. apply IntFacts.of_str_str. Qed.

Lemma make_row_cells (k : Z) (row_values : list value) :
  ET.children (OpenAI.make_row k row_values) =
  imap (fun j value => OpenAI.make_cell k (Z.of_nat j + 1) value) row_values.
Proof. unfold OpenAI.make_row. by rewrite fold_append. Qed.

Lemma new_rows_eq (sheet_data : ET.element) (rows_data : list (list value)) :
  OpenAI.new_rows sheet_data rows_data =
  imap (fun i row_values =>
          OpenAI.make_row (highest (existing_indices sheet_data) + 1 + Z.of_nat i)
            row_values) rows_data.
Proof.
  unfold OpenAI.new_rows. by rewrite start_row_succ, max_row_highest.
Qed.

(** The rows appended to the sheet stand after the rows it had, one
    per export row and in their order, and their indices are the
    consecutive integers from the highest index in the sheet plus one;
    that highest index is zero when the sheet has no row index. *)
Lemma appended_rows (sheet_data : ET.element)
    (rows_data : list (list value)) :
  let existing := existing_indices sheet_data in
  let m := highest existing in
  let appended := OpenAI.new_rows sheet_data rows_data in
  (Forall (fun k => k <= m) existing /\ (m = 0 \/ m ∈ existing) /\
   (existing = [] -> m = 0)) /\
  ET.children (OpenAI.append_rows rows_data sheet_data) =
    ET.children sheet_data ++ appended /\
  length appended = length rows_data /\
  Forall (fun e => ET.tag e = ROW) appended /\
  map ET.children appended =
    imap (fun i row_values =>
            imap (fun j value =>
                    OpenAI.make_cell (m + 1 + Z.of_nat i) (Z.of_nat j + 1) value)
              row_values) rows_data /\
  map (fun e => ET.get e "r") appended =
    map (fun k => Some (Py.str k)) (seqZ (m + 1) (Z.of_nat (length rows_data))) /\
  map index_of appended =
    map Some (seqZ (m + 1) (Z.of_nat (length rows_data))).
Proof.
  intros existing m appended. subst appended.
  rewrite new_rows_eq. fold existing. fold m. split_and!.
  - apply highest_bound.
  - apply highest_attained.
  - subst m. by intros ->.
  - unfold OpenAI.append_rows. rewrite fold_append. simpl.
    by rewrite new_rows_eq.
  - apply length_imap.
  - apply Forall_forall. intros e (i & He)%list_elem_of_lookup.
    rewrite list_lookup_imap in He.
    destruct (rows_data !! i); simplify_eq/=. apply make_row_tag.
  - apply list_eq. intros i.
    rewrite list_lookup_fmap, !list_lookup_imap.
    destruct (rows_data !! i); simpl; [|reflexivity].
    by rewrite make_row_cells.
  - apply list_eq. intros i.
    rewrite !list_lookup_fmap, list_lookup_imap.
    destruct (rows_data !! i) eqn:E; simpl.
    + rewrite make_row_r, lookup_seqZ_lt; [reflexivity|].
      apply lookup_lt_Some in E. lia.
    + rewrite lookup_seqZ_ge; [reflexivity|].
      apply lookup_ge_None in E. lia.
  - apply list_eq. intros i.
    rewrite !list_lookup_fmap, list_lookup_imap.
    destruct (rows_data !! i) eqn:E; simpl.
    + rewrite make_row_index, lookup_seqZ_lt; [reflexivity|].
      apply lookup_lt_Some in E. lia.
    + rewrite lookup_seqZ_ge; [reflexivity|].
      apply lookup_ge_None in E. lia.
Qed.

(** Two records, of zero and of two buckets, on a sheet whose highest
    index is 2: three rows, of indices 3, 4 and 5. *)
Example new_rows_scenario :
  map index_of (OpenAI.new_rows template_sheet_data scenario_rows) =
  [Some 3; Some 4; Some 5].
Proof. reflexivity. Qed.

(** On a sheet without rows the first new row has the index 1. *)
Example new_rows_empty_sheet :
  highest (existing_indices empty_sheet_data) = 0 /\
  map index_of (OpenAI.new_rows empty_sheet_data scenario_rows) =
  [Some 1; Some 2; Some 3].
Proof. split; reflexivity. Qed.

(** ** Cells *)

(** C6, as stated, fails: a string of one space is blank, and its cell
    is marked as inline text and holds that text; it is not an empty
    cell. *)
Lemma C6_counterexample :
  let cell := OpenAI.make_cell 3 6 (VStr " ") in
  ET.get cell "t" = Some "inlineStr" /\
  ET.children cell =
    [ET.Element IS [] None None [ET.Element T [] (Some " ") None []]] /\
  ET.children cell <> [].
Proof. split; [reflexivity | split; [reflexivity | discriminate]]. Qed.

(** C6, amended: [None] and the empty string give a cell without any
    child; a number gives a cell whose one child is a [v] element
    holding the text of the number; every other value, a blank string
    among them, gives a cell marked as inline text whose one child is
    an [is] element holding a [t] element with the text. *)
Theorem C6_cell_typing (row_index col_idx : Z) (v : value) :
  let cell := OpenAI.make_cell row_index col_idx v in
  (ET.tag cell = CELL /\
   ET.get cell "r" =
     Some (OpenAI._col_idx_to_name col_idx +:+ Py.str row_index) /\
   ET.get cell "s" = Some "2" /\ ET.text cell = None) /\
  (v = VNone \/ v = VStr EmptyString ->
   ET.children cell = [] /\ ET.get cell "t" = None) /\
  (forall n, v = VInt n ->
   ET.children cell = [ET.Element V [] (Some (Py.str n)) None []] /\
   ET.get cell "t" = None) /\
  (forall repr, v = VFloat repr ->
   ET.children cell = [ET.Element V [] (Some repr) None []] /\
   ET.get cell "t" = None) /\
  (forall s, v = VStr s -> s <> EmptyString ->
   ET.children cell =
     [ET.Element IS [] None None [ET.Element T [] (Some s) None []]] /\
   ET.get cell "t" = Some "inlineStr").
Proof.
  intros cell. subst cell. split_and!.
  - unfold OpenAI.make_cell. by destruct (OpenAI.is_empty v), (OpenAI.is_number v).
  - unfold OpenAI.make_cell. by destruct (OpenAI.is_empty v), (OpenAI.is_number v).
  - unfold OpenAI.make_cell. by destruct (OpenAI.is_empty v), (OpenAI.is_number v).
  - unfold OpenAI.make_cell. by destruct (OpenAI.is_empty v), (OpenAI.is_number v).
  - by intros [->| ->].
  - by intros n ->.
  - by intros repr ->.
  - intros s -> Hs. unfold OpenAI.make_cell. simpl.
    destruct (String.eqb_spec s EmptyString); [done|]. by split.
Qed.

Lemma C6_cell_typing_witness :
  (ET.children (OpenAI.make_cell 3 6 (VStr EmptyString)) = [] /\
   ET.get (OpenAI.make_cell 3 6 (VStr EmptyString)) "t" = None) /\
  (ET.children (OpenAI.make_cell 3 7 (VInt 12)) =
     [ET.Element V [] (Some "12") None []] /\
   ET.get (OpenAI.make_cell 3 7 (VInt 12)) "t" = None) /\
  (ET.children (OpenAI.make_cell 3 6 (VStr "disk full")) =
     [ET.Element IS [] None None [ET.Element T [] (Some "disk full") None []]] /\
   ET.get (OpenAI.make_cell 3 6 (VStr "disk full")) "t" = Some "inlineStr").
Proof.
  split; [|split].
  - apply (proj1 (proj2 (C6_cell_typing 3 6 (VStr EmptyString)))). by right.
  - apply (proj1 (proj2 (proj2 (C6_cell_typing 3 7 (VInt 12)))) 12). reflexivity.
  - apply (proj2 (proj2 (proj2 (proj2 (C6_cell_typing 3 6 (VStr "disk full")))))
             "disk full"); [reflexivity | discriminate].
Defined.

End SheetFacts.

(** ** Archives *)

Module ZipFacts.

Lemma member_None (ar : Zip.archive) (name : string) :
  name ∉ Zip.names ar -> Zip.member ar name = None.
Proof.
  induction ar as [|[n d] ar IH]; simpl; [done|].
  rewrite not_elem_of_cons. intros [Hne Hout]. rewrite IH by exact Hout.
  destruct (String.eqb_spec n name); congruence.
Qed.

Lemma member_is_Some (ar : Zip.archive) (name : string) :
  name ∈ Zip.names ar -> is_Some (Zip.member ar name).
Proof.
  induction ar as [|[n d] ar IH]; simpl.
  - by intros ?%elem_of_nil.
  - intros Hin. destruct (Zip.member ar name) as [d'|] eqn:E; [by eexists|].
    apply elem_of_cons in Hin as [->|Hin].
    + rewrite String.eqb_refl. by eexists.
    + destruct (IH Hin) as [? ?]. congruence.
Qed.

Lemma member_names (ar : Zip.archive) (name : string) (d : Zip.bytes) :
  Zip.member ar name = Some d -> name ∈ Zip.names ar.
Proof.
  intros Hm. destruct (decide (name ∈ Zip.names ar)) as [|Hout]; [done|].
  apply member_None in Hout. congruence.
Qed.

(** In an archive without repeated names, [read] gives the data of the
    one member of that name. *)
Lemma member_NoDup (ar : Zip.archive) (i : nat) (name : string) (d : Zip.bytes) :
  NoDup (Zip.names ar) -> ar !! i = Some (name, d) -> Zip.member ar name = Some d.
Proof.
  revert i. induction ar as [|[n0 d0] ar IH]; intros i; simpl; [done|].
  intros [Hout Hnd]%NoDup_cons Hi. destruct i as [|i]; simpl in Hi.
  - injection Hi as -> ->. rewrite member_None by exact Hout.
    by rewrite String.eqb_refl.
  - by rewrite (IH i).
Qed.

End ZipFacts.

(** ** The element tree *)

Module TreeFacts.

Lemma update_first_split (t : string) (f : ET.element -> ET.element)
    (l : list ET.element) (found : ET.element) :
  List.find (ET.has_tag t) l = Some found ->
  exists before after,
    l = before ++ found :: after /\
    Forall (fun e => ET.has_tag t e = false) before /\
    ET.update_first t f l = before ++ f found :: after.
Proof.
  induction l as [|c l IH]; simpl; [done|].
  destruct (ET.has_tag t c) eqn:E.
  - intros [= ->]. exists [], l. by repeat split.
  - intros (before & after & -> & Hb & ->)%IH.
    exists (c :: before), after. repeat split. by constructor.
Qed.

End TreeFacts.

(** ** The export to the spreadsheet *)

Module ExportFacts.
Import Archive.

Lemma bind_return {A B} (m : M A) (k : A -> M B) (w w' : world) (a : A) :
  m w = (Return a, w') -> bind m k w = k a w'.
Proof. unfold bind. by intros ->. Qed.

Lemma bind_raise {A B} (m : M A) (k : A -> M B) (w w' : world) (e : exn) :
  m w = (Raise e, w') -> bind m k w = (Raise e, w').
Proof. unfold bind. by intros ->. Qed.

Lemma rows_empty (all_stats : list stats) (file_system : string) :
  OpenAI._build_excel_rows all_stats file_system = [] <-> all_stats = [].
Proof.
  rewrite _build_excel_rows_concat. split; [|by intros ->].
  destruct all_stats as [|st l]; [done|]. simpl.
  pose proof (ExportRows.rows_of_stats_not_nil file_system st) as Hrows.
  by destruct (OpenAI.rows_of_stats file_system st).
Qed.

Lemma copy_member_run (template_path output_path : string)
    (template : Zip.archive) (new_sheet_xml : Zip.bytes) (filename : string)
    (acc : Zip.archive) (nd : string -> nat) (wr : string -> bool)
    (fs : gmap nat Zip.archive) (tr : list event) :
  fs !! nd template_path = Some template ->
  fs !! nd output_path = Some acc ->
  filename ∈ Zip.names template ->
  copy_member template_path output_path template new_sheet_xml filename
    (World nd wr fs tr) =
  (Return tt,
   World nd wr
     (<[nd output_path := acc ++ copied template new_sheet_xml [filename]]> fs)
     (tr ++ copy_events template_path output_path [filename])).
Proof.
  intros Htp Hop [d Hd]%ZipFacts.member_is_Some.
  unfold copy_member.
  erewrite bind_return; cycle 1.
  { unfold zip_read. cbn [node writable files trace]. rewrite Hd, Htp.
    cbn [mbind option_bind]. rewrite Hd. reflexivity. }
  unfold zip_writestr. cbn [node writable files trace]. rewrite Hop.
  unfold copied, copy_events. cbn [map concat default app]. rewrite Hd.
  by rewrite <- app_assoc.
Qed.

Lemma copy_loop (template_path output_path : string)
    (template : Zip.archive) (new_sheet_xml : Zip.bytes) (names : list string)
    (acc : Zip.archive) (nd : string -> nat) (wr : string -> bool)
    (fs : gmap nat Zip.archive) (tr : list event) :
  nd template_path <> nd output_path ->
  fs !! nd template_path = Some template ->
  fs !! nd output_path = Some acc ->
  Forall (fun filename => filename ∈ Zip.names template) names ->
  for_each names (copy_member template_path output_path template new_sheet_xml)
    (World nd wr fs tr) =
  (Return tt,
   World nd wr
     (<[nd output_path := acc ++ copied template new_sheet_xml names]> fs)
     (tr ++ copy_events template_path output_path names)).
Proof.
  intros Hne. revert acc fs tr.
  induction names as [|filename names IH]; intros acc fs tr Htp Hop Hall.
  - simpl. unfold ret, copied, copy_events. simpl.
    rewrite !app_nil_r, insert_id by exact Hop. reflexivity.
  - apply Forall_cons in Hall as [Hin Hall]. simpl for_each.
    erewrite bind_return; [|by apply copy_member_run].
    rewrite (IH (acc ++ copied template new_sheet_xml [filename]));
      [| |apply lookup_insert_eq|exact Hall].
    + rewrite insert_insert_eq. unfold copied, copy_events. simpl.
      by rewrite <- !app_assoc.
    + by rewrite lookup_insert_ne.
Qed.

(** When the output path names the file of the template, opening the
    output has emptied the file that [zin] reads from. *)
Lemma copy_loop_aliased (template_path output_path : string)
    (zin : Zip.archive) (new_sheet_xml : Zip.bytes) (names : list string)
    (w : world) :
  files w !! node w template_path = Some [] ->
  names <> [] ->
  exists e w',
    for_each names (copy_member template_path output_path zin new_sheet_xml) w
    = (Raise e, w').
Proof.
  intros Hempty Hnames. destruct names as [|filename names]; [done|].
  simpl for_each. unfold copy_member, zip_read.
  destruct (Zip.member zin filename) eqn:E.
  - exists BadZipFile, w. unfold bind. by rewrite Hempty.
  - by exists KeyError, w.
Qed.

Lemma copied_names (template : Zip.archive) (new_sheet_xml : Zip.bytes)
    (names : list string) :
  Zip.names (copied template new_sheet_xml names) = names.
Proof.
  unfold Zip.names, copied. rewrite map_map. simpl. apply map_id.
Qed.

Lemma member_copied (template : Zip.archive) (new_sheet_xml : Zip.bytes)
    (names : list string) (name : string) :
  Zip.member (copied template new_sheet_xml names) name =
  if decide (name ∈ names) then
    Some (if String.eqb name OpenAI.SHEET then new_sheet_xml
          else default [] (Zip.member template name))
  else None.
Proof.
  induction names as [|n names IH]; cbn [copied map Zip.member].
  - destruct (decide (name ∈ [])) as [H%elem_of_nil|]; done.
  - fold (copied template new_sheet_xml names). rewrite IH.
    destruct (decide (name ∈ names)) as [Hin|Hout].
    + rewrite decide_True; [done|]. apply elem_of_cons; by right.
    + destruct (String.eqb_spec n name) as [->|Hne].
      * rewrite decide_True; [done|]. apply elem_of_cons; by left.
      * rewrite decide_False; [done|]. rewrite elem_of_cons.
        intros [->|?]; done.
Qed.

Lemma copied_member_other (template : Zip.archive) (new_sheet_xml : Zip.bytes)
    (name : string) :
  name <> OpenAI.SHEET ->
  Zip.member (copied template new_sheet_xml (Zip.names template)) name =
  Zip.member template name.
Proof.
  intros Hne. rewrite member_copied.
  destruct (String.eqb_spec name OpenAI.SHEET); [done|].
  destruct (decide (name ∈ Zip.names template)) as [Hin|Hout].
  - destruct (ZipFacts.member_is_Some _ _ Hin) as [d ->]. reflexivity.
  - by rewrite ZipFacts.member_None.
Qed.

Lemma copied_member_sheet (template : Zip.archive) (new_sheet_xml d : Zip.bytes) :
  Zip.member template OpenAI.SHEET = Some d ->
  Zip.member (copied template new_sheet_xml (Zip.names template)) OpenAI.SHEET =
  Some new_sheet_xml.
Proof.
  intros Hin%ZipFacts.member_names. rewrite member_copied.
  rewrite decide_True by exact Hin. by rewrite String.eqb_refl.
Qed.

Lemma copied_entry (template : Zip.archive) (new_sheet_xml : Zip.bytes)
    (i : nat) (name : string) (d : Zip.bytes) :
  NoDup (Zip.names template) ->
  name <> OpenAI.SHEET ->
  template !! i = Some (name, d) ->
  copied template new_sheet_xml (Zip.names template) !! i = Some (name, d).
Proof.
  intros Hnd Hne Hi. unfold copied, Zip.names.
  rewrite map_map, list_lookup_fmap, Hi. simpl.
  destruct (String.eqb_spec name OpenAI.SHEET); [done|].
  by rewrite (ZipFacts.member_NoDup template i name d).
Qed.

(** The worksheet that the export writes: the tree of the template in
    which the new rows stand after the children that [sheetData] had. *)
Lemma new_sheet_tree (tostring : ET.element -> Zip.bytes)
    (root sheet_data : ET.element) (rows_data : list (list value)) :
  ET.find root SHEETDATA = Some sheet_data ->
  exists before after,
    ET.children root = before ++ sheet_data :: after /\
    Forall (fun e => ET.has_tag SHEETDATA e = false) before /\
    new_sheet tostring root rows_data =
    tostring
      (ET.Element (ET.tag root) (ET.attrib root) (ET.text root) (ET.tail root)
         (before ++
          ET.Element (ET.tag sheet_data) (ET.attrib sheet_data)
            (ET.text sheet_data) (ET.tail sheet_data)
            (ET.children sheet_data ++ OpenAI.new_rows sheet_data rows_data)
          :: after)).
Proof.
  intros Hfind.
  destruct (TreeFacts.update_first_split SHEETDATA (OpenAI.append_rows rows_data)
              (ET.children root) sheet_data Hfind)
    as (before & after & Hroot & Hbefore & Hupd).
  exists before, after. split_and!; [done..|].
  unfold new_sheet, ET.update_found. rewrite Hupd.
  unfold OpenAI.append_rows. by rewrite SheetFacts.fold_append.
Qed.

Section WithET.
Variable fromstring : Zip.bytes -> option ET.element.
Variable tostring : ET.element -> Zip.bytes.

(** Total correctness: a template that holds a well-formed worksheet
    with a [sheetData] element, an output path that can be written and
    names another file than the template, and at least one export row
    make the export return, and the file system it leaves is known. *)
Lemma export_returns (template_path output_path : string)
    (all_stats : list stats) (file_system : string) (w : world)
    (template : Zip.archive) (sheet_xml : Zip.bytes)
    (root sheet_data : ET.element) :
  all_stats <> [] ->
  writable w output_path = true ->
  node w template_path <> node w output_path ->
  files w !! node w template_path = Some template ->
  Zip.member template OpenAI.SHEET = Some sheet_xml ->
  fromstring sheet_xml = Some root ->
  ET.find root SHEETDATA = Some sheet_data ->
  OpenAI.export_stats_to_excel fromstring tostring template_path output_path
    all_stats file_system w =
  (Return tt,
   World (node w) (writable w)
     (<[node w output_path :=
          copied template
            (new_sheet tostring root (OpenAI._build_excel_rows all_stats file_system))
            (Zip.names template)]> (files w))
     (trace w ++
      [EvOpenRead template_path; EvRead template_path OpenAI.SHEET;
       EvOpenWrite output_path] ++
      copy_events template_path output_path (Zip.names template))).
Proof.
  intros Hstats Hwr Hne Htp Hsheet Hparse Hfind.
  unfold OpenAI.export_stats_to_excel.
  destruct (OpenAI._build_excel_rows all_stats file_system) as [|row rows] eqn:Erows.
  { by apply rows_empty in Erows. }
  erewrite bind_return; cycle 1.
  { unfold zip_open_r. rewrite Htp. reflexivity. }
  erewrite bind_return; cycle 1.
  { unfold zip_read. cbn [node writable files trace]. rewrite Hsheet, Htp.
    cbn [mbind option_bind]. rewrite Hsheet. reflexivity. }
  erewrite bind_return; cycle 1.
  { unfold OpenAI.parse. rewrite Hparse. reflexivity. }
  fold SHEETDATA. rewrite Hfind.
  erewrite bind_return; cycle 1.
  { unfold zip_open_w. cbn [node writable files trace]. rewrite Hwr. reflexivity. }
  change (for_each (Zip.names template) ?f) with
    (for_each (Zip.names template)
       (copy_member template_path output_path template
          (new_sheet tostring root (row :: rows)))).
  rewrite (copy_loop _ _ _ _ _ []); [ |exact Hne| | |].
  - rewrite insert_insert_eq. simpl. by rewrite <- !app_assoc.
  - by rewrite lookup_insert_ne.
  - apply lookup_insert_eq.
  - by apply Forall_forall.
Qed.

(** What a returning export tells about its input. *)
Lemma export_inv (template_path output_path : string)
    (all_stats : list stats) (file_system : string) (w w' : world) :
  OpenAI.export_stats_to_excel fromstring tostring template_path output_path
    all_stats file_system w = (Return tt, w') ->
  exists template sheet_xml root sheet_data,
    all_stats <> [] /\
    writable w output_path = true /\
    node w template_path <> node w output_path /\
    files w !! node w template_path = Some template /\
    Zip.member template OpenAI.SHEET = Some sheet_xml /\
    fromstring sheet_xml = Some root /\
    ET.find root SHEETDATA = Some sheet_data.
Proof.
  unfold OpenAI.export_stats_to_excel.
  destruct (OpenAI._build_excel_rows all_stats file_system) as [|row rows] eqn:Erows;
    [done|].
  assert (all_stats <> []) as Hstats.
  { intros ->. discriminate. }
  destruct (files w !! node w template_path) as [template|] eqn:Htp; cycle 1.
  { erewrite bind_raise; [done|]. unfold zip_open_r. by rewrite Htp. }
  erewrite bind_return; cycle 1.
  { unfold zip_open_r. rewrite Htp. reflexivity. }
  destruct (Zip.member template OpenAI.SHEET) as [sheet_xml|] eqn:Hsheet; cycle 1.
  { erewrite bind_raise; [done|]. unfold zip_read. by rewrite Hsheet. }
  erewrite bind_return; cycle 1.
  { unfold zip_read. cbn [node writable files trace]. rewrite Hsheet, Htp.
    cbn [mbind option_bind]. rewrite Hsheet. reflexivity. }
  destruct (fromstring sheet_xml) as [root|] eqn:Hparse; cycle 1.
  { erewrite bind_raise; [done|]. unfold OpenAI.parse. by rewrite Hparse. }
  erewrite bind_return; cycle 1.
  { unfold OpenAI.parse. rewrite Hparse. reflexivity. }
  fold SHEETDATA.
  destruct (ET.find root SHEETDATA) as [sheet_data|] eqn:Hfind; [|done].
  destruct (writable w output_path) eqn:Hwr; cycle 1.
  { erewrite bind_raise; [done|]. unfold zip_open_w.
    cbn [node writable files trace]. by rewrite Hwr. }
  intros Hrun. exists template, sheet_xml, root, sheet_data.
  split_and!; try done.
  intros Halias. revert Hrun.
  erewrite bind_return; cycle 1.
  { unfold zip_open_w. cbn [node writable files trace]. rewrite Hwr. reflexivity. }
  change (for_each (Zip.names template) ?f) with
    (for_each (Zip.names template)
       (copy_member template_path output_path template
          (new_sheet tostring root (row :: rows)))).
  edestruct (copy_loop_aliased template_path output_path template
               (new_sheet tostring root (row :: rows)) (Zip.names template))
    as (e & w1 & ->); [| |done].
  - cbn [node files]. rewrite Halias. apply lookup_insert_eq.
  - apply ZipFacts.member_names in Hsheet. intros E. rewrite E in Hsheet.
    by apply elem_of_nil in Hsheet.
Qed.

(** C1: on a template whose worksheet is well-formed and has a
    [sheetData] element, with an output path that can be written and
    names another file, a non-empty list of export rows makes
    [export_stats_to_excel] return, and the worksheet it writes is the
    tree of the template in which the new rows stand after the children
    that [sheetData] had: one row element per export row, in their
    order, whose indices are the consecutive integers from the highest
    index in the sheet plus one. That highest index is zero when the
    sheet has no row index, so that the first new row has the index 1.
    The numbers are of a size that [int] and [str] convert. *)
Theorem C1_row_indices (template_path output_path : string)
    (all_stats : list stats) (file_system : string) (w : world)
    (template : Zip.archive) (sheet_xml : Zip.bytes)
    (root sheet_data : ET.element) :
  let rows_data := OpenAI._build_excel_rows all_stats file_system in
  let existing := Sheet.existing_indices sheet_data in
  let m := Sheet.highest existing in
  let appended := OpenAI.new_rows sheet_data rows_data in
  rows_data <> [] ->
  writable w output_path = true ->
  node w template_path <> node w output_path ->
  files w !! node w template_path = Some template ->
  Zip.member template OpenAI.SHEET = Some sheet_xml ->
  fromstring sheet_xml = Some root ->
  ET.find root SHEETDATA = Some sheet_data ->
  Limits.within sheet_data rows_data = true ->
  (exists w' out before after,
     OpenAI.export_stats_to_excel fromstring tostring template_path output_path
       all_stats file_system w = (Return tt, w') /\
     files w' !! node w output_path = Some out /\
     ET.children root = before ++ sheet_data :: after /\
     Zip.member out OpenAI.SHEET =
       Some (tostring
               (ET.Element (ET.tag root) (ET.attrib root) (ET.text root)
                  (ET.tail root)
                  (before ++
                   ET.Element (ET.tag sheet_data) (ET.attrib sheet_data)
                     (ET.text sheet_data) (ET.tail sheet_data)
                     (ET.children sheet_data ++ appended)
                   :: after)))) /\
  (Forall (fun k => k <= m) existing /\ (m = 0 \/ m ∈ existing) /\
   (existing = [] -> m = 0)) /\
  ET.children (OpenAI.append_rows rows_data sheet_data) =
    ET.children sheet_data ++ appended /\
  length appended = length rows_data /\
  Forall (fun e => ET.tag e = Sheet.ROW) appended /\
  map ET.children appended =
    imap (fun i row_values =>
            imap (fun j value =>
                    OpenAI.make_cell (m + 1 + Z.of_nat i) (Z.of_nat j + 1) value)
              row_values) rows_data /\
  map (fun e => ET.get e "r") appended =
    map (fun k => Some (Py.str k)) (seqZ (m + 1) (Z.of_nat (length rows_data))) /\
  map Sheet.index_of appended =
    map Some (seqZ (m + 1) (Z.of_nat (length rows_data))).
Proof.
  intros rows_data existing m appended Hrows Hwr Hne Htp Hsheet Hparse Hfind _.
  split; [|apply SheetFacts.appended_rows].
  assert (all_stats <> []) as Hstats.
  { intros ->. by apply Hrows. }
  destruct (new_sheet_tree tostring root sheet_data rows_data Hfind)
    as (before & after & Hroot & _ & Htree).
  eexists _, _, before, after. split_and!.
  - by apply (export_returns _ _ _ _ _ template sheet_xml root sheet_data).
  - cbn [files]. apply lookup_insert_eq.
  - exact Hroot.
  - erewrite copied_member_sheet by exact Hsheet. f_equal. exact Htree.
Qed.

(** C7: when the export returns, the file that the output path names
    holds the members of the template, under the same names and in the
    same order; every member but the worksheet has the bytes it has in
    the template; the worksheet member is the text of the tree of the
    template worksheet in which the new rows stand after the children
    that [sheetData] had, all else being as it was; and no other file
    is touched. *)
Theorem C7_archive_frame (template_path output_path : string)
    (all_stats : list stats) (file_system : string) (w w' : world) :
  OpenAI.export_stats_to_excel fromstring tostring template_path output_path
    all_stats file_system w = (Return tt, w') ->
  exists template sheet_xml root sheet_data before after out,
    (files w !! node w template_path = Some template /\
     Zip.member template OpenAI.SHEET = Some sheet_xml /\
     fromstring sheet_xml = Some root /\
     ET.find root SHEETDATA = Some sheet_data /\
     ET.children root = before ++ sheet_data :: after) /\
    (node w' = node w /\
     files w' !! node w output_path = Some out /\
     forall i, i <> node w output_path -> files w' !! i = files w !! i) /\
    (Zip.names out = Zip.names template /\
     (forall name, name <> OpenAI.SHEET ->
                   Zip.member out name = Zip.member template name) /\
     (NoDup (Zip.names template) ->
      forall i name d, name <> OpenAI.SHEET ->
                       template !! i = Some (name, d) ->
                       out !! i = Some (name, d))) /\
    Zip.member out OpenAI.SHEET =
      Some (tostring
              (ET.Element (ET.tag root) (ET.attrib root) (ET.text root)
                 (ET.tail root)
                 (before ++
                  ET.Element (ET.tag sheet_data) (ET.attrib sheet_data)
                    (ET.text sheet_data) (ET.tail sheet_data)
                    (ET.children sheet_data ++
                     OpenAI.new_rows sheet_data
                       (OpenAI._build_excel_rows all_stats file_system))
                  :: after))).
Proof.
  intros Hrun.
  destruct (export_inv _ _ _ _ _ _ Hrun)
    as (template & sheet_xml & root & sheet_data &
        Hstats & Hwr & Hne & Htp & Hsheet & Hparse & Hfind).
  rewrite (export_returns _ _ _ _ _ _ _ _ _ Hstats Hwr Hne Htp Hsheet Hparse Hfind)
    in Hrun.
  injection Hrun as <-.
  destruct (new_sheet_tree tostring root sheet_data
              (OpenAI._build_excel_rows all_stats file_system) Hfind)
    as (before & after & Hroot & _ & Htree).
  exists template, sheet_xml, root, sheet_data, before, after.
  exists (copied template
            (new_sheet tostring root (OpenAI._build_excel_rows all_stats file_system))
            (Zip.names template)).
  cbn [node files]. split_and!; try done.
  - apply lookup_insert_eq.
  - intros i Hi. by rewrite lookup_insert_ne.
  - apply copied_names.
  - intros name Hname. by apply copied_member_other.
  - intros Hnd i name d Hname Hi. by apply copied_entry.
  - erewrite copied_member_sheet by exact Hsheet. by rewrite <- Htree.
Qed.

(** C8: when the statistics records give no export row, the export
    raises [ValueError] and leaves the world as it was: no file is
    written and none is opened or read. That is the case exactly when
    there is no record. *)
Theorem C8_nothing_to_export (template_path output_path : string)
    (all_stats : list stats) (file_system : string) (w : world) :
  OpenAI._build_excel_rows all_stats file_system = [] ->
  OpenAI.export_stats_to_excel fromstring tostring template_path output_path
    all_stats file_system w = (Raise ValueError, w) /\
  all_stats = [].
Proof.
  intros Hrows. split; [|by apply rows_empty in Hrows].
  unfold OpenAI.export_stats_to_excel. by rewrite Hrows.
Qed.
End WithET.

(** *** A run on a small template *)

Example sample_run_returns : fst sample_run = Return tt.
Proof. vm_compute. reflexivity. Qed.

Example sample_run_output :
  files (snd sample_run) !! 1%nat =
  Some [("[Content_Types].xml", [Byte.x01]);
        (OpenAI.SHEET, new_bytes);
        ("xl/styles.xml", [Byte.x02; Byte.x03])].
Proof. vm_compute. reflexivity. Qed.

(** An output path that is another name of the template file: opening
    the output empties the template, and the first member cannot be
    read any more. *)
Example sample_run_aliased :
  OpenAI.export_stats_to_excel sample_fromstring sample_tostring
    "entete_stats.xlsx" "./entete_stats.xlsx"
    [Rows.sample_clean] "FS" sample_world =
  (Raise BadZipFile,
   World sample_node sample_writable {[ 0%nat := [] ]}
     [EvOpenRead "entete_stats.xlsx";
      EvRead "entete_stats.xlsx" OpenAI.SHEET;
      EvOpenWrite "./entete_stats.xlsx"]).
Proof. vm_compute. reflexivity. Qed.

(** An output path that cannot be opened for writing: [OSError], after
    the template was read, and no file is changed. *)
Example sample_run_unwritable :
  OpenAI.export_stats_to_excel sample_fromstring sample_tostring
    "entete_stats.xlsx" "/proc/out.xlsx"
    [Rows.sample_clean] "FS" sample_world =
  (Raise OSError,
   World sample_node sample_writable {[ 0%nat := sample_template ]}
     [EvOpenRead "entete_stats.xlsx";
      EvRead "entete_stats.xlsx" OpenAI.SHEET]).
Proof. vm_compute. reflexivity. Qed.

Lemma C1_row_indices_witness :
  (exists w' out before after,
     OpenAI.export_stats_to_excel sample_fromstring sample_tostring
       "entete_stats.xlsx" "out.xlsx"
       [Rows.sample_clean; Rows.sample_errors] "FS" sample_world
     = (Return tt, w') /\
     files w' !! 1%nat = Some out /\
     ET.children sample_root = before ++ Sheet.template_sheet_data :: after /\
     Zip.member out OpenAI.SHEET =
       Some (sample_tostring
               (ET.Element (ET.tag sample_root) (ET.attrib sample_root)
                  (ET.text sample_root) (ET.tail sample_root)
                  (before ++
                   ET.Element (ET.tag Sheet.template_sheet_data)
                     (ET.attrib Sheet.template_sheet_data)
                     (ET.text Sheet.template_sheet_data)
                     (ET.tail Sheet.template_sheet_data)
                     (ET.children Sheet.template_sheet_data ++
                      OpenAI.new_rows Sheet.template_sheet_data
                        Sheet.scenario_rows)
                   :: after)))) /\
  Sheet.highest (Sheet.existing_indices Sheet.template_sheet_data) = 2 /\
  map Sheet.index_of
    (OpenAI.new_rows Sheet.template_sheet_data Sheet.scenario_rows) =
  [Some 3; Some 4; Some 5].
Proof.
  pose proof (C1_row_indices sample_fromstring sample_tostring
                "entete_stats.xlsx" "out.xlsx"
                [Rows.sample_clean; Rows.sample_errors] "FS" sample_world
                sample_template sheet_bytes sample_root
                Sheet.template_sheet_data) as H.
  cbv zeta in H.
  destruct H as (Hrun & _ & _ & _ & _ & _ & _ & Hidx);
    [discriminate | reflexivity | discriminate | reflexivity | reflexivity
    | reflexivity | reflexivity | vm_compute; reflexivity |].
  split; [exact Hrun|]. split; [reflexivity | exact Hidx].
Defined.

Lemma C7_archive_frame_witness :
  exists template sheet_xml root sheet_data before after out,
    (files sample_world !! 0%nat = Some template /\
     Zip.member template OpenAI.SHEET = Some sheet_xml /\
     sample_fromstring sheet_xml = Some root /\
     ET.find root SHEETDATA = Some sheet_data /\
     ET.children root = before ++ sheet_data :: after) /\
    (node (snd sample_run) = node sample_world /\
     files (snd sample_run) !! 1%nat = Some out /\
     forall i, i <> 1%nat ->
               files (snd sample_run) !! i = files sample_world !! i) /\
    (Zip.names out = Zip.names template /\
     (forall name, name <> OpenAI.SHEET ->
                   Zip.member out name = Zip.member template name) /\
     (NoDup (Zip.names template) ->
      forall i name d, name <> OpenAI.SHEET ->
                       template !! i = Some (name, d) ->
                       out !! i = Some (name, d))) /\
    Zip.member out OpenAI.SHEET =
      Some (sample_tostring
              (ET.Element (ET.tag root) (ET.attrib root) (ET.text root)
                 (ET.tail root)
                 (before ++
                  ET.Element (ET.tag sheet_data) (ET.attrib sheet_data)
                    (ET.text sheet_data) (ET.tail sheet_data)
                    (ET.children sheet_data ++
                     OpenAI.new_rows sheet_data
                       (OpenAI._build_excel_rows
                          [Rows.sample_clean; Rows.sample_errors] "FS"))
                  :: after))).
Proof.
  apply (C7_archive_frame sample_fromstring sample_tostring
           "entete_stats.xlsx" "out.xlsx"
           [Rows.sample_clean; Rows.sample_errors] "FS"
           sample_world (snd sample_run)).
  vm_compute. reflexivity.
Defined.

Lemma C8_nothing_to_export_witness :
  OpenAI.export_stats_to_excel sample_fromstring sample_tostring
    "entete_stats.xlsx" "out.xlsx" [] "FS" sample_world =
  (Raise ValueError, sample_world) /\
  @nil stats = [].
Proof.
  apply (C8_nothing_to_export sample_fromstring sample_tostring
           "entete_stats.xlsx" "out.xlsx" [] "FS" sample_world).
  reflexivity.
Defined.

End ExportFacts.

(** ** More on the statistics record *)

Module RecordFacts.
Import Totals Buckets.

Lemma filter_length_le {A : Type} (p : A -> bool) (l : list A) :
  (length (List.filter p l) <= length l)%nat.
Proof. induction l as [|x l IH]; simpl; [lia|]. destruct (p x); simpl; lia. Qed.

Lemma filter_disjoint_length {A : Type} (p q : A -> bool) (l : list A) :
  (forall x, p x = true -> q x = false) ->
  (length (List.filter p l) + length (List.filter q l) <= length l)%nat.
Proof.
  intros Hpq. induction l as [|x l IH]; simpl; [lia|].
  destruct (p x) eqn:Ep; [rewrite (Hpq x Ep)|destruct (q x)]; simpl; lia.
Qed.

Lemma filter_and_length_le {A : Type} (p q : A -> bool) (l : list A) :
  (length (List.filter (fun x => p x && q x) l) <= length (List.filter p l))%nat.
Proof.
  induction l as [|x l IH]; simpl; [lia|].
  destruct (p x), (q x); simpl; lia.
Qed.

Lemma count_nonneg (db : Db.database) (q : Db.query) :
  0 <= or_0 (Db._execute_query_fetchone db q).
Proof.
  unfold Db._execute_query_fetchone.
  destruct (Db.selected db q); simpl; lia.
Qed.

Lemma count_le_rows (t : Db.table) (q : Db.query) :
  or_0 (Db._execute_query_fetchone (Some t) q) <= Z.of_nat (length (Db.rows t)).
Proof.
  unfold Db._execute_query_fetchone, Db.selected.
  destruct (forallb _ _); simpl; [|lia].
  pose proof (filter_length_le (Db.where_ t q) (Db.rows t)). lia.
Qed.

(** No stored value is equal to 1 and to 0. *)
Lemma eq_int_1_not_0 (as_text : bool) (x : Db.cell) :
  Db.eq_int as_text x 1 = true -> Db.eq_int as_text x 0 = false.
Proof.
  destruct as_text, x as [|n|m e|s|b|b]; simpl; try done.
  - intros ->%Z.eqb_eq. reflexivity.
  - intros ->%String.eqb_eq. reflexivity.
  - intros ->%Z.eqb_eq. reflexivity.
  - destruct (Z.leb_spec 0 e) as [He|He].
    + intros H%Z.eqb_eq. apply Z.eqb_neq. lia.
    + intros H%Z.eqb_eq. apply Z.eqb_neq.
      assert (0 < 2 ^ (- e)) by (apply Z.pow_pos_nonneg; lia). lia.
Qed.

(** X1: in every record that [get_stats] returns the counters are not
    negative, the rows done and the rows pending are together at most
    [total_rows], the pending rows with a message are at most the pending
    rows, and the rows with a document id are at most [total_rows]. *)
Theorem X1_counter_bounds (db_path : string) (db : Db.database) (st : stats) :
  AiStudio.get_stats db_path db = Some st ->
  (0 <= total_rows st /\ 0 <= is_done_1_count st /\ 0 <= is_done_0_count st /\
   0 <= cmx_document_id_not_empty_count st /\
   0 <= is_done_0_with_error_count st) /\
  is_done_1_count st + is_done_0_count st <= total_rows st /\
  is_done_0_with_error_count st <= is_done_0_count st /\
  cmx_document_id_not_empty_count st <= total_rows st.
Proof.
  intros (t & -> & _ & ->)%StatsFacts.get_stats_Some. cbn [total_rows
    is_done_1_count is_done_0_count cmx_document_id_not_empty_count
    is_done_0_with_error_count]. split_and!;
    try apply count_nonneg; try apply count_le_rows; try lia.
  - unfold Db._execute_query_fetchone, Db.selected. simpl.
    destruct (Db.has_column t Db.is_done); simpl; [|lia].
    pose proof (filter_disjoint_length (Db.is_done_eq t 1) (Db.is_done_eq t 0)
                  (Db.rows t)) as H.
    change (Db.where_ t (Db.CountIsDone 1)) with (Db.is_done_eq t 1).
    change (Db.where_ t (Db.CountIsDone 0)) with (Db.is_done_eq t 0).
    assert (forall x, Db.is_done_eq t 1 x = true -> Db.is_done_eq t 0 x = false) as Hd.
    { intros x. apply eq_int_1_not_0. }
    specialize (H Hd). lia.
  - unfold Db._execute_query_fetchone, Db.selected. simpl.
    destruct (Db.has_column t Db.is_done); simpl; [|lia].
    destruct (Db.has_column t Db.error_message); simpl;
      [|pose proof (filter_length_le (Db.is_done_eq t 0) (Db.rows t)); lia].
    pose proof (filter_and_length_le (Db.is_done_eq t 0)
                  (fun r => Db.not_empty (Db.r_error_message r)) (Db.rows t)).
    change (Db.where_ t (Db.CountIsDone 0)) with (Db.is_done_eq t 0).
    change (Db.where_ t Db.CountErrorNotEmpty) with
      (fun r => Db.is_done_eq t 0 r && Db.not_empty (Db.r_error_message r)).
    lia.
Qed.

Lemma X1_counter_bounds_witness :
  (0 <= total_rows sample_record /\ 0 <= is_done_1_count sample_record /\
   0 <= is_done_0_count sample_record /\
   0 <= cmx_document_id_not_empty_count sample_record /\
   0 <= is_done_0_with_error_count sample_record) /\
  is_done_1_count sample_record + is_done_0_count sample_record
    <= total_rows sample_record /\
  is_done_0_with_error_count sample_record <= is_done_0_count sample_record /\
  cmx_document_id_not_empty_count sample_record <= total_rows sample_record.
Proof.
  apply (X1_counter_bounds "/data/s.db" (Some sample_table)). reflexivity.
Defined.

(** The value that Python reads is a text exactly when the stored value
    is a text or NULL. *)
Lemma to_python_is_text (x : Db.cell) (row : Db.pyvalue) :
  Db.to_python x = Some row -> is_text row = negb (not_text x).
Proof. destruct x; simpl; intros [= <-]; reflexivity. Qed.

Lemma is_text_rows (xs : list Db.cell) (rows : list Db.pyvalue) :
  Forall2 (fun x row => Db.to_python x = Some row) xs rows ->
  forallb is_text rows = negb (existsb not_text xs).
Proof.
  induction 1 as [|x row xs rows Hx _ IH]; [reflexivity|].
  cbn [forallb existsb]. rewrite IH, (to_python_is_text x row Hx).
  by destruct (not_text x).
Qed.

(** The loop raises exactly when the SELECT statement returns and one
    of the selected messages is an integer, a real or a blob. *)
Lemma loop_raises (db : Db.database) :
  forallb is_text (fetched db) = false <->
  existsb undecodable (pending_messages db) = false /\
  existsb not_text (pending_messages db) = true.
Proof.
  destruct (StatsFacts.fetchall_cases db) as [(_ & _ & -> & ->)|
    (rs & _ & _ & _ & [(-> & _ & ->)|(-> & _ & Hf)])].
  - simpl. split; [discriminate | by intros [_ ?]].
  - simpl. split; [discriminate | by intros [? _]].
  - rewrite (is_text_rows _ _ Hf).
    destruct (existsb not_text (pending_messages db)); simpl; split; try done.
    by intros [_ ?].
Qed.

(** X2: [get_stats] gives no record exactly when the total count fails,
    that is when the file has no table to query, or when the loop
    raises: the SELECT statement returns and a selected message is an
    integer, a real or a blob. Otherwise there is a record, also for a
    table that lacks a column: it carries the path asked for, the base
    name of that path and the number of rows, and every statement that
    names a missing column counts as zero (and gives no bucket). *)
Theorem X2_record_or_none (path : string) (db : Db.database) :
  (AiStudio.get_stats path db = None <->
   db = None \/
   existsb undecodable (pending_messages db) = false /\
   existsb not_text (pending_messages db) = true) /\
  (forall t, db = Some t ->
     existsb undecodable (pending_messages db) = true \/
     existsb not_text (pending_messages db) = false ->
     exists st, AiStudio.get_stats path db = Some st /\
       db_path st = path /\ db_name st = Py.basename path /\
       total_rows st = Z.of_nat (length (Db.rows t)) /\
       (Db.has_column t Db.is_done = false ->
        is_done_1_count st = 0 /\ is_done_0_count st = 0 /\
        is_done_0_with_error_count st = 0 /\ error_message_breakdown st = []) /\
       (Db.has_column t Db.error_message = false ->
        is_done_0_with_error_count st = 0 /\ error_message_breakdown st = []) /\
       (Db.has_column t Db.cmx_document_id = false ->
        cmx_document_id_not_empty_count st = 0)) /\
  (forall t, db = Some t ->
     Db.has_column t Db.is_done = false \/
     Db.has_column t Db.error_message = false ->
     is_Some (AiStudio.get_stats path db)).
Proof.
  assert (forall t, forallb is_text (fetched (Some t)) = true ->
            exists st, AiStudio.get_stats path (Some t) = Some st /\
              db_path st = path /\ db_name st = Py.basename path /\
              total_rows st = Z.of_nat (length (Db.rows t)) /\
              (Db.has_column t Db.is_done = false ->
               is_done_1_count st = 0 /\ is_done_0_count st = 0 /\
               is_done_0_with_error_count st = 0 /\
               error_message_breakdown st = []) /\
              (Db.has_column t Db.error_message = false ->
               is_done_0_with_error_count st = 0 /\
               error_message_breakdown st = []) /\
              (Db.has_column t Db.cmx_document_id = false ->
               cmx_document_id_not_empty_count st = 0)) as Hrecord.
  { intros t Htext.
    destruct (StatsFacts.get_stats_is_Some path t Htext) as [st E].
    exists st. split; [exact E|].
    apply StatsFacts.get_stats_Some in E as (t' & [= <-] & _ & ->).
    cbn [db_path db_name total_rows is_done_1_count is_done_0_count
         cmx_document_id_not_empty_count is_done_0_with_error_count
         error_message_breakdown].
    unfold selected_keys, fetched.
    unfold Db._execute_query_fetchone, Db._execute_query_fetchall, Db.selected.
    cbn [Db.columns_of forallb].
    split_and!; try done.
    - intros H. by rewrite H.
    - intros H. rewrite H. by rewrite andb_false_r.
    - intros H. by rewrite H. }
  split_and!.
  - split.
    + intros Hnone. destruct db as [t|]; [right | by left].
      apply loop_raises. apply not_true_is_false. intros Htext.
      destruct (StatsFacts.get_stats_is_Some path t Htext) as [st E]. congruence.
    + intros [->|Hraise%loop_raises]; [reflexivity|].
      destruct (AiStudio.get_stats path db) as [st|] eqn:E; [|reflexivity].
      apply StatsFacts.get_stats_Some in E as (t & _ & Htext & _). congruence.
  - intros t -> Hok. apply Hrecord.
    apply not_false_iff_true. intros [H1 H2]%loop_raises.
    destruct Hok; congruence.
  - intros t -> Hmissing.
    destruct (Hrecord t) as (st & -> & _); [|by eexists].
    unfold fetched, Db._execute_query_fetchall, Db.selected.
    cbn [Db.columns_of forallb].
    destruct Hmissing as [-> | ->]; [done | by rewrite andb_false_r].
Qed.

Lemma X2_record_or_none_witness :
  AiStudio.get_stats "/data/b.db" (Some blob_table) = None /\
  (exists st,
     AiStudio.get_stats "/data/y.db" (Some bare_table) = Some st /\
     (is_done_0_with_error_count st = 0 /\ error_message_breakdown st = []) /\
     cmx_document_id_not_empty_count st = 0) /\
  (exists st,
     AiStudio.get_stats "/data/n.db" (Some flagless_table) = Some st /\
     is_done_1_count st = 0 /\ is_done_0_count st = 0 /\
     is_done_0_with_error_count st = 0 /\ error_message_breakdown st = []).
Proof.
  split; [|split].
  - apply (proj1 (X2_record_or_none "/data/b.db" (Some blob_table))).
    right. split; reflexivity.
  - destruct (proj1 (proj2 (X2_record_or_none "/data/y.db" (Some bare_table)))
                bare_table eq_refl (or_intror eq_refl))
      as (st & Hst & _ & _ & _ & _ & Herr & Hcmx).
    exists st. split; [exact Hst|]. split; [apply Herr | apply Hcmx]; reflexivity.
  - destruct (proj1 (proj2 (X2_record_or_none "/data/n.db" (Some flagless_table)))
                flagless_table eq_refl (or_intror eq_refl))
      as (st & Hst & _ & _ & _ & Hflag & _ & _).
    exists st. split; [exact Hst|]. apply Hflag. reflexivity.
Defined.

Lemma get_set (d : Py.dict) (k k' : string) (v dflt : Z) :
  Py.get (Py.set d k v) k' dflt =
  if String.eqb k k' then v else Py.get d k' dflt.
Proof.
  induction d as [|[k0 v0] d IH]; simpl.
  - reflexivity.
  - destruct (String.eqb_spec k0 k) as [->|Hne]; simpl.
    + by destruct (String.eqb k k').
    + rewrite IH. destruct (String.eqb_spec k0 k') as [->|]; [|done].
      destruct (String.eqb_spec k k'); congruence.
Qed.

Lemma occurrences_cons (k x : string) (l : list string) :
  occurrences k (x :: l) =
  (if String.eqb k x then 1 else 0) + occurrences k l.
Proof.
  unfold occurrences. simpl. destruct (String.eqb k x); simpl; lia.
Qed.

Lemma loop_get (ks : list string) (d : Py.dict) (k : string) :
  Py.get (fold_left tally ks d) k 0 = Py.get d k 0 + occurrences k ks.
Proof.
  revert d. induction ks as [|x ks IH]; intros d.
  - unfold occurrences. simpl. lia.
  - cbn [fold_left]. rewrite IH, occurrences_cons.
    unfold tally. rewrite get_set. rewrite (String.eqb_sym k).
    destruct (String.eqb_spec x k) as [->|]; lia.
Qed.

(** X3: in a record of [get_stats] the count kept under a key is the
    number of selected messages whose canonical key it is; a text that is
    the key of no selected message has no count (it reads as zero).
    Every row that the SELECT statement returned is then a text, so that
    there is one key per row. *)
Theorem X3_bucket_counts (db_path : string) (db : Db.database) (st : stats)
    (k : string) :
  AiStudio.get_stats db_path db = Some st ->
  Py.get (error_message_breakdown st) k 0 = occurrences k (selected_keys db) /\
  forallb is_text (fetched db) = true /\
  length (selected_keys db) = length (fetched db).
Proof.
  intros (t & -> & Htext & ->)%StatsFacts.get_stats_Some.
  cbn [error_message_breakdown]. split_and!.
  - rewrite loop_get. simpl. reflexivity.
  - exact Htext.
  - unfold selected_keys. rewrite length_map.
    by apply StatsFacts.is_text_omap_length.
Qed.

Lemma X3_bucket_counts_witness :
  Py.get (error_message_breakdown sample_record) "timeout" 0 =
  occurrences "timeout" (selected_keys (Some sample_table)).
Proof.
  apply (X3_bucket_counts "/data/s.db" (Some sample_table)). reflexivity.
Defined.

Lemma existsb_eqb_elem (k : string) (l : list string) :
  existsb (String.eqb k) l = true <-> k ∈ l.
Proof.
  induction l as [|x l IH]; simpl.
  - split; [discriminate | by intros ?%elem_of_nil].
  - rewrite orb_true_iff, IH, elem_of_cons, String.eqb_eq. done.
Qed.

Lemma loop_keys (ks : list string) (d : Py.dict) :
  keys (fold_left tally ks d) = first_seen (keys d) ks.
Proof.
  revert d. induction ks as [|x ks IH]; intros d; [reflexivity|].
  cbn [fold_left]. rewrite IH. unfold first_seen at 2. cbn [fold_left].
  fold (first_seen
          (if existsb (String.eqb x) (keys d) then keys d else keys d ++ [x]) ks).
  f_equal. unfold tally.
  destruct (StatsFacts.keys_set d x (Py.get d x 0 + 1))
    as [[Hin ->]|[Hout ->]].
  - by rewrite (proj2 (existsb_eqb_elem _ _) Hin).
  - destruct (existsb _ (keys d)) eqn:E; [|done].
    by apply existsb_eqb_elem in E.
Qed.

Lemma first_seen_elem (seen l : list string) (k : string) :
  k ∈ first_seen seen l <-> k ∈ seen \/ k ∈ l.
Proof.
  revert seen. induction l as [|x l IH]; intros seen; unfold first_seen; simpl.
  - rewrite elem_of_nil. tauto.
  - fold (first_seen (if existsb (String.eqb x) seen then seen else seen ++ [x]) l).
    rewrite IH, elem_of_cons. destruct (existsb (String.eqb x) seen) eqn:E.
    + apply existsb_eqb_elem in E. split; [tauto|].
      intros [?|[->|?]]; tauto.
    + rewrite elem_of_app, list_elem_of_singleton. tauto.
Qed.

Lemma normalize_twice (s : string) :
  AiStudio.normalize (AiStudio.normalize s) = AiStudio.normalize s.
Proof.
  destruct (Normalize.normalize_cases s) as [[_ E]|[_ E]]; rewrite E; [|exact E].
  reflexivity.
Qed.

Lemma normalize_not_empty (s : string) :
  s <> EmptyString -> AiStudio.normalize s <> EmptyString.
Proof.
  intros Hs. destruct (Normalize.normalize_cases s) as [[_ E]|[_ E]]; rewrite E;
    [discriminate | exact Hs].
Qed.

(** The WHERE clause holds of every selected message. *)
Lemma pending_not_empty (db : Db.database) (x : Db.cell) :
  x ∈ pending_messages db -> Db.not_empty x = true.
Proof.
  unfold pending_messages, Db.selected. destruct db as [t|]; cycle 1.
  { by intros ?%elem_of_nil. }
  destruct (forallb _ _); cycle 1.
  { by intros ?%elem_of_nil. }
  intros (r & -> & Hr)%list_elem_of_fmap.
  apply list_elem_of_In, filter_In in Hr as [_ Hw]. simpl in Hw.
  by apply andb_true_iff in Hw as [_ Hne].
Qed.

(** A message that the loop counts is a text that [TRIM] does not
    empty. *)
Lemma selected_message_not_empty (db : Db.database) (s : string) :
  s ∈ omap text_of (fetched db) -> Db.trim s <> EmptyString.
Proof.
  intros (row & Hrow & Hs)%list_elem_of_omap.
  destruct (StatsFacts.fetchall_cases db) as [(_ & _ & _ & Hf)|
    (rs & _ & _ & _ & [(_ & _ & Hf)|(_ & _ & Hf)])];
    try (rewrite Hf in Hrow; by apply elem_of_nil in Hrow).
  apply list_elem_of_lookup in Hrow as [i Hi].
  destruct (Forall2_lookup_r _ _ _ i row Hf Hi) as (x & Hx & Hpy).
  assert (Db.not_empty x = true) as Hne.
  { apply (pending_not_empty db). by apply list_elem_of_lookup_2 in Hx. }
  destruct x; simpl in Hpy; simplify_eq/=.
  intros E. rewrite E in Hne. discriminate.
Qed.

Lemma breakdown_keys_spec (db_path : string) (db : Db.database) (st : stats) :
  AiStudio.get_stats db_path db = Some st ->
  keys (error_message_breakdown st) = first_seen [] (selected_keys db) /\
  NoDup (keys (error_message_breakdown st)) /\
  (forall k, k ∈ keys (error_message_breakdown st) ->
     k ∈ selected_keys db /\ k <> EmptyString /\ AiStudio.normalize k = k /\
     1 <= Py.get (error_message_breakdown st) k 0).
Proof.
  intros Hst. pose proof Hst as (t & -> & _ & ->)%StatsFacts.get_stats_Some.
  cbn [error_message_breakdown].
  rewrite loop_keys. split; [reflexivity|]. split.
  { rewrite <- loop_keys. apply StatsFacts.tally_NoDup. constructor. }
  intros k Hk. apply first_seen_elem in Hk as [Hk|Hk]; [by apply elem_of_nil in Hk|].
  split; [exact Hk|].
  pose proof Hk as (s & -> & Hs)%list_elem_of_fmap.
  apply selected_message_not_empty in Hs.
  split_and!.
  - apply normalize_not_empty. intros ->. by apply Hs.
  - apply normalize_twice.
  - rewrite loop_get. simpl.
    revert Hk. generalize (AiStudio.normalize s).
    generalize (selected_keys (Some t)).
    intros ks k0 Hin. induction ks as [|x ks IH]; [by apply elem_of_nil in Hin|].
    rewrite occurrences_cons. apply elem_of_cons in Hin as [->|Hin].
    + rewrite String.eqb_refl. unfold occurrences. lia.
    + specialize (IH Hin). destruct (String.eqb k0 x); lia.
Qed.

(** X4: the keys of the breakdown of a record of [get_stats] are the
    canonical keys of the selected messages, each once, in the order in
    which they were first met; none is the empty text, each is its own
    canonical key, and each has a count of at least 1. *)
Theorem X4_breakdown_keys (db_path : string) (db : Db.database) (st : stats) :
  AiStudio.get_stats db_path db = Some st ->
  keys (error_message_breakdown st) = first_seen [] (selected_keys db) /\
  NoDup (keys (error_message_breakdown st)) /\
  (forall k, k ∈ keys (error_message_breakdown st) ->
     k ∈ selected_keys db /\ k <> EmptyString /\ AiStudio.normalize k = k /\
     1 <= Py.get (error_message_breakdown st) k 0).
Proof. apply breakdown_keys_spec. Qed.

Lemma X4_breakdown_keys_witness :
  keys (error_message_breakdown sample_record) =
    first_seen [] (selected_keys (Some sample_table)) /\
  NoDup (keys (error_message_breakdown sample_record)) /\
  ("timeout" ∈ selected_keys (Some sample_table) /\
   "timeout" <> EmptyString /\ AiStudio.normalize "timeout" = "timeout" /\
   1 <= Py.get (error_message_breakdown sample_record) "timeout" 0).
Proof.
  destruct (X4_breakdown_keys "/data/s.db" (Some sample_table) sample_record
              eq_refl) as (Hkeys & Hnd & Hall).
  split; [exact Hkeys|]. split; [exact Hnd|].
  apply Hall. apply elem_of_cons. by left.
Defined.

Lemma get_of_entry (d : Py.dict) (k : string) (c dflt : Z) :
  NoDup (keys d) -> (k, c) ∈ d -> Py.get d k dflt = c.
Proof.
  unfold keys. induction d as [|[k0 c0] d IH]; simpl.
  - by intros _ ?%elem_of_nil.
  - intros [Hout Hnd]%NoDup_cons [[= -> ->]|Hin]%elem_of_cons.
    + by rewrite String.eqb_refl.
    + destruct (String.eqb_spec k0 k) as [->|]; [|by apply IH].
      exfalso. apply Hout. apply list_elem_of_fmap. by exists (k, c).
Qed.

(** X18: in the export rows of a record of [get_stats], the message is
    empty, the count is zero and the message cell has no child exactly
    when the record has no error bucket: the row of a bucket always
    carries a non-empty message and a count of at least 1. *)
Theorem X18_bucket_rows (db_path : string) (db : Db.database) (st : stats)
    (file_system : string) (row_index : Z) :
  AiStudio.get_stats db_path db = Some st ->
  Forall (fun row =>
            exists k c,
              drop 5 row = [VStr k; VInt c] /\ 0 <= c /\
              (k = EmptyString <-> error_message_breakdown st = []) /\
              (c = 0 <-> error_message_breakdown st = []) /\
              (ET.children (OpenAI.make_cell row_index 6 (VStr k)) = [] <->
               error_message_breakdown st = []))
    (OpenAI.rows_of_stats file_system st).
Proof.
  intros Hst. destruct (breakdown_keys_spec _ _ _ Hst) as (_ & Hnd & Hkeys).
  destruct (decide (error_message_breakdown st = [])) as [E|N].
  - unfold OpenAI.rows_of_stats. rewrite E. constructor; [|constructor].
    exists EmptyString, 0. by split_and!.
  - rewrite ExportRows.rows_of_stats_nonempty by exact N.
    apply Forall_map, Forall_forall. intros [k c] Hin.
    rewrite SortedFacts.sorted_desc_perm in Hin.
    assert (k ∈ keys (error_message_breakdown st)) as Hk.
    { apply list_elem_of_fmap. by exists (k, c). }
    destruct (Hkeys k Hk) as (_ & Hne & _ & Hcount).
    rewrite (get_of_entry _ k c 0 Hnd Hin) in Hcount.
    exists k, c. simpl. split_and!; [done | lia | | |]; split; try done; try lia.
    unfold OpenAI.make_cell. simpl.
    destruct (String.eqb_spec k EmptyString); [done|]. discriminate.
Qed.

Lemma X18_bucket_rows_witness :
  Forall (fun row =>
            exists k c,
              drop 5 row = [VStr k; VInt c] /\ 0 <= c /\
              (k = EmptyString <-> error_message_breakdown sample_record = []) /\
              (c = 0 <-> error_message_breakdown sample_record = []) /\
              (ET.children (OpenAI.make_cell 3 6 (VStr k)) = [] <->
               error_message_breakdown sample_record = []))
    (OpenAI.rows_of_stats "FS" sample_record).
Proof.
  apply (X18_bucket_rows "/data/s.db" (Some sample_table)). reflexivity.
Defined.

End RecordFacts.

(** ** The collecting loop of [main] *)

Module MainFacts.
Import Folders.

Lemma sum_of_app (counter : stats -> Z) (l1 l2 : list stats) :
  sum_of counter (l1 ++ l2) = sum_of counter l1 + sum_of counter l2.
Proof. unfold sum_of. induction l1 as [|st l1 IH]; simpl; lia. Qed.

Lemma totals_of_snoc (l : list stats) (st : stats) :
  totals_of (l ++ [st]) = Main.add_stats (totals_of l) st.
Proof.
  unfold totals_of, Main.add_stats. simpl. rewrite !sum_of_app. simpl.
  f_equal; lia.
Qed.

Lemma analyse_folder_acc (disk : gmap string Db.table) (db_files : list string)
    (all_stats seen : list stats) :
  fold_left
    (fun (acc : list stats * Main.folder_totals) db_file =>
       let (all_stats, folder_totals) := acc in
       match AiStudio.get_stats db_file (disk !! db_file) with
       | None => (all_stats, folder_totals)
       | Some stats => (all_stats ++ [stats], Main.add_stats folder_totals stats)
       end)
    db_files (all_stats ++ seen, totals_of seen)
  = (all_stats ++ seen ++ records disk db_files,
     totals_of (seen ++ records disk db_files)).
Proof.
  revert seen. induction db_files as [|f l IH]; intros seen.
  - simpl. by rewrite app_nil_r.
  - cbn [fold_left]. unfold records. cbn [omap list_omap].
    fold (records disk l).
    destruct (AiStudio.get_stats f (disk !! f)) as [st|].
    + rewrite <- totals_of_snoc, <- app_assoc. rewrite IH.
      by rewrite <- !app_assoc.
    + apply IH.
Qed.

Lemma analyse_folder_eq (disk : gmap string Db.table) (db_files : list string)
    (all_stats : list stats) :
  Main.analyse_folder disk db_files all_stats =
  (all_stats ++ records disk db_files, totals_of (records disk db_files)).
Proof.
  unfold Main.analyse_folder.
  pose proof (analyse_folder_acc disk db_files all_stats []) as H.
  rewrite app_nil_r in H. exact H.
Qed.

Lemma summary_set_fresh (d : list (string * Main.folder_totals)) (k : string)
    (v : Main.folder_totals) :
  k ∉ map fst d -> Main.summary_set d k v = d ++ [(k, v)].
Proof.
  induction d as [|[k' v'] d IH]; simpl; [done|].
  rewrite not_elem_of_cons. intros [Hne Hout].
  destruct (String.eqb_spec k' k); [congruence|]. by rewrite IH.
Qed.

Lemma collect_acc (disk : gmap string Db.table)
    (folder_to_dbs : list (string * list string))
    (all_stats : list stats) (summary : list (string * Main.folder_totals)) :
  NoDup (map fst summary ++ map fst folder_to_dbs) ->
  fold_left
    (fun (acc : list stats * list (string * Main.folder_totals)) item =>
       let (all_stats, folder_summary) := acc in
       let (folder, db_files) := (item : string * list string) in
       let (all_stats, folder_totals) :=
         Main.analyse_folder disk db_files all_stats in
       (all_stats, Main.summary_set folder_summary folder folder_totals))
    folder_to_dbs (all_stats, summary)
  = (all_stats ++ concat (map (fun it => records disk (snd it)) folder_to_dbs),
     summary ++
     map (fun it => (fst it, totals_of (records disk (snd it)))) folder_to_dbs).
Proof.
  revert all_stats summary.
  induction folder_to_dbs as [|[folder db_files] l IH]; intros all_stats summary Hnd.
  - simpl. by rewrite !app_nil_r.
  - cbn [fold_left]. rewrite analyse_folder_eq.
    apply NoDup_app in Hnd as (Hs & Hdis & Hl). simpl in Hl.
    apply NoDup_cons in Hl as [Hfresh Hl].
    rewrite summary_set_fresh; cycle 1.
    { intros Hin. apply (Hdis _ Hin). simpl. apply elem_of_cons. by left. }
    rewrite IH; cycle 1.
    { rewrite map_app. simpl. rewrite <- app_assoc. simpl.
      apply NoDup_app. split_and!; [exact Hs| |by apply NoDup_cons].
      exact Hdis. }
    simpl. by rewrite <- !app_assoc.
Qed.

Lemma collect_all_stats_acc (disk : gmap string Db.table)
    (folder_to_dbs : list (string * list string))
    (all_stats : list stats) (summary : list (string * Main.folder_totals)) :
  fst (fold_left
    (fun (acc : list stats * list (string * Main.folder_totals)) item =>
       let (all_stats, folder_summary) := acc in
       let (folder, db_files) := (item : string * list string) in
       let (all_stats, folder_totals) :=
         Main.analyse_folder disk db_files all_stats in
       (all_stats, Main.summary_set folder_summary folder folder_totals))
    folder_to_dbs (all_stats, summary))
  = all_stats ++ concat (map (fun it => records disk (snd it)) folder_to_dbs).
Proof.
  revert all_stats summary.
  induction folder_to_dbs as [|[folder db_files] l IH]; intros all_stats summary.
  - simpl. by rewrite app_nil_r.
  - cbn [fold_left]. rewrite analyse_folder_eq, IH. simpl.
    by rewrite <- app_assoc.
Qed.

Lemma records_app (disk : gmap string Db.table) (l1 l2 : list string) :
  records disk (l1 ++ l2) = records disk l1 ++ records disk l2.
Proof.
  unfold records. apply omap_app.
Qed.

Lemma records_concat (disk : gmap string Db.table)
    (folder_to_dbs : list (string * list string)) :
  concat (map (fun it => records disk (snd it)) folder_to_dbs) =
  records disk (concat (map snd folder_to_dbs)).
Proof.
  induction folder_to_dbs as [|it l IH]; simpl; [done|].
  by rewrite records_app, IH.
Qed.

Lemma records_length (disk : gmap string Db.table) (l : list string) :
  (length (records disk l) <= length l)%nat.
Proof.
  unfold records. induction l as [|f l IH]; [simpl; lia|].
  cbn [omap list_omap length].
  change (list_omap _ _ ?g l) with (omap g l).
  destruct (AiStudio.get_stats f (disk !! f)); simpl; lia.
Qed.

(** X5: [all_stats] after the loop holds the records of the database
    files that could be analysed, in the order of the folders and of the
    files in them; a file for which [get_stats] returns [None] (it
    cannot be queried, or the counting loop raises) adds nothing and
    stops nothing, so there are at most as many records as files. *)
Theorem X5_all_stats (disk : gmap string Db.table)
    (folder_to_dbs : list (string * list string)) :
  let files := concat (map snd folder_to_dbs) in
  fst (Main.collect disk folder_to_dbs) = records disk files /\
  (length (fst (Main.collect disk folder_to_dbs)) <= length files)%nat /\
  (forall before after db_file,
     files = before ++ db_file :: after ->
     AiStudio.get_stats db_file (disk !! db_file) = None ->
     fst (Main.collect disk folder_to_dbs) =
     records disk before ++ records disk after).
Proof.
  intros files. unfold Main.collect.
  rewrite collect_all_stats_acc, records_concat. simpl. fold files.
  split; [reflexivity|]. split; [apply records_length|].
  intros before after db_file -> Hnone.
  rewrite records_app. f_equal. unfold records at 1. simpl. by rewrite Hnone.
Qed.

Lemma X5_all_stats_witness :
  fst (Main.collect sample_disk sample_folders) =
  records sample_disk ["/d/a.db"] ++ records sample_disk ["/d/sub/b.sqlite"].
Proof.
  apply (proj2 (proj2 (X5_all_stats sample_disk sample_folders))
           ["/d/a.db"] ["/d/sub/b.sqlite"] "/d/broken.db"); reflexivity.
Defined.

(** X6: when the folders are pairwise different, as the keys of
    [folder_to_dbs] are, [folder_summary] has one entry per folder, in
    order, and each of the five totals of a folder is the sum of that
    counter over the records of the folder's files. *)
Theorem X6_folder_totals (disk : gmap string Db.table)
    (folder_to_dbs : list (string * list string)) :
  NoDup (map fst folder_to_dbs) ->
  map fst (snd (Main.collect disk folder_to_dbs)) = map fst folder_to_dbs /\
  forall i folder db_files,
    folder_to_dbs !! i = Some (folder, db_files) ->
    exists t,
      snd (Main.collect disk folder_to_dbs) !! i = Some (folder, t) /\
      Main.ft_total_rows t = sum_of total_rows (records disk db_files) /\
      Main.ft_is_done_1_count t = sum_of is_done_1_count (records disk db_files) /\
      Main.ft_is_done_0_count t = sum_of is_done_0_count (records disk db_files) /\
      Main.ft_cmx_document_id_not_empty_count t =
        sum_of cmx_document_id_not_empty_count (records disk db_files) /\
      Main.ft_is_done_0_with_error_count t =
        sum_of is_done_0_with_error_count (records disk db_files).
Proof.
  intros Hnd. unfold Main.collect. rewrite collect_acc by exact Hnd. simpl.
  split.
  - rewrite map_map. simpl. reflexivity.
  - intros i folder db_files Hi.
    exists (totals_of (records disk db_files)). split; [|by repeat split].
    rewrite list_lookup_fmap, Hi. reflexivity.
Qed.

Lemma X6_folder_totals_witness :
  map fst (snd (Main.collect sample_disk sample_folders)) = ["/d"; "/d/sub"] /\
  exists t,
    snd (Main.collect sample_disk sample_folders) !! 0%nat = Some ("/d", t) /\
    Main.ft_total_rows t =
      sum_of total_rows (records sample_disk ["/d/a.db"; "/d/broken.db"]) /\
    Main.ft_is_done_1_count t =
      sum_of is_done_1_count (records sample_disk ["/d/a.db"; "/d/broken.db"]) /\
    Main.ft_is_done_0_count t =
      sum_of is_done_0_count (records sample_disk ["/d/a.db"; "/d/broken.db"]) /\
    Main.ft_cmx_document_id_not_empty_count t =
      sum_of cmx_document_id_not_empty_count
        (records sample_disk ["/d/a.db"; "/d/broken.db"]) /\
    Main.ft_is_done_0_with_error_count t =
      sum_of is_done_0_with_error_count
        (records sample_disk ["/d/a.db"; "/d/broken.db"]).
Proof.
  assert (NoDup (map fst sample_folders)) as Hnd.
  { apply NoDup_cons. split; [|apply NoDup_singleton].
    rewrite list_elem_of_singleton. discriminate. }
  destruct (X6_folder_totals sample_disk sample_folders Hnd) as [Hkeys Hall].
  split; [exact Hkeys|].
  apply (Hall 0%nat "/d" ["/d/a.db"; "/d/broken.db"]). reflexivity.
Defined.

Lemma sum_over_map (total : Main.folder_totals -> Z) (counter : stats -> Z)
    (disk : gmap string Db.table) (l : list (string * list string)) :
  (forall records, total (totals_of records) = sum_of counter records) ->
  sum_over total
    (map (fun it => (fst it, totals_of (records disk (snd it)))) l) =
  sum_of counter (concat (map (fun it => records disk (snd it)) l)).
Proof.
  intros Hsum. unfold sum_over in *.
  induction l as [|it l IH]; cbn [map concat foldr snd]; [done|].
  rewrite IH, sum_of_app, Hsum. reflexivity.
Qed.

(** X7: when the folders are pairwise different, each total summed over
    the folders of [folder_summary] is that counter summed over
    [all_stats]: no record is counted twice or left out. *)
Theorem X7_totals_conserved (disk : gmap string Db.table)
    (folder_to_dbs : list (string * list string)) :
  NoDup (map fst folder_to_dbs) ->
  let all_stats := fst (Main.collect disk folder_to_dbs) in
  let folder_summary := snd (Main.collect disk folder_to_dbs) in
  sum_over Main.ft_total_rows folder_summary = sum_of total_rows all_stats /\
  sum_over Main.ft_is_done_1_count folder_summary =
    sum_of is_done_1_count all_stats /\
  sum_over Main.ft_is_done_0_count folder_summary =
    sum_of is_done_0_count all_stats /\
  sum_over Main.ft_cmx_document_id_not_empty_count folder_summary =
    sum_of cmx_document_id_not_empty_count all_stats /\
  sum_over Main.ft_is_done_0_with_error_count folder_summary =
    sum_of is_done_0_with_error_count all_stats.
Proof.
  intros Hnd. unfold Main.collect. rewrite collect_acc by exact Hnd. simpl.
  split_and!; by apply sum_over_map.
Qed.

Lemma X7_totals_conserved_witness :
  sum_over Main.ft_total_rows (snd (Main.collect sample_disk sample_folders)) =
    sum_of total_rows (fst (Main.collect sample_disk sample_folders)).
Proof.
  apply (X7_totals_conserved sample_disk sample_folders).
  apply NoDup_cons. split; [|apply NoDup_singleton].
  rewrite list_elem_of_singleton. discriminate.
Defined.

End MainFacts.

(** ** What the console shows and what the CSV file carries *)

Module MessageFacts.

Lemma has_app (c : ascii) (a b : string) :
  Str.has c (a +:+ b) = Str.has c a || Str.has c b.
Proof.
  induction a as [|d a IH]; simpl; [done|]. by rewrite IH, orb_assoc.
Qed.

Lemma replace_char_removes (old : ascii) (new s : string) :
  Str.has old new = false -> Str.has old (Str.replace_char old new s) = false.
Proof.
  intros Hnew. induction s as [|c s IH]; simpl; [done|].
  destruct (Ascii.eqb c old) eqn:E.
  - by rewrite has_app, Hnew, IH.
  - simpl. by rewrite E, IH.
Qed.

Lemma replace_char_keeps_out (c old : ascii) (new s : string) :
  Str.has c new = false -> Str.has c s = false ->
  Str.has c (Str.replace_char old new s) = false.
Proof.
  intros Hnew. induction s as [|d s IH]; simpl; [done|].
  intros [Hd Hs]%orb_false_iff. destruct (Ascii.eqb d old).
  - by rewrite has_app, Hnew, IH.
  - simpl. by rewrite Hd, IH.
Qed.

Lemma replace_char_length (old : ascii) (new s : string) :
  (String.length new <= 1)%nat ->
  (String.length (Str.replace_char old new s) <= String.length s)%nat.
Proof.
  intros Hnew. induction s as [|c s IH]; simpl; [lia|].
  destruct (Ascii.eqb c old); simpl; [|lia].
  rewrite ErrorTable.length_app. lia.
Qed.

(** X14: the message written to the CSV file holds no line feed and no
    carriage return, whatever the message was; cleaning a cleaned message
    changes nothing, and cleaning never makes a message longer. *)
Theorem X14_clean_msg (msg : string) :
  Str.has Str.LF (AiStudio.clean_msg msg) = false /\
  Str.has Str.CR (AiStudio.clean_msg msg) = false /\
  AiStudio.clean_msg (AiStudio.clean_msg msg) = AiStudio.clean_msg msg /\
  Str.len (AiStudio.clean_msg msg) <= Str.len msg.
Proof.
  assert (Str.has Str.LF (AiStudio.clean_msg msg) = false) as HLF.
  { unfold AiStudio.clean_msg. apply replace_char_keeps_out; [done|].
    by apply replace_char_removes. }
  assert (Str.has Str.CR (AiStudio.clean_msg msg) = false) as HCR.
  { unfold AiStudio.clean_msg. by apply replace_char_removes. }
  split_and!; [exact HLF | exact HCR | by apply ErrorTable.clean_msg_id |].
  unfold Str.len, AiStudio.clean_msg.
  pose proof (replace_char_length Str.CR EmptyString
                (Str.replace_char Str.LF " " msg)) as H1.
  pose proof (replace_char_length Str.LF " " msg) as H2.
  simpl in H1, H2. lia.
Qed.

Lemma display_at_most_80 (msg : string) :
  Str.len (AiStudio.display msg) <= 80.
Proof.
  destruct (String.eqb_spec msg AiStudio.NORMALIZED_ERROR_MESSAGE) as [->|Hne].
  - rewrite ErrorTable.display_canonical. by vm_compute.
  - rewrite ErrorTable.display_other by exact Hne. unfold Str.len.
    destruct (Z.ltb_spec 80 (Z.of_nat (String.length msg))).
    + rewrite ErrorTable.length_app, ErrorTable.length_take.
      change (String.length "...") with 3%nat. lia.
    + lia.
Qed.

(** X15: the text shown on the console for a message is never longer
    than 80 characters. *)
Theorem X15_display_width (msg : string) :
  Str.len (AiStudio.display msg) <= 80.
Proof. apply display_at_most_80. Qed.

End MessageFacts.

(** ** Failures and success of the export *)

Module ExportRuns.
Import Archive Failing.

Section WithET.
Variable fromstring : Zip.bytes -> option ET.element.
Variable tostring : ET.element -> Zip.bytes.

(** X16: with at least one record, an export that cannot find the
    template raises [FileNotFoundError]; one whose template has no
    worksheet member raises [KeyError]; one whose worksheet is not
    well-formed raises [ParseError]; one whose worksheet has no
    [sheetData] raises [RuntimeError]; one whose output path cannot be
    opened for writing raises [OSError]. In all five cases no file is
    created or changed: the output is opened only after the checks on
    the template. *)
Theorem X16_export_failures (template_path output_path : string)
    (all_stats : list stats) (file_system : string) (w : world) :
  all_stats <> [] ->
  let run :=
    OpenAI.export_stats_to_excel fromstring tostring template_path output_path
      all_stats file_system w in
  (files w !! node w template_path = None ->
   run = (Raise FileNotFoundError, w)) /\
  (forall template,
     files w !! node w template_path = Some template ->
     Zip.member template OpenAI.SHEET = None ->
     fst run = Raise KeyError /\ files (snd run) = files w) /\
  (forall template sheet_xml,
     files w !! node w template_path = Some template ->
     Zip.member template OpenAI.SHEET = Some sheet_xml ->
     fromstring sheet_xml = None ->
     fst run = Raise ParseError /\ files (snd run) = files w) /\
  (forall template sheet_xml root,
     files w !! node w template_path = Some template ->
     Zip.member template OpenAI.SHEET = Some sheet_xml ->
     fromstring sheet_xml = Some root ->
     ET.find root SHEETDATA = None ->
     fst run = Raise RuntimeError /\ files (snd run) = files w) /\
  (forall template sheet_xml root sheet_data,
     files w !! node w template_path = Some template ->
     Zip.member template OpenAI.SHEET = Some sheet_xml ->
     fromstring sheet_xml = Some root ->
     ET.find root SHEETDATA = Some sheet_data ->
     writable w output_path = false ->
     fst run = Raise OSError /\ files (snd run) = files w).
Proof.
  intros Hstats run. subst run. unfold OpenAI.export_stats_to_excel.
  destruct (OpenAI._build_excel_rows all_stats file_system) as [|row rows] eqn:Erows.
  { by apply ExportFacts.rows_empty in Erows. }
  split_and!.
  - intros Htp. erewrite ExportFacts.bind_raise; cycle 1.
    { unfold zip_open_r. rewrite Htp. reflexivity. }
    done.
  - intros template Htp Hsheet.
    erewrite ExportFacts.bind_return; cycle 1.
    { unfold zip_open_r. rewrite Htp. reflexivity. }
    erewrite ExportFacts.bind_raise; cycle 1.
    { unfold zip_read. rewrite Hsheet. reflexivity. }
    done.
  - intros template sheet_xml Htp Hsheet Hparse.
    erewrite ExportFacts.bind_return; cycle 1.
    { unfold zip_open_r. rewrite Htp. reflexivity. }
    erewrite ExportFacts.bind_return; cycle 1.
    { unfold zip_read. cbn [node writable files trace]. rewrite Hsheet, Htp.
      cbn [mbind option_bind]. rewrite Hsheet. reflexivity. }
    erewrite ExportFacts.bind_raise; cycle 1.
    { unfold OpenAI.parse. rewrite Hparse. reflexivity. }
    done.
  - intros template sheet_xml root Htp Hsheet Hparse Hfind.
    erewrite ExportFacts.bind_return; cycle 1.
    { unfold zip_open_r. rewrite Htp. reflexivity. }
    erewrite ExportFacts.bind_return; cycle 1.
    { unfold zip_read. cbn [node writable files trace]. rewrite Hsheet, Htp.
      cbn [mbind option_bind]. rewrite Hsheet. reflexivity. }
    erewrite ExportFacts.bind_return; cycle 1.
    { unfold OpenAI.parse. rewrite Hparse. reflexivity. }
    fold SHEETDATA. by rewrite Hfind.
  - intros template sheet_xml root sheet_data Htp Hsheet Hparse Hfind Hwr.
    erewrite ExportFacts.bind_return; cycle 1.
    { unfold zip_open_r. rewrite Htp. reflexivity. }
    erewrite ExportFacts.bind_return; cycle 1.
    { unfold zip_read. cbn [node writable files trace]. rewrite Hsheet, Htp.
      cbn [mbind option_bind]. rewrite Hsheet. reflexivity. }
    erewrite ExportFacts.bind_return; cycle 1.
    { unfold OpenAI.parse. rewrite Hparse. reflexivity. }
    fold SHEETDATA. rewrite Hfind.
    erewrite ExportFacts.bind_raise; cycle 1.
    { unfold zip_open_w. cbn [node writable files trace]. rewrite Hwr.
      reflexivity. }
    done.
Qed.

(** X17: with at least one record, a template that holds a well-formed
    worksheet with a [sheetData] element, an output path that can be
    opened for writing and names another file than the template, and
    numbers of a size that [int] and [str] convert, the export returns;
    it opens the template, reads the worksheet, opens the output, then
    reads and writes every member once, in the order of the template;
    the template file is left as it was. *)
Theorem X17_export_returns (template_path output_path : string)
    (all_stats : list stats) (file_system : string) (w : world)
    (template : Zip.archive) (sheet_xml : Zip.bytes)
    (root sheet_data : ET.element) :
  all_stats <> [] ->
  writable w output_path = true ->
  node w template_path <> node w output_path ->
  files w !! node w template_path = Some template ->
  Zip.member template OpenAI.SHEET = Some sheet_xml ->
  fromstring sheet_xml = Some root ->
  ET.find root SHEETDATA = Some sheet_data ->
  Limits.within sheet_data (OpenAI._build_excel_rows all_stats file_system)
    = true ->
  let run :=
    OpenAI.export_stats_to_excel fromstring tostring template_path output_path
      all_stats file_system w in
  fst run = Return tt /\
  trace (snd run) =
    trace w ++
    [EvOpenRead template_path; EvRead template_path OpenAI.SHEET;
     EvOpenWrite output_path] ++
    concat (map (fun name => [EvRead template_path name; EvWrite output_path name])
              (Zip.names template)) /\
  files (snd run) !! node w template_path = Some template.
Proof.
  intros Hstats Hwr Hne Htp Hsheet Hparse Hfind _ run. subst run.
  rewrite (ExportFacts.export_returns fromstring tostring _ _ _ _ _ _ _ _ _
             Hstats Hwr Hne Htp Hsheet Hparse Hfind).
  cbn [fst snd trace files]. split; [done|]. split; [done|].
  by rewrite lookup_insert_ne.
Qed.
End WithET.

Lemma X16_export_failures_witness :
  OpenAI.export_stats_to_excel sample_fromstring sample_tostring
    "entete_stats.xlsx" "out.xlsx" [Rows.sample_clean] "FS" no_template =
    (Raise FileNotFoundError, no_template) /\
  (fst (OpenAI.export_stats_to_excel sample_fromstring sample_tostring
          "entete_stats.xlsx" "out.xlsx" [Rows.sample_clean] "FS" no_sheet) =
     Raise KeyError /\
   files (snd (OpenAI.export_stats_to_excel sample_fromstring sample_tostring
                 "entete_stats.xlsx" "out.xlsx" [Rows.sample_clean] "FS" no_sheet)) =
     files no_sheet) /\
  (fst (OpenAI.export_stats_to_excel sample_fromstring sample_tostring
          "entete_stats.xlsx" "out.xlsx" [Rows.sample_clean] "FS" bad_sheet) =
     Raise ParseError /\
   files (snd (OpenAI.export_stats_to_excel sample_fromstring sample_tostring
                 "entete_stats.xlsx" "out.xlsx" [Rows.sample_clean] "FS" bad_sheet)) =
     files bad_sheet) /\
  (fst (OpenAI.export_stats_to_excel bare_fromstring sample_tostring
          "entete_stats.xlsx" "out.xlsx" [Rows.sample_clean] "FS" bad_sheet) =
     Raise RuntimeError /\
   files (snd (OpenAI.export_stats_to_excel bare_fromstring sample_tostring
                 "entete_stats.xlsx" "out.xlsx" [Rows.sample_clean] "FS" bad_sheet)) =
     files bad_sheet) /\
  (fst (OpenAI.export_stats_to_excel sample_fromstring sample_tostring
          "entete_stats.xlsx" "/proc/out.xlsx" [Rows.sample_clean] "FS"
          sample_world) =
     Raise OSError /\
   files (snd (OpenAI.export_stats_to_excel sample_fromstring sample_tostring
                 "entete_stats.xlsx" "/proc/out.xlsx" [Rows.sample_clean] "FS"
                 sample_world)) =
     files sample_world).
Proof.
  assert ([Rows.sample_clean] <> []) as Hne by discriminate.
  split; [|split; [|split; [|split]]].
  - apply (proj1 (X16_export_failures sample_fromstring sample_tostring
                    "entete_stats.xlsx" "out.xlsx" [Rows.sample_clean] "FS"
                    no_template Hne)).
    reflexivity.
  - apply (proj1 (proj2 (X16_export_failures sample_fromstring sample_tostring
                    "entete_stats.xlsx" "out.xlsx" [Rows.sample_clean] "FS"
                    no_sheet Hne)) [("xl/styles.xml", [Byte.x02])]);
      reflexivity.
  - apply (proj1 (proj2 (proj2 (X16_export_failures sample_fromstring sample_tostring
                    "entete_stats.xlsx" "out.xlsx" [Rows.sample_clean] "FS"
                    bad_sheet Hne))) [(OpenAI.SHEET, [Byte.x00])] [Byte.x00]);
      reflexivity.
  - apply (proj1 (proj2 (proj2 (proj2 (X16_export_failures bare_fromstring
                    sample_tostring
                    "entete_stats.xlsx" "out.xlsx" [Rows.sample_clean] "FS"
                    bad_sheet Hne)))) [(OpenAI.SHEET, [Byte.x00])] [Byte.x00]
             (ET.Element (OpenAI.qname OpenAI.main_ns "worksheet") [] None None []));
      reflexivity.
  - apply (proj2 (proj2 (proj2 (proj2 (X16_export_failures sample_fromstring
                    sample_tostring
                    "entete_stats.xlsx" "/proc/out.xlsx" [Rows.sample_clean] "FS"
                    sample_world Hne)))) sample_template sheet_bytes sample_root
             Sheet.template_sheet_data);
      reflexivity.
Defined.

Lemma X17_export_returns_witness :
  fst sample_run = Return tt /\
  trace (snd sample_run) =
    trace sample_world ++
    [EvOpenRead "entete_stats.xlsx"; EvRead "entete_stats.xlsx" OpenAI.SHEET;
     EvOpenWrite "out.xlsx"] ++
    concat (map (fun name => [EvRead "entete_stats.xlsx" name; EvWrite "out.xlsx" name])
              (Zip.names sample_template)) /\
  files (snd sample_run) !! 0%nat = Some sample_template.
Proof.
  apply (X17_export_returns sample_fromstring sample_tostring
           "entete_stats.xlsx" "out.xlsx"
           [Rows.sample_clean; Rows.sample_errors] "FS" sample_world
           sample_template sheet_bytes sample_root Sheet.template_sheet_data);
    (reflexivity || discriminate || (vm_compute; reflexivity)).
Defined.

End ExportRuns.

(** ** The console table *)

Module TableFacts.
Import Layout.

Lemma widen_from_lookup (row : list value) (i : nat) (ws ws' : list nat) :
  Console.widen_from i row ws = Some ws' ->
  length ws' = length ws /\
  forall j,
    ws' !! j =
    (fun w =>
       match (if decide (i <= j)%nat then row !! (j - i)%nat else None) with
       | Some cell => Nat.max w (String.length (Console.str_cell cell))
       | None => w
       end) <$> ws !! j.
Proof.
  revert i ws. induction row as [|cell row IH]; intros i ws; simpl.
  - intros [= <-]. split; [done|]. intros j.
    destruct (decide (i <= j)%nat); rewrite ?lookup_nil; by destruct (ws !! j).
  - destruct (ws !! i) as [w|] eqn:Ei; [|discriminate].
    intros [Hlen Hlook]%IH. rewrite length_insert in Hlen. split; [exact Hlen|].
    intros j. rewrite Hlook. destruct (decide (j = i)) as [->|Hne].
    + rewrite list_lookup_insert_eq by (by eapply lookup_lt_Some).
      rewrite Ei. simpl. rewrite decide_False by lia.
      rewrite decide_True by lia. by rewrite Nat.sub_diag.
    + rewrite list_lookup_insert_ne by done.
      destruct (ws !! j) as [wj|]; [|done]. simpl. f_equal.
      destruct (decide (S i <= j)%nat), (decide (i <= j)%nat); try lia;
        try reflexivity.
      replace (j - i)%nat with (S (j - S i)) by lia. reflexivity.
Qed.

Lemma widen_from_Some (row : list value) (i : nat) (ws : list nat) :
  is_Some (Console.widen_from i row ws) <->
  row = [] \/ (i + length row <= length ws)%nat.
Proof.
  revert i ws. induction row as [|cell row IH]; intros i ws; simpl.
  - split; [by left | by eexists].
  - destruct (ws !! i) as [w|] eqn:Ei.
    + rewrite IH, length_insert. apply lookup_lt_Some in Ei.
      split.
      * intros [->|H]; right; simpl in *; lia.
      * intros [?|H]; [done|]. right. lia.
    + apply lookup_ge_None in Ei.
      split; [by intros [? ?] | intros [?|?]; [done|lia]].
Qed.

Lemma widen_all_lookup (rows : list (list value)) (ws ws' : list nat) :
  Console.widen_all rows ws = Some ws' ->
  length ws' = length ws /\
  forall j,
    ws' !! j =
    (fun w0 =>
       fold_left
         (fun w row =>
            match row !! j with
            | Some cell => Nat.max w (String.length (Console.str_cell cell))
            | None => w
            end) rows w0) <$> ws !! j.
Proof.
  revert ws. induction rows as [|row rows IH]; intros ws; simpl.
  - intros [= <-]. split; [done|]. intros j. by destruct (ws !! j).
  - destruct (Console.widen_from 0 row ws) as [ws1|] eqn:E1; [|discriminate].
    apply widen_from_lookup in E1 as [Hlen1 Hlook1].
    intros [Hlen Hlook]%IH. split; [congruence|].
    intros j. rewrite Hlook, Hlook1.
    rewrite decide_True by lia. rewrite Nat.sub_0_r.
    by destruct (ws !! j).
Qed.

Lemma widen_all_Some (rows : list (list value)) (ws : list nat) :
  is_Some (Console.widen_all rows ws) <->
  Forall (fun row => (length row <= length ws)%nat) rows.
Proof.
  revert ws. induction rows as [|row rows IH]; intros ws; simpl.
  - split; [constructor | by eexists].
  - rewrite Forall_cons.
    destruct (Console.widen_from 0 row ws) as [ws1|] eqn:E1.
    + assert (is_Some (Console.widen_from 0 row ws)) as H1 by (by eexists).
      apply widen_from_Some in H1.
      apply widen_from_lookup in E1 as [Hlen1 _].
      rewrite IH, Hlen1. simpl in H1.
      assert (length row <= length ws)%nat
        by (destruct H1 as [->|?]; simpl; lia).
      tauto.
    + split; [by intros [? ?]|]. intros [Hrow _].
      assert (is_Some (Console.widen_from 0 row ws)) as [? ?]
        by (apply widen_from_Some; right; simpl; lia).
      congruence.
Qed.

Lemma col_widths_of_eq (headers : list string) (rows : list (list value)) :
  Forall (fun row => (length row <= length headers)%nat) rows ->
  Console.col_widths_of headers rows = Some (widths headers rows).
Proof.
  intros Hrows. unfold Console.col_widths_of.
  destruct (Console.widen_all rows (map String.length headers)) as [ws|] eqn:E.
  - f_equal. apply widen_all_lookup in E as [Hlen Hlook].
    apply list_eq. intros j. rewrite Hlook. unfold widths.
    rewrite list_lookup_fmap, list_lookup_imap.
    by destruct (headers !! j).
  - assert (is_Some (Console.widen_all rows (map String.length headers))) as [? ?].
    { apply widen_all_Some. by rewrite length_map. }
    congruence.
Qed.

Lemma widths_length (headers : list string) (rows : list (list value)) :
  length (widths headers rows) = length headers.
Proof. apply length_imap. Qed.

Lemma fields_from_eq (ws : list nat) (i : nat) (args : list string) :
  (i + length ws <= length args)%nat ->
  Console.fields_from i ws args = Some (zip_with field ws (drop i args)).
Proof.
  revert i. induction ws as [|w ws IH]; intros i Hlen; simpl; [done|].
  simpl in Hlen.
  destruct (args !! i) as [a|] eqn:Ea;
    [|apply lookup_ge_None in Ea; lia].
  rewrite IH by lia. rewrite (drop_S _ _ _ Ea). simpl.
  reflexivity.
Qed.

Lemma fields_from_None (ws : list nat) (i : nat) (args : list string) :
  (i <= length args)%nat -> (length args < i + length ws)%nat ->
  Console.fields_from i ws args = None.
Proof.
  revert i. induction ws as [|w ws IH]; intros i Hi Hlen; simpl in *; [lia|].
  destruct (args !! i) as [a|] eqn:Ea; [|done].
  apply lookup_lt_Some in Ea. rewrite IH by lia. done.
Qed.

Lemma fmt_format_eq (ws : list nat) (args : list string) :
  (length ws <= length args)%nat ->
  Console.fmt_format ws args = Some (row_line ws args).
Proof.
  intros Hlen. unfold Console.fmt_format. by rewrite fields_from_eq.
Qed.

Lemma fmt_format_None (ws : list nat) (args : list string) :
  (length args < length ws)%nat -> Console.fmt_format ws args = None.
Proof.
  intros Hlen. unfold Console.fmt_format.
  by rewrite fields_from_None by lia.
Qed.

Lemma print_rows_ok (ws : list nat) (rows : list (list value)) :
  Forall (fun row => (length ws <= length row)%nat) rows ->
  Console.print_rows ws rows =
  (map (fun row => row_line ws (map Console.str_cell row)) rows, true).
Proof.
  induction rows as [|row rows IH]; simpl; [done|].
  intros [Hrow Hrows]%Forall_cons.
  rewrite fmt_format_eq by (by rewrite length_map).
  by rewrite IH.
Qed.

Lemma print_rows_raises (ws : list nat) (rows : list (list value)) :
  snd (Console.print_rows ws rows) = true ->
  Forall (fun row => (length ws <= length row)%nat) rows.
Proof.
  induction rows as [|row rows IH]; simpl; [constructor|].
  destruct (decide (length ws <= length row)%nat) as [Hle|Hgt].
  - rewrite fmt_format_eq by (by rewrite length_map).
    destruct (Console.print_rows ws rows) as [lines ok]. simpl in *.
    intros Hok. constructor; auto.
  - rewrite fmt_format_None by (rewrite length_map; lia). discriminate.
Qed.

Lemma print_table_returns_iff (headers : list string)
    (rows : list (list value)) (title : option string) :
  snd (Console.print_table headers rows title) = true <->
  rectangular headers rows.
Proof.
  unfold rectangular, Console.print_table.
  destruct rows as [|row rows]; [by split; [constructor|]|].
  set (all := row :: rows).
  destruct (decide (Forall (fun r => (length r <= length headers)%nat) all))
    as [Hle|Hnle].
  - rewrite (col_widths_of_eq headers all Hle).
    rewrite fmt_format_eq by (by rewrite widths_length).
    destruct (Console.print_rows (widths headers all) all) as [lines ok] eqn:E.
    split.
    + destruct ok; [|discriminate]. intros _.
      assert (snd (Console.print_rows (widths headers all) all) = true) as Hok
        by (by rewrite E).
      apply print_rows_raises in Hok. rewrite widths_length in Hok.
      rewrite Forall_forall in *. intros r Hr.
      specialize (Hle r Hr). specialize (Hok r Hr). lia.
    + intros Hrect. rewrite print_rows_ok in E; cycle 1.
      { rewrite widths_length. eapply Forall_impl; [exact Hrect|].
        simpl. intros; lia. }
      by injection E as <- <-.
  - destruct (Console.col_widths_of headers all) as [ws|] eqn:E.
    + exfalso. apply Hnle. unfold Console.col_widths_of in E.
      assert (is_Some (Console.widen_all all (map String.length headers))) as H
        by (by eexists).
      apply widen_all_Some in H. by rewrite length_map in H.
    + split; [discriminate|]. intros Hrect. exfalso. apply Hnle.
      eapply Forall_impl; [exact Hrect|]. simpl. intros; lia.
Qed.

(** X8: [print_table] returns when every row has exactly as many cells
    as there are headers, and only then: a longer row makes
    [col_widths[i]] raise, a shorter one makes [fmt.format] raise. A table
    without rows always returns. *)
Theorem X8_print_table_returns (headers : list string)
    (rows : list (list value)) (title : option string) :
  snd (Console.print_table headers rows title) = true <->
  rectangular headers rows.
Proof. apply print_table_returns_iff. Qed.

Lemma X8_print_table_returns_witness :
  snd (Console.print_table sample_headers sample_rows (Some "Errors")) = true.
Proof.
  apply (proj2 (X8_print_table_returns sample_headers sample_rows (Some "Errors"))).
  repeat constructor.
Defined.

Lemma length_append (a b : string) :
  String.length (a +:+ b) = (String.length a + String.length b)%nat.
Proof. induction a as [|c a IH]; simpl; [done | by rewrite IH]. Qed.

Lemma length_rep (c : ascii) (n : nat) : String.length (Text.rep c n) = n.
Proof. induction n as [|n IH]; simpl; [done | by rewrite IH]. Qed.

Lemma length_join (s1 s2 : string) (l1 l2 : list string) :
  String.length s1 = String.length s2 ->
  Forall2 (fun a b => String.length a = String.length b) l1 l2 ->
  String.length (Text.join s1 l1) = String.length (Text.join s2 l2).
Proof.
  intros Hs Hl. induction Hl as [|a b l1 l2 Hab Hl IH]; [done|].
  destruct Hl as [|a' b' l1 l2 Hab' Hl]; [exact Hab|].
  change (String.length (a +:+ s1 +:+ Text.join s1 (a' :: l1)) =
          String.length (b +:+ s2 +:+ Text.join s2 (b' :: l2))).
  rewrite !length_append. rewrite IH. lia.
Qed.

Lemma length_field (w : nat) (a : string) :
  (String.length a <= w)%nat -> String.length (field w a) = (w + 2)%nat.
Proof.
  intros Hle. unfold field, Text.ljust.
  rewrite !length_append, length_rep. simpl. lia.
Qed.

Lemma length_row_line (ws : list nat) (cells : list string) :
  Forall2 (fun w a => (String.length a <= w)%nat) ws cells ->
  String.length (row_line ws cells) = String.length (Console.sep_line ws).
Proof.
  intros Hfit. unfold row_line, Console.sep_line.
  rewrite !length_append. f_equal. f_equal.
  apply length_join; [done|].
  induction Hfit as [|w a ws cells Hwa Hfit IH]; simpl; constructor; [|exact IH].
  by rewrite length_field, length_rep.
Qed.

Lemma column_width_ge_acc (rows : list (list value)) (j w0 : nat) :
  (w0 <=
   fold_left
     (fun w row =>
        match row !! j with
        | Some cell => Nat.max w (String.length (Console.str_cell cell))
        | None => w
        end) rows w0)%nat.
Proof.
  revert w0. induction rows as [|row rows IH]; intros w0; simpl; [lia|].
  etransitivity; [|apply IH]. destruct (row !! j); lia.
Qed.

Lemma column_width_ge_cell (rows : list (list value)) (row : list value)
    (cell : value) (j w0 : nat) :
  row ∈ rows -> row !! j = Some cell ->
  (String.length (Console.str_cell cell) <=
   fold_left
     (fun w row =>
        match row !! j with
        | Some cell => Nat.max w (String.length (Console.str_cell cell))
        | None => w
        end) rows w0)%nat.
Proof.
  revert w0. induction rows as [|r rows IH]; intros w0 Hin Hcell.
  - by apply elem_of_nil in Hin.
  - simpl. apply elem_of_cons in Hin as [<-|Hin].
    + rewrite Hcell. etransitivity; [|apply column_width_ge_acc]. lia.
    + by apply IH.
Qed.

Lemma widths_fit_headers (headers : list string) (rows : list (list value)) :
  Forall2 (fun w a => (String.length a <= w)%nat) (widths headers rows) headers.
Proof.
  apply Forall2_same_length_lookup. split; [by rewrite widths_length|].
  intros j w h Hw Hh. unfold widths in Hw.
  rewrite list_lookup_imap, Hh in Hw. injection Hw as <-.
  apply column_width_ge_acc.
Qed.

Lemma widths_fit_row (headers : list string) (rows : list (list value))
    (row : list value) :
  row ∈ rows -> length row = length headers ->
  Forall2 (fun w a => (String.length a <= w)%nat)
    (widths headers rows) (map Console.str_cell row).
Proof.
  intros Hin Hlen. apply Forall2_same_length_lookup.
  split; [by rewrite widths_length, length_map|].
  intros j w a Hw Ha. unfold widths in Hw.
  rewrite list_lookup_imap in Hw. rewrite list_lookup_fmap in Ha.
  destruct (headers !! j) as [h|]; [|discriminate]. injection Hw as <-.
  destruct (row !! j) as [cell|] eqn:Ecell; [|discriminate]. injection Ha as <-.
  by eapply column_width_ge_cell.
Qed.

(** X9: for a table with rows, each of as many cells as there are
    headers, [print_table] prints the title if there is one, the
    separator, the header line, the separator, one line per row in order,
    the separator and an empty line. The width of a column is the longest
    of its header and its cell texts, so every text is shown in full, and
    all the lines of the table have the same length. *)
Theorem X9_print_table_layout (headers : list string)
    (rows : list (list value)) (title : option string) :
  rows <> [] -> rectangular headers rows ->
  let ws := widths headers rows in
  let sep := Console.sep_line ws in
  let lines := map (fun row => row_line ws (map Console.str_cell row)) rows in
  Console.print_table headers rows title =
    (title_lines title ++ [sep; row_line ws headers; sep] ++ lines ++
     [sep; EmptyString], true) /\
  Forall2 (fun w h => (String.length h <= w)%nat) ws headers /\
  Forall (fun row =>
            Forall2 (fun w cell =>
                       (String.length (Console.str_cell cell) <= w)%nat) ws row)
    rows /\
  Forall (fun line => String.length line = String.length sep)
    (row_line ws headers :: lines).
Proof.
  intros Hrows Hrect ws sep lines.
  assert (Forall (fun r => (length r <= length headers)%nat) rows) as Hle.
  { eapply Forall_impl; [exact Hrect|]. simpl. intros; lia. }
  assert (Forall (fun r => (length ws <= length r)%nat) rows) as Hge.
  { subst ws. rewrite widths_length.
    eapply Forall_impl; [exact Hrect|]. simpl. intros; lia. }
  split_and!.
  - subst ws sep lines. unfold Console.print_table.
    destruct rows as [|row rows']; [done|].
    rewrite (col_widths_of_eq _ _ Hle).
    rewrite fmt_format_eq by (by rewrite widths_length).
    rewrite (print_rows_ok _ _ Hge). reflexivity.
  - apply widths_fit_headers.
  - apply Forall_forall. intros row Hin.
    pose proof (widths_fit_row headers rows row Hin) as Hfit.
    unfold rectangular in Hrect. rewrite Forall_forall in Hrect.
    specialize (Hfit (Hrect row Hin)).
    by apply Forall2_fmap_r in Hfit.
  - constructor.
    + apply length_row_line, widths_fit_headers.
    + subst lines. apply Forall_map, Forall_forall. intros row Hin. simpl.
      apply length_row_line. apply widths_fit_row; [exact Hin|].
      unfold rectangular in Hrect. rewrite Forall_forall in Hrect. auto.
Qed.

Example print_table_sample :
  Console.print_table sample_headers sample_rows (Some "Errors") =
  (["Errors";
    "+-----------+-------------+";
    "| Message   | Occurrences |";
    "+-----------+-------------+";
    "| timeout   | 12          |";
    "| disk full | 3           |";
    "+-----------+-------------+";
    EmptyString], true).
Proof. reflexivity. Qed.

(** A row with a cell too many: only the title is printed. *)
Example print_table_long_row :
  Console.print_table sample_headers [[VStr "a"; VInt 1; VInt 2]] (Some "T") =
  (["T"], false).
Proof. reflexivity. Qed.

(** A row with a cell too few: the frame and the header are printed. *)
Example print_table_short_row :
  Console.print_table sample_headers [[VStr "a"]] None =
  (["+---------+-------------+"; "| Message | Occurrences |";
    "+---------+-------------+"], false).
Proof. reflexivity. Qed.

Lemma X9_print_table_layout_witness :
  let ws := widths sample_headers sample_rows in
  let sep := Console.sep_line ws in
  let lines :=
    map (fun row => row_line ws (map Console.str_cell row)) sample_rows in
  Console.print_table sample_headers sample_rows None =
    (title_lines None ++ [sep; row_line ws sample_headers; sep] ++ lines ++
     [sep; EmptyString], true) /\
  Forall2 (fun w h => (String.length h <= w)%nat) ws sample_headers /\
  Forall (fun row =>
            Forall2 (fun w cell =>
                       (String.length (Console.str_cell cell) <= w)%nat) ws row)
    sample_rows /\
  Forall (fun line => String.length line = String.length sep)
    (row_line ws sample_headers :: lines).
Proof.
  apply (X9_print_table_layout sample_headers sample_rows None).
  - discriminate.
  - repeat constructor.
Defined.

Lemma column_width_le (h : string) (rows : list (list value)) (j bound : nat) :
  (String.length h <= bound)%nat ->
  Forall (fun row =>
            forall cell, row !! j = Some cell ->
                         (String.length (Console.str_cell cell) <= bound)%nat) rows ->
  (column_width h rows j <= bound)%nat.
Proof.
  unfold column_width. generalize (String.length h). intros w0 Hw0 Hrows.
  revert w0 Hw0. induction Hrows as [|row rows Hrow Hrows IH]; intros w0 Hw0;
    simpl; [exact Hw0|].
  apply IH. destruct (row !! j) as [cell|]; [|exact Hw0].
  specialize (Hrow cell eq_refl). lia.
Qed.

(** X19: the error table of a breakdown is always printed to its end:
    every row has the two cells of the two headers; its rows are the
    buckets by count descending; and its message column is never wider
    than 80 characters. *)
Theorem X19_error_table (error_breakdown : Py.dict) (title : option string) :
  snd (Console.print_error_table error_breakdown title) = true /\
  rectangular Console.ERROR_HEADERS (Console.error_table error_breakdown) /\
  map (drop 1) (Console.error_table error_breakdown) =
    map (fun it => [VInt (snd it)]) (Py.sorted_desc snd error_breakdown) /\
  (column_width "Message d'erreur" (Console.error_table error_breakdown) 0
   <= 80)%nat.
Proof.
  assert (rectangular Console.ERROR_HEADERS (Console.error_table error_breakdown))
    as Hrect.
  { unfold rectangular, Console.error_table. apply Forall_map, Forall_forall.
    by intros [disp cnt] _. }
  split_and!.
  - by apply print_table_returns_iff.
  - exact Hrect.
  - unfold Console.error_table, AiStudio.err_rows. rewrite !map_map.
    apply map_ext. by intros [msg cnt].
  - apply column_width_le; [simpl; lia|].
    unfold Console.error_table, AiStudio.err_rows. rewrite map_map.
    apply Forall_map, Forall_forall. intros [msg cnt] _ cell [= <-]. simpl.
    pose proof (MessageFacts.display_at_most_80 msg) as H.
    unfold Str.len in H. lia.
Qed.

End TableFacts.

(** ** Column names and cell references *)

Module ReferenceFacts.
Import Columns Sheet.

Lemma col_loop_value (fuel : nat) (idx : Z) (name : string) :
  (Z.to_nat idx <= fuel)%nat -> 0 <= idx ->
  col_value (OpenAI.col_loop fuel idx name) =
  idx * 26 ^ Z.of_nat (String.length name) + col_value name.
Proof.
  revert idx name. induction fuel as [|fuel IH]; intros idx name Hfuel Hidx.
  - simpl. assert (idx = 0) as -> by lia. lia.
  - cbn [OpenAI.col_loop]. destruct (Z.ltb_spec 0 idx) as [Hpos|Hle].
    + assert (0 <= (idx - 1) / 26 <= idx - 1) as Hq.
      { split; [apply Z.div_pos; lia|]. apply Z.div_le_upper_bound; lia. }
      pose proof (Z.mod_pos_bound (idx - 1) 26 ltac:(lia)) as Hr.
      rewrite IH by lia. cbn [col_value String.length].
      unfold Py.chr. rewrite nat_ascii_embedding by lia.
      rewrite Z2Nat.id by lia. rewrite Nat2Z.inj_succ, Z.pow_succ_r by lia.
      pose proof (Z.div_mod (idx - 1) 26 ltac:(lia)) as Hdm.
      set (p := 26 ^ Z.of_nat (String.length name)) in *.
      set (q := (idx - 1) / 26) in *. set (r := (idx - 1) mod 26) in *.
      nia.
    + assert (idx = 0) as -> by lia. lia.
Qed.

Lemma col_loop_letters (fuel : nat) (idx : Z) (name : string) :
  upper_letters name = true ->
  upper_letters (OpenAI.col_loop fuel idx name) = true.
Proof.
  revert idx name. induction fuel as [|fuel IH]; intros idx name Hname.
  - exact Hname.
  - cbn [OpenAI.col_loop]. destruct (Z.ltb_spec 0 idx) as [Hpos|Hle]; [|exact Hname].
    apply IH. cbn [upper_letters]. rewrite Hname, andb_true_r.
    pose proof (Z.mod_pos_bound (idx - 1) 26 ltac:(lia)) as Hr.
    unfold is_upper, Py.chr. rewrite nat_ascii_embedding by lia.
    apply andb_true_iff. split; [apply Nat.leb_le | apply Nat.leb_le]; lia.
Qed.

Lemma col_name_value (idx : Z) :
  0 <= idx -> col_value (OpenAI._col_idx_to_name idx) = idx.
Proof.
  intros Hidx. unfold OpenAI._col_idx_to_name.
  rewrite col_loop_value by lia. simpl. lia.
Qed.

(** X10: [_col_idx_to_name] writes a column index from 1 on in bijective
    base 26: the name is made of letters A to Z only, it is not empty, it
    spells the index back, and so two different indices never get the
    same name; an index below 1 gets the empty name. *)
Theorem X10_column_names (idx idx' : Z) :
  upper_letters (OpenAI._col_idx_to_name idx) = true /\
  (idx <= 0 -> OpenAI._col_idx_to_name idx = EmptyString) /\
  (1 <= idx ->
   col_value (OpenAI._col_idx_to_name idx) = idx /\
   OpenAI._col_idx_to_name idx <> EmptyString) /\
  (1 <= idx -> 1 <= idx' ->
   OpenAI._col_idx_to_name idx = OpenAI._col_idx_to_name idx' -> idx = idx').
Proof.
  split_and!.
  - by apply col_loop_letters.
  - intros Hle. unfold OpenAI._col_idx_to_name.
    destruct (Z.to_nat idx); [done|]. simpl.
    by destruct (Z.ltb_spec 0 idx); [lia|].
  - intros Hpos. split; [apply col_name_value; lia|].
    intros E. pose proof (col_name_value idx ltac:(lia)) as Hv.
    rewrite E in Hv. simpl in Hv. lia.
  - intros H1 H2 E. rewrite <- (col_name_value idx), <- (col_name_value idx') by lia.
    by rewrite E.
Qed.

Lemma X10_column_names_witness :
  OpenAI._col_idx_to_name 0 = EmptyString /\
  (col_value (OpenAI._col_idx_to_name 28) = 28 /\
   OpenAI._col_idx_to_name 28 <> EmptyString) /\
  28 = 28.
Proof.
  pose proof (X10_column_names 28 28) as (_ & _ & Hpos & Hinj).
  pose proof (X10_column_names 0 0) as (_ & Hzero & _).
  split; [apply Hzero; lia|]. split; [apply Hpos; lia|].
  apply Hinj; [lia | lia | reflexivity].
Defined.

Lemma str_head (n : Z) :
  exists c s, Py.str n = String c s /\ is_upper c = false.
Proof.
  unfold Py.str. destruct n as [|p|p]; cbn [Z.to_int NilZero.string_of_int].
  - by exists "0"%char, EmptyString.
  - unfold NilZero.string_of_uint.
    pose proof (DecimalPos.Unsigned.to_uint_nonnil p) as Hp.
    destruct (Pos.to_uint p); [done|..]; simpl; by eexists _, _.
  - by eexists _, _.
Qed.

Lemma letters_then_other (a1 a2 b1 b2 : string) :
  upper_letters a1 = true -> upper_letters a2 = true ->
  (exists c s, b1 = String c s /\ is_upper c = false) ->
  (exists c s, b2 = String c s /\ is_upper c = false) ->
  a1 +:+ b1 = a2 +:+ b2 -> a1 = a2 /\ b1 = b2.
Proof.
  revert a2. induction a1 as [|c1 a1 IH]; intros a2 H1 H2 Hb1 Hb2 E.
  - destruct a2 as [|c2 a2]; [by split|]. exfalso.
    destruct Hb1 as (c & s & -> & Hc). simpl in E. injection E as -> _.
    simpl in H2. rewrite Hc in H2. discriminate.
  - destruct a2 as [|c2 a2].
    + exfalso. destruct Hb2 as (c & s & -> & Hc). simpl in E. injection E as -> _.
      simpl in H1. rewrite Hc in H1. discriminate.
    + simpl in E. injection E as -> E. simpl in H1, H2.
      apply andb_true_iff in H1 as [_ H1]. apply andb_true_iff in H2 as [_ H2].
      destruct (IH a2 H1 H2 Hb1 Hb2 E) as [-> ->]. by split.
Qed.

(** X11: the reference written on a cell is the column name followed by
    the row index, and it names the cell: two cells of columns from 1 on
    that carry the same reference are in the same column and row. *)
Theorem X11_cell_references (row_index row_index' col_idx col_idx' : Z)
    (v v' : value) :
  ET.get (OpenAI.make_cell row_index col_idx v) "r" =
    Some (OpenAI._col_idx_to_name col_idx +:+ Py.str row_index) /\
  (1 <= col_idx -> 1 <= col_idx' ->
   ET.get (OpenAI.make_cell row_index col_idx v) "r" =
   ET.get (OpenAI.make_cell row_index' col_idx' v') "r" ->
   col_idx = col_idx' /\ row_index = row_index').
Proof.
  assert (forall r c x,
            ET.get (OpenAI.make_cell r c x) "r" =
            Some (OpenAI._col_idx_to_name c +:+ Py.str r)) as Href.
  { intros r c x. unfold OpenAI.make_cell.
    by destruct (OpenAI.is_empty x), (OpenAI.is_number x). }
  split; [apply Href|]. intros Hc Hc'. rewrite !Href. intros [= E].
  apply letters_then_other in E as [Ecol Erow];
    try (by apply col_loop_letters); try apply str_head.
  split.
  - rewrite <- (col_name_value col_idx), <- (col_name_value col_idx') by lia.
    by rewrite Ecol.
  - by apply IntFacts.str_inj.
Qed.

Lemma X11_cell_references_witness :
  ET.get (OpenAI.make_cell 3 27 (VInt 5)) "r" = Some "AA3" /\
  (27 = 27 /\ 3 = 3).
Proof.
  split.
  - apply (proj1 (X11_cell_references 3 3 27 27 (VInt 5) VNone)).
  - apply (proj2 (X11_cell_references 3 3 27 27 (VInt 5) VNone));
      [lia | lia | reflexivity].
Defined.

Lemma rows_of_stats_shape (file_system : string) (st : stats) :
  Forall (fun row =>
            length row = 7%nat /\
            map OpenAI.is_number row = [false; false; true; true; true; false; true])
    (OpenAI.rows_of_stats file_system st).
Proof.
  unfold OpenAI.rows_of_stats.
  destruct (error_message_breakdown st) as [|it d].
  - by repeat constructor.
  - apply Forall_map, Forall_forall. by intros [msg count] _.
Qed.

Lemma make_row_seven (k : Z) (row : list value) :
  length row = 7%nat ->
  map (fun cell => ET.get cell "r") (ET.children (OpenAI.make_row k row)) =
  map (fun col => Some (col +:+ Py.str k)) seven /\
  Forall (fun cell => ET.tag cell = CELL) (ET.children (OpenAI.make_row k row)).
Proof.
  intros Hlen. rewrite SheetFacts.make_row_cells.
  destruct row as [|v1 [|v2 [|v3 [|v4 [|v5 [|v6 [|v7 [|? ?]]]]]]]]; try done.
  assert (forall c x, ET.get (OpenAI.make_cell k c x) "r" =
                      Some (OpenAI._col_idx_to_name c +:+ Py.str k)) as Href.
  { intros c x. unfold OpenAI.make_cell.
    by destruct (OpenAI.is_empty x), (OpenAI.is_number x). }
  assert (forall c x, ET.tag (OpenAI.make_cell k c x) = CELL) as Htag.
  { intros c x. unfold OpenAI.make_cell.
    by destruct (OpenAI.is_empty x), (OpenAI.is_number x). }
  split.
  - cbn [imap map]. unfold compose. rewrite !Href. reflexivity.
  - cbn [imap]. unfold compose. repeat constructor; apply Htag.
Qed.

(** X12: every export row has seven values, of which the third, fourth,
    fifth and seventh are numbers and the others texts; the row element
    made of it has seven cells, referenced A to G followed by the row
    index, which is what the fixed [spans] of 1:7 says. *)
Theorem X12_seven_cells (all_stats : list stats) (file_system : string)
    (k : Z) :
  Forall (fun row =>
            length row = 7%nat /\
            map OpenAI.is_number row =
              [false; false; true; true; true; false; true] /\
            map (fun cell => ET.get cell "r")
              (ET.children (OpenAI.make_row k row)) =
              map (fun col => Some (col +:+ Py.str k)) seven /\
            Forall (fun cell => ET.tag cell = CELL)
              (ET.children (OpenAI.make_row k row)) /\
            ET.get (OpenAI.make_row k row) "spans" = Some "1:7")
    (OpenAI._build_excel_rows all_stats file_system).
Proof.
  rewrite _build_excel_rows_concat. apply Forall_concat, Forall_map, Forall_forall.
  intros st _. simpl.
  eapply Forall_impl; [apply rows_of_stats_shape|]. simpl.
  intros row [Hlen Hkind]. destruct (make_row_seven k row Hlen) as [Hrefs Htags].
  split_and!; try done.
  unfold OpenAI.make_row. by rewrite SheetFacts.fold_append.
Qed.

Lemma highest_app (l1 l2 : list Z) :
  highest (l1 ++ l2) = Z.max (highest l1) (highest l2).
Proof.
  unfold highest. induction l1 as [|k l1 IH]; simpl.
  - assert (0 <= foldr Z.max 0 l2); [|lia].
    induction l2; simpl; lia.
  - rewrite IH. lia.
Qed.

Lemma highest_nonneg (l : list Z) : 0 <= highest l.
Proof. unfold highest. induction l; simpl; lia. Qed.

Lemma highest_seqZ (m : Z) (n : nat) :
  0 <= m -> highest (seqZ (m + 1) (Z.of_nat n)) = if n is O then 0 else m + Z.of_nat n.
Proof.
  intros Hm. induction n as [|n IH]; [done|].
  rewrite seqZ_S, highest_app, IH. unfold highest. cbn [foldr].
  destruct n; lia.
Qed.

Lemma new_rows_indices (sheet_data : ET.element) (rows_data : list (list value)) :
  map index_of (OpenAI.new_rows sheet_data rows_data) =
  map Some (seqZ (highest (existing_indices sheet_data) + 1)
              (Z.of_nat (length rows_data))).
Proof.
  rewrite SheetFacts.new_rows_eq. apply list_eq. intros i.
  rewrite !list_lookup_fmap, list_lookup_imap.
  destruct (rows_data !! i) eqn:E; simpl.
  - rewrite SheetFacts.make_row_index, lookup_seqZ_lt; [reflexivity|].
    apply lookup_lt_Some in E. lia.
  - rewrite lookup_seqZ_ge; [reflexivity|].
    apply lookup_ge_None in E. lia.
Qed.

Lemma omap_map_Some {A B : Type} (f : A -> option B) (l : list A) (l' : list B) :
  map f l = map Some l' -> omap f l = l'.
Proof.
  revert l'. induction l as [|x l IH]; intros [|y l']; simpl; try done.
  intros [= -> E]. change (list_omap _ _ f l) with (omap f l). by rewrite (IH l').
Qed.

Lemma filter_all {A : Type} (p : A -> bool) (l : list A) :
  Forall (fun x => p x = true) l -> List.filter p l = l.
Proof.
  induction 1 as [|x l Hx Hl IH]; simpl; [done|]. by rewrite Hx, IH.
Qed.

Lemma new_rows_tags (sheet_data : ET.element) (rows_data : list (list value)) :
  List.filter (ET.has_tag ROW) (OpenAI.new_rows sheet_data rows_data) =
  OpenAI.new_rows sheet_data rows_data.
Proof.
  apply filter_all, Forall_forall. intros e (i & He)%list_elem_of_lookup.
  rewrite SheetFacts.new_rows_eq, list_lookup_imap in He.
  destruct (rows_data !! i); simplify_eq/=.
  unfold ET.has_tag. rewrite SheetFacts.make_row_tag. apply String.eqb_refl.
Qed.

Lemma existing_indices_append (sheet_data : ET.element)
    (rows_data : list (list value)) :
  existing_indices (OpenAI.append_rows rows_data sheet_data) =
  existing_indices sheet_data ++
  seqZ (highest (existing_indices sheet_data) + 1) (Z.of_nat (length rows_data)).
Proof.
  unfold existing_indices, ET.findall, OpenAI.append_rows.
  rewrite SheetFacts.fold_append. cbn [ET.children].
  rewrite List.filter_app, omap_app, new_rows_tags. f_equal.
  apply omap_map_Some, new_rows_indices.
Qed.

(** X13: appending continues where the last appending stopped: after the
    rows of a first export are appended, the rows of a second one get the
    indices that follow the last index of the first, so that no index is
    used twice and none is skipped from one export to the next. *)
Theorem X13_append_twice (sheet_data : ET.element)
    (rows1 rows2 : list (list value)) :
  let m := highest (existing_indices sheet_data) in
  let once := OpenAI.append_rows rows1 sheet_data in
  highest (existing_indices once) = m + Z.of_nat (length rows1) /\
  map index_of (OpenAI.new_rows once rows2) =
    map Some (seqZ (m + Z.of_nat (length rows1) + 1) (Z.of_nat (length rows2))) /\
  existing_indices (OpenAI.append_rows rows2 once) =
    existing_indices sheet_data ++
    seqZ (m + 1) (Z.of_nat (length rows1 + length rows2)).
Proof.
  intros m once.
  assert (highest (existing_indices once) = m + Z.of_nat (length rows1)) as Hm.
  { subst once. rewrite existing_indices_append, highest_app.
    fold m. rewrite highest_seqZ by apply highest_nonneg.
    pose proof (highest_nonneg (existing_indices sheet_data)). fold m in H.
    destruct (length rows1); lia. }
  split; [exact Hm|]. split.
  - by rewrite new_rows_indices, Hm.
  - rewrite existing_indices_append, Hm. subst once.
    rewrite existing_indices_append. fold m. rewrite <- app_assoc. f_equal.
    rewrite Nat2Z.inj_add, seqZ_app by lia. do 2 f_equal. lia.
Qed.

End ReferenceFacts.
